(** * Collage maker (main.cpp): the assembly worker and the grid controller

    A shallow embedding of [CollageWorker] and of the store-facing slots of
    [CollageApp].  C++ [int] values are integers of [Z] with the 32-bit
    wrap-around written out at every arithmetic operation; [std::map] is a
    [gmap]; the [std::vector]s of the worker are lists; the signals a slot
    emits are collected, in emission order, in a list.  The Qt classes the
    program calls ([QImage], [QPainter], [QFileInfo]) are modelled after
    their documented behaviour in module [Qt]. *)

From Stdlib Require Import ZArith Lia List Sorted.
From stdpp Require Import gmap strings list fin_maps sorting pretty.

Local Open Scope Z_scope.

(** ** C++ [int] *)

Module Int.

Definition INT_MAX : Z := 2147483647.
Definition INT_MIN : Z := -2147483648.

(** Reduction of an integer to the 32-bit two's complement range. *)
Definition wrap (z : Z) : Z := (z + 2147483648) mod 4294967296 - 2147483648.

Definition add (a b : Z) : Z := wrap (a + b).
Definition sub (a b : Z) : Z := wrap (a - b).
Definition mul (a b : Z) : Z := wrap (a * b).

(** [/] and [%] truncate toward zero. *)
Definition div (a b : Z) : Z := wrap (a ÷ b).
Definition rem (a b : Z) : Z := Z.rem a b.

Definition in_range (z : Z) : Prop := INT_MIN <= z <= INT_MAX.

End Int.

(** ** The Qt classes used by the program *)

Module Qt.

(** A pixel value, [0xAARRGGBB]. *)
Definition QRgb : Type := Z.

(** [Qt::white] as written by [QImage::fill] into an RGB32 image. *)
Definition white : QRgb := 4294967295.

(** A [QImage] is null or owns a raster of positive width and height
    ([QImage(w, h, format)] with [w <= 0] or [h <= 0] is null).  The pixel
    function is only meaningful inside the raster. *)
Inductive QImage : Type :=
| Null
| Raster (w h : positive) (px : Z -> Z -> QRgb).

Definition isNull (img : QImage) : bool :=
  match img with Null => true | Raster _ _ _ => false end.

Definition width (img : QImage) : Z :=
  match img with Null => 0 | Raster w _ _ => Z.pos w end.

Definition height (img : QImage) : Z :=
  match img with Null => 0 | Raster _ h _ => Z.pos h end.

Definition pixel (img : QImage) (x y : Z) : QRgb :=
  match img with Null => 0 | Raster _ _ px => px x y end.

(** [QImage::valid(x, y)]. *)
Definition valid (img : QImage) (x y : Z) : bool :=
  (0 <=? x) && (x <? width img) && (0 <=? y) && (y <? height img).

(** [QImage(w, h, format)] with the given content. *)
Definition create (w h : Z) (px : Z -> Z -> QRgb) : QImage :=
  match w, h with
  | Z.pos w', Z.pos h' => Raster w' h' px
  | _, _ => Null
  end.

(** [QImage::copy(x, y, w, h)]: the result always has the given size, and
    pixels beyond the source are 0. *)
Definition copy (img : QImage) (x y w h : Z) : QImage :=
  if isNull img then Null
  else create w h (fun px py =>
         if valid img (x + px) (y + py) then pixel img (x + px) (y + py) else 0).

(** [QImage::fill(color)]. *)
Definition fill (c : QRgb) (img : QImage) : QImage :=
  match img with
  | Null => Null
  | Raster w h _ => Raster w h (fun _ _ => c)
  end.

(** What the program leaves to Qt and to the platform: the resampling
    filter of [Qt::SmoothTransformation], the source-over composition of
    [QPainter], and whether a file can be written at a path. *)
Class Backend : Type := {
  smoothTransform : QImage -> Z -> Z -> Z -> Z -> QRgb;
  sourceOver : QRgb -> QRgb -> QRgb;
  writable : string -> bool
}.

(** [QImage::scaled(w, h, Qt::IgnoreAspectRatio, Qt::SmoothTransformation)]:
    null for an empty target size, the image itself when the size does not
    change. *)
Definition scaled `{Backend} (img : QImage) (w h : Z) : QImage :=
  if isNull img then Null
  else if (w <=? 0) || (h <=? 0) then Null
  else if (w =? width img) && (h =? height img) then img
  else create w h (smoothTransform img w h).

(** [QPainter::drawImage(x, y, image)] on a painter opened on [device]:
    clipped to the device; nothing is drawn on a null device or from a null
    image. *)
Definition drawImage `{Backend} (device : QImage) (x y : Z) (img : QImage) : QImage :=
  match device, img with
  | Raster dw dh dpx, Raster _ _ _ =>
      Raster dw dh (fun px py =>
        if valid img (px - x) (py - y)
        then sourceOver (pixel img (px - x) (py - y)) (dpx px py)
        else dpx px py)
  | _, _ => device
  end.

(** The files of the disk, each with the image it decodes to ([Null] when
    it does not decode). *)
Definition Disk : Type := gmap string QImage.

(** [QImage(fileName)]. *)
Definition load (disk : Disk) (fileName : string) : QImage :=
  default Null (disk !! fileName).

(** [QImage::save(fileName, "PNG", 100)]. *)
Definition save `{Backend} (img : QImage) (fileName : string) (disk : Disk) : bool * Disk :=
  if isNull img then (false, disk)
  else if writable fileName then (true, <[fileName := img]> disk)
  else (false, disk).

(** The part of [s] after the last occurrence of [c]. *)
Fixpoint afterLast (c : Ascii.ascii) (s : string) : option string :=
  match s with
  | EmptyString => None
  | String a r =>
      match afterLast c r with
      | Some t => Some t
      | None => if Ascii.eqb a c then Some r else None
      end
  end.

(** The characters ['/'] and ['.']. *)
Definition slash : Ascii.ascii := Ascii.ascii_of_nat 47.
Definition dot : Ascii.ascii := Ascii.ascii_of_nat 46.

(** [QFileInfo::fileName()]. *)
Definition fileName (filePath : string) : string :=
  default filePath (afterLast slash filePath).

(** [QFileInfo::suffix()]. *)
Definition suffix (filePath : string) : string :=
  default EmptyString (afterLast dot (fileName filePath)).

Definition lowerAscii (a : Ascii.ascii) : Ascii.ascii :=
  let n := Ascii.nat_of_ascii a in
  if ((65 <=? n) && (n <=? 90))%nat then Ascii.ascii_of_nat (n + 32) else a.

(** [QString::toLower()] on the characters of the ASCII range. *)
Fixpoint toLower (s : string) : string :=
  match s with
  | EmptyString => EmptyString
  | String a r => String (lowerAscii a) (toLower r)
  end.

(** [QStringList::contains]. *)
Definition contains (l : list string) (s : string) : bool :=
  existsb (String.eqb s) l.

Inductive MessageBox : Type :=
| warning (title text : string)
| critical (title text : string)
| information (title text : string).

End Qt.

(** ** [class CollageWorker] *)

Module CollageWorker.
Import Qt.

Record ImageData : Type := { path : string; image : QImage }.

Inductive Signal : Type :=
| progress (value : Z)
| finished (success : bool) (message : string).

Record t : Type := {
  imageData : gmap (Z * Z) ImageData;
  gridSize : Z;
  maxCollageSize : Z;
  outputPath : string
}.

Definition cropCenterToSquare (img : QImage) : QImage :=
  let width := width img in
  let height := height img in
  let newSize := Z.min width height in
  let left := Int.div (Int.sub width newSize) 2 in
  let top := Int.div (Int.sub height newSize) 2 in
  copy img left top newSize newSize.

(** The first loop of [process]: the cells of the grid in row-major order,
    a null image for a coordinate without entry. *)
Definition buildImages (w : t) : list QImage :=
  flat_map (fun i =>
    map (fun j =>
      match imageData w !! (i, j) with
      | Some d => image d
      | None => Null
      end) (seqZ 0 (gridSize w))) (seqZ 0 (gridSize w)).

(** One iteration of the second loop. *)
Definition cropStep (acc : list QImage * Z) (img : QImage) : list QImage * Z :=
  let '(processedImages, minSize) := acc in
  if negb (isNull img) then
    let squared := cropCenterToSquare img in
    (processedImages ++ [squared], Z.min minSize (width squared))
  else (processedImages ++ [Null], minSize).

Definition cropPass (images : list QImage) : list QImage * Z :=
  foldl cropStep ([], Int.INT_MAX) images.

(** Lines 80-84: the collage side and the clamp to [maxCollageSize]. *)
Definition sizeCap (gridSize maxCollageSize minSize : Z) : Z * Z :=
  let collageSize := Int.mul gridSize minSize in
  if collageSize >? maxCollageSize then
    let minSize := Int.div maxCollageSize gridSize in
    (minSize, Int.mul gridSize minSize)
  else (minSize, collageSize).

(** The progress value emitted at the end of iteration [i] of the paint loop. *)
Definition paintProgress (size i : Z) : Z :=
  Int.add 60 (Int.div (Int.mul (Int.wrap i) 35) size).

(** The paint loop from index [i] on, [rest] being the images not yet
    visited. *)
Fixpoint paintLoop `{Backend} (gridSize minSize size : Z) (i : Z) (rest : list QImage)
    (collage : QImage) (emitted : list Signal) : QImage * list Signal :=
  match rest with
  | [] => (collage, emitted)
  | img :: rest' =>
      let collage' :=
        if negb (isNull img) then
          let row := Int.div (Int.wrap i) gridSize in
          let col := Int.rem (Int.wrap i) gridSize in
          let resized := scaled img minSize minSize in
          drawImage collage (Int.mul col minSize) (Int.mul row minSize) resized
        else collage in
      paintLoop gridSize minSize size (i + 1) rest' collage'
        (emitted ++ [progress (paintProgress size i)])
  end.

Definition msgNoImages : string := "Нет изображений для создания коллажа!".
Definition msgSaveError : string := "Ошибка сохранения файла!".
Definition newline : string := String (Ascii.ascii_of_nat 10) EmptyString.
Definition msgSaved (collageSize : Z) (outputPath : string) : string :=
  "Коллаж " +:+ pretty collageSize +:+ "x" +:+ pretty collageSize
    +:+ " сохранен как:" +:+ newline +:+ outputPath.

(** What one call of [process] leaves behind: the signals in emission
    order, the collage raster once it has been constructed, and the disk. *)
Record Run : Type := {
  signals : list Signal;
  raster : option QImage;
  disk : Disk
}.

(** [process()].  None of the modelled operations throws, so the [catch]
    handler has no counterpart. *)
Definition process `{Backend} (w : t) (disk0 : Disk) : Run :=
  let images := buildImages w in
  let emitted := [progress 20] in
  let '(processedImages, minSize) := cropPass images in
  if minSize =? Int.INT_MAX then
    {| signals := emitted ++ [finished false msgNoImages];
       raster := None;
       disk := disk0 |}
  else
    let emitted := emitted ++ [progress 40] in
    let '(minSize, collageSize) := sizeCap (gridSize w) (maxCollageSize w) minSize in
    let emitted := emitted ++ [progress 60] in
    let collage := fill white (create collageSize collageSize (fun _ _ => 0)) in
    let '(collage, emitted) :=
      paintLoop (gridSize w) minSize (Int.wrap (Z.of_nat (length processedImages)))
        0 processedImages collage emitted in
    let emitted := emitted ++ [progress 95] in
    let '(saved, disk1) := save collage (outputPath w) disk0 in
    let emitted := emitted ++ [progress 100] in
    {| signals := emitted ++
         [if saved then finished true (msgSaved collageSize (outputPath w))
          else finished false msgSaveError];
       raster := Some collage;
       disk := disk1 |}.

End CollageWorker.

(** ** [class CollageApp]: the image store and its slots *)

Module CollageApp.
Import Qt.

Abbreviation ImageData := CollageWorker.ImageData.

(** The members the store-facing slots read or write.  Of the widget grid
    [cells] (a vector of vectors of [ImageCell*]) the model keeps the
    side, which is all the slots below depend on; pixmaps, tool tips and
    style sheets are not modelled. *)
Record t : Type := {
  gridSize : Z;
  maxCollageSize : Z;
  imageData : gmap (Z * Z) ImageData;
  cells : Z
}.

(** The state the constructor leaves: [gridSize(3)], [maxCollageSize(4000)],
    no image, no cell widget yet. *)
Definition initial : t :=
  {| gridSize := 3; maxCollageSize := 4000; imageData := ∅; cells := 0 |}.

(** Whether [cells[static_cast<size_t>(row)][static_cast<size_t>(col)]]
    indexes inside the vectors. *)
Definition inCells (app : t) (row col : Z) : bool :=
  (0 <=? row) && (row <? cells app) && (0 <=? col) && (col <? cells app).

(** [updateAllThumbnails]: [true] when every cell access of the loop
    indexes inside [cells]. *)
Definition updateAllThumbnails (app : t) : bool :=
  map_fold (fun (k : Z * Z) (_ : ImageData) (ok : bool) =>
    let row := k.1 in
    let col := k.2 in
    if (row <? gridSize app) && (col <? gridSize app)
    then ok && inCells app row col
    else ok) true (imageData app).

(** [recreateGrid]: rebuilds [cells] with side [gridSize].  [None] stands
    for an execution that leaves defined behaviour: the division by
    [gridSize] when it is 0, the [resize] to a negative size, a thumbnail
    written outside [cells]. *)
Definition recreateGrid (app : t) : option t :=
  if gridSize app <=? 0 then None
  else
    let app' := {| gridSize := gridSize app; maxCollageSize := maxCollageSize app;
                   imageData := imageData app; cells := gridSize app |} in
    if updateAllThumbnails app' then Some app' else None.

Definition validExtensions : list string :=
  ["jpg"; "jpeg"; "png"; "bmp"; "gif"; "tiff"; "webp"].

(** How a call of [onImageDropped] ends: at one of its two early returns,
    at its last line, or with the store written and the cell access that
    follows indexing outside [cells] (undefined in the source). *)
Inductive DropOutcome : Type :=
| DropRejected (box : MessageBox)
| DropStored
| DropCellOutOfRange.

Definition onImageDropped (app : t) (disk : Disk) (row col : Z) (filePath : string)
    : DropOutcome * t :=
  if negb (contains validExtensions (toLower (suffix filePath))) then
    (DropRejected (warning "Предупреждение" "Выбранный файл не является изображением"), app)
  else
    let image := load disk filePath in
    if isNull image then
      (DropRejected (critical "Ошибка" "Не удалось загрузить изображение"), app)
    else
      let app' :=
        {| gridSize := gridSize app; maxCollageSize := maxCollageSize app;
           imageData := <[(row, col) := {| CollageWorker.path := filePath;
                                           CollageWorker.image := image |}]> (imageData app);
           cells := cells app |} in
      if inCells app' row col then (DropStored, app') else (DropCellOutOfRange, app').

(** One iteration of the restore loop of [onGridSizeChanged]. *)
Definition restoreStep (disk : Disk) (newSize : Z) (k : Z * Z) (d : ImageData)
    (acc : option t) : option t :=
  match acc with
  | None => None
  | Some app =>
      let row := k.1 in
      let col := k.2 in
      if (row <? newSize) && (col <? newSize) then
        match onImageDropped app disk row col (CollageWorker.path d) with
        | (DropCellOutOfRange, _) => None
        | (_, app') => Some app'
        end
      else Some app
  end.

(** [onGridSizeChanged]; the loop visits the entries of [oldData], whose
    keys are distinct. *)
Definition onGridSizeChanged (app : t) (disk : Disk) (newSize : Z) : option t :=
  if negb (newSize =? gridSize app) then
    let oldData := imageData app in
    let app1 := {| gridSize := newSize; maxCollageSize := maxCollageSize app;
                   imageData := ∅; cells := cells app |} in
    match recreateGrid app1 with
    | None => None
    | Some app2 => map_fold (restoreStep disk newSize) (Some app2) oldData
    end
  else Some app.

Definition clearAll (app : t) : option t :=
  recreateGrid {| gridSize := gridSize app; maxCollageSize := maxCollageSize app;
                  imageData := ∅; cells := cells app |}.

(** A worker moved to its thread; [quitRequested] is the exit flag of the
    thread's event loop. *)
Record Job : Type := {
  worker : CollageWorker.t;
  quitRequested : bool
}.

Inductive CreateResult : Type :=
| CreateWarned (box : MessageBox)
| CreateDismissed
| CreateStarted (job : Job).

(** [createCollage]; [outputPath] is what the save dialog returns, empty
    when it is dismissed. *)
Definition createCollage (app : t) (outputPath : string) : CreateResult :=
  if Nat.eqb (size (imageData app)) 0 then
    CreateWarned (warning "Предупреждение" "Добавьте хотя бы одно изображение!")
  else if String.eqb outputPath "" then CreateDismissed
  else CreateStarted
         {| worker := {| CollageWorker.imageData := imageData app;
                         CollageWorker.gridSize := gridSize app;
                         CollageWorker.maxCollageSize := maxCollageSize app;
                         CollageWorker.outputPath := outputPath |};
            quitRequested := false |}.

(** [QThread::quit], the only slot connected to the progress dialog's
    [canceled] signal (line 539): it raises the exit flag of the event
    loop of the thread. *)
Definition quit (job : Job) : Job :=
  {| worker := worker job; quitRequested := true |}.

(** The thread: [started] invokes [process], which runs to its end; the
    exit flag is looked at by the event loop only, between two slot
    invocations, and [process] reads nothing of the thread. *)
Definition runThread `{Backend} (job : Job) (disk0 : Disk) : CollageWorker.Run :=
  CollageWorker.process (worker job) disk0.

(** The lambda connected to [finished]. *)
Definition onFinished (success : bool) (message : string) : MessageBox :=
  if success then information "Успех" message else critical "Ошибка" message.

End CollageApp.

(** ** [class ImageCell] *)

Module ImageCell.
Import Qt.

Definition styleEmpty : string :=
  "QLabel { background-color: lightgray; border: 1px solid gray; }".
Definition styleFilled : string :=
  "QLabel { background-color: lightgreen; border: 1px solid gray; }".
Definition styleDragOver : string :=
  "QLabel { background-color: lightyellow; border: 2px solid blue; }".

(** The members of a cell and the properties of its [QLabel] that the
    program writes or reads.  A label shows a text or a pixmap, never
    both: [setText] removes the pixmap, [setPixmap] removes the text and
    [clear] removes either.  A pixmap is kept as the image it was made
    from. *)
Record t : Type := {
  row : Z;
  col : Z;
  hasImage : bool;
  styleSheet : string;
  text : string;
  pixmap : option QImage;
  toolTip : string;
  width : Z
}.

(** [QString("%1x%2").arg(row+1).arg(col+1)]. *)
Definition label (row col : Z) : string :=
  pretty (Int.add row 1) +:+ "x" +:+ pretty (Int.add col 1).

(** The constructor; a child widget starts 100 pixels wide. *)
Definition new (row col : Z) : t :=
  {| row := row; col := col; hasImage := false;
     styleSheet := styleEmpty; text := label row col; pixmap := None;
     toolTip := EmptyString; width := 100 |}.

(** [QWidget::setFixedSize(s, s)], as far as the width goes. *)
Definition setFixedSize (s : Z) (c : t) : t :=
  {| row := row c; col := col c; hasImage := hasImage c;
     styleSheet := styleSheet c; text := text c; pixmap := pixmap c;
     toolTip := toolTip c; width := Z.max s 0 |}.

Definition setImageData (px : QImage) (filename : string) (c : t) : t :=
  {| row := row c; col := col c; hasImage := true;
     styleSheet := styleFilled; text := EmptyString; pixmap := Some px;
     toolTip := filename; width := width c |}.

Definition clearImage (c : t) : t :=
  {| row := row c; col := col c; hasImage := false;
     styleSheet := styleEmpty; text := label (row c) (col c); pixmap := None;
     toolTip := EmptyString; width := width c |}.

Definition isEmpty (c : t) : bool := negb (hasImage c).

Definition setStyleSheet (style : string) (c : t) : t :=
  {| row := row c; col := col c; hasImage := hasImage c;
     styleSheet := style; text := text c; pixmap := pixmap c;
     toolTip := toolTip c; width := width c |}.

(** A [QUrl]: of a local file, or any other. *)
Inductive QUrl : Type :=
| LocalFile (path : string)
| Remote (url : string).

Definition toLocalFile (u : QUrl) : string :=
  match u with LocalFile path => path | Remote _ => EmptyString end.

(** The [QMimeData] of a drag: the URL list it carries, if it carries
    one ([hasUrls]). *)
Definition MimeData : Type := option (list QUrl).

Definition hasUrls (mime : MimeData) : bool :=
  match mime with Some _ => true | None => false end.

Definition dragEnterEvent (mime : MimeData) (c : t) : t :=
  if hasUrls mime then setStyleSheet styleDragOver c else c.

Definition dragLeaveEvent (c : t) : t :=
  if hasImage c then setStyleSheet styleFilled c else setStyleSheet styleEmpty c.

(** The first half of [dropEvent]: the arguments of the [imageDropped]
    signal it emits, if it emits it. *)
Definition dropSignal (mime : MimeData) (c : t) : option (Z * Z * string) :=
  match mime with
  | Some (u :: _) => Some (row c, col c, toLocalFile u)
  | _ => None
  end.

(** The second half of [dropEvent], run on the cell as the slots
    connected to the signal have left it. *)
Definition dropEventEnd (c : t) : t :=
  if hasImage c then setStyleSheet styleFilled c else setStyleSheet styleEmpty c.

End ImageCell.

(** ** [class CollageApp] with its widgets *)

(** The slots of [CollageApp] once more, this time with the cell widgets
    and the info label they write.  The sizes of the window and of
    [dropContainer] are decided by Qt's layout and are inputs. *)
Module CollageWindow.
Import Qt.

Abbreviation ImageData := CollageWorker.ImageData.

Record t : Type := {
  gridSize : Z;
  maxCollageSize : Z;
  imageData : gmap (Z * Z) ImageData;
  cells : list (list ImageCell.t);
  infoText : string;
  infoStyle : string;
  lastWidth : Z;
  lastHeight : Z
}.

Definition styleBlue : string := "QLabel { color: blue; }".
Definition styleGreen : string := "QLabel { color: green; }".

(** What [setupUI] leaves, before [initializeGrid] has run. *)
Definition initial : t :=
  {| gridSize := 3; maxCollageSize := 4000; imageData := ∅; cells := [];
     infoText := "Перетащите изображения в ячейки сетки"; infoStyle := styleBlue;
     lastWidth := -1; lastHeight := -1 |}.

Definition withCells (cells' : list (list ImageCell.t)) (app : t) : t :=
  {| gridSize := gridSize app; maxCollageSize := maxCollageSize app;
     imageData := imageData app; cells := cells';
     infoText := infoText app; infoStyle := infoStyle app;
     lastWidth := lastWidth app; lastHeight := lastHeight app |}.

Definition withImageData (data : gmap (Z * Z) ImageData) (app : t) : t :=
  {| gridSize := gridSize app; maxCollageSize := maxCollageSize app;
     imageData := data; cells := cells app;
     infoText := infoText app; infoStyle := infoStyle app;
     lastWidth := lastWidth app; lastHeight := lastHeight app |}.

(** [updateInfoLabel]. *)
Definition updateInfoLabel (app : t) : t :=
  let totalCells := Int.mul (gridSize app) (gridSize app) in
  let filledCells := Int.wrap (Z.of_nat (size (imageData app))) in
  {| gridSize := gridSize app; maxCollageSize := maxCollageSize app;
     imageData := imageData app; cells := cells app;
     infoText := "Заполнено " +:+ pretty filledCells +:+ " из " +:+ pretty totalCells
                   +:+ " ячеек";
     infoStyle := if filledCells =? totalCells then styleGreen else styleBlue;
     lastWidth := lastWidth app; lastHeight := lastHeight app |}.

(** The cell size [recreateGrid] computes from the size of
    [dropContainer] (lines 375-384). *)
Definition cellSizeFor (containerWidth containerHeight gridSize : Z) : Z :=
  let availableWidth := Int.sub containerWidth 20 in
  let availableHeight := Int.sub containerHeight 20 in
  let '(availableWidth, availableHeight) :=
    if (availableWidth <=? 1) || (availableHeight <=? 1) then (400, 400)
    else (availableWidth, availableHeight) in
  let cellSize := Z.min (Int.div availableWidth gridSize)
                        (Int.div availableHeight gridSize) in
  Z.max cellSize 50.

(** The grid of fresh cells [recreateGrid] builds (lines 387-400). *)
Definition newCells (gridSize cellSize : Z) : list (list ImageCell.t) :=
  map (fun i =>
    map (fun j => ImageCell.setFixedSize cellSize (ImageCell.new i j))
        (seqZ 0 gridSize)) (seqZ 0 gridSize).

(** [cells[static_cast<size_t>(row)][static_cast<size_t>(col)]], when it
    indexes inside the vectors. *)
Definition cellAt (cells : list (list ImageCell.t)) (row col : Z) : option ImageCell.t :=
  if (0 <=? row) && (0 <=? col) then
    match cells !! Z.to_nat row with
    | Some cellRow => cellRow !! Z.to_nat col
    | None => None
    end
  else None.

(** The grid with the cell at [(row, col)] replaced. *)
Definition setCellAt (cells : list (list ImageCell.t)) (row col : Z) (c : ImageCell.t)
    : list (list ImageCell.t) :=
  alter (fun cellRow => <[Z.to_nat col := c]> cellRow) (Z.to_nat row) cells.

(** The thumbnail shown for an image in a cell [cellSize] wide. *)
Definition thumbnail `{Backend} (image : QImage) (cellSize : Z) : QImage :=
  scaled (CollageWorker.cropCenterToSquare image) cellSize cellSize.

(** One iteration of the loop of [updateAllThumbnails]; [None] when the
    cell access indexes outside [cells]. *)
Definition thumbnailStep `{Backend} (gridSize cellSize : Z) (k : Z * Z) (d : ImageData)
    (acc : option (list (list ImageCell.t))) : option (list (list ImageCell.t)) :=
  match acc with
  | None => None
  | Some cells =>
      let row := k.1 in
      let col := k.2 in
      if (row <? gridSize) && (col <? gridSize) then
        match cellAt cells row col with
        | Some cell =>
            Some (setCellAt cells row col
                    (ImageCell.setImageData
                       (thumbnail (CollageWorker.image d) cellSize)
                       (fileName (CollageWorker.path d)) cell))
        | None => None
        end
      else Some cells
  end.

Definition updateAllThumbnails `{Backend} (cellSize : Z) (app : t) : option t :=
  match map_fold (thumbnailStep (gridSize app) cellSize) (Some (cells app)) (imageData app) with
  | Some cells' => Some (withCells cells' app)
  | None => None
  end.

(** [recreateGrid], for a [dropContainer] of the given size.  [None]
    stands for an execution that leaves defined behaviour, as in
    [CollageApp.recreateGrid]. *)
Definition recreateGrid `{Backend} (containerWidth containerHeight : Z) (app : t) : option t :=
  if gridSize app <=? 0 then None
  else
    let cellSize := cellSizeFor containerWidth containerHeight (gridSize app) in
    let app1 := withCells (newCells (gridSize app) cellSize) app in
    match updateAllThumbnails cellSize app1 with
    | Some app2 => Some (updateInfoLabel app2)
    | None => None
    end.

Definition onImageDropped `{Backend} (app : t) (disk : Disk) (row col : Z)
    (filePath : string) : CollageApp.DropOutcome * t :=
  if negb (contains CollageApp.validExtensions (toLower (suffix filePath))) then
    (CollageApp.DropRejected
       (warning "Предупреждение" "Выбранный файл не является изображением"), app)
  else
    let image := load disk filePath in
    if isNull image then
      (CollageApp.DropRejected (critical "Ошибка" "Не удалось загрузить изображение"), app)
    else
      let app1 :=
        withImageData (<[(row, col) := {| CollageWorker.path := filePath;
                                          CollageWorker.image := image |}]> (imageData app))
                      app in
      match cellAt (cells app1) row col with
      | None => (CollageApp.DropCellOutOfRange, app1)
      | Some cell =>
          let cellSize := ImageCell.width cell in
          let app2 :=
            withCells (setCellAt (cells app1) row col
                         (ImageCell.setImageData (thumbnail image cellSize)
                            (fileName filePath) cell)) app1 in
          (CollageApp.DropStored, updateInfoLabel app2)
      end.

(** [ImageCell::dropEvent] on the cell at [(row, col)] of the grid, its
    signal delivered to [onImageDropped]. *)
Definition dropEvent `{Backend} (app : t) (disk : Disk) (row col : Z)
    (mime : ImageCell.MimeData) : option (option CollageApp.DropOutcome * t) :=
  match cellAt (cells app) row col with
  | None => None
  | Some cell =>
      let '(outcome, app1) :=
        match ImageCell.dropSignal mime cell with
        | Some (r, c, filePath) =>
            let '(o, app1) := onImageDropped app disk r c filePath in (Some o, app1)
        | None => (None, app)
        end in
      match cellAt (cells app1) row col with
      | Some cell1 =>
          Some (outcome,
                withCells (setCellAt (cells app1) row col (ImageCell.dropEventEnd cell1)) app1)
      | None => None
      end
  end.

(** One iteration of the restore loop of [onGridSizeChanged]. *)
Definition restoreStep `{Backend} (disk : Disk) (newSize : Z) (k : Z * Z) (d : ImageData)
    (acc : option t) : option t :=
  match acc with
  | None => None
  | Some app =>
      let row := k.1 in
      let col := k.2 in
      if (row <? newSize) && (col <? newSize) then
        match onImageDropped app disk row col (CollageWorker.path d) with
        | (CollageApp.DropCellOutOfRange, _) => None
        | (_, app') => Some app'
        end
      else Some app
  end.

Definition onGridSizeChanged `{Backend} (containerWidth containerHeight : Z) (app : t)
    (disk : Disk) (newSize : Z) : option t :=
  if negb (newSize =? gridSize app) then
    let oldData := imageData app in
    let app1 := {| gridSize := newSize; maxCollageSize := maxCollageSize app;
                   imageData := ∅; cells := cells app;
                   infoText := infoText app; infoStyle := infoStyle app;
                   lastWidth := lastWidth app; lastHeight := lastHeight app |} in
    match recreateGrid containerWidth containerHeight app1 with
    | None => None
    | Some app2 => map_fold (restoreStep disk newSize) (Some app2) oldData
    end
  else Some app.

Definition clearAll `{Backend} (containerWidth containerHeight : Z) (app : t) : option t :=
  recreateGrid containerWidth containerHeight (withImageData ∅ app).

(** [checkWindowSize], the window being [currentWidth] x [currentHeight]. *)
Definition checkWindowSize `{Backend} (currentWidth currentHeight : Z)
    (containerWidth containerHeight : Z) (app : t) : option t :=
  if negb (lastWidth app =? currentWidth) || negb (lastHeight app =? currentHeight) then
    recreateGrid containerWidth containerHeight
      {| gridSize := gridSize app; maxCollageSize := maxCollageSize app;
         imageData := imageData app; cells := cells app;
         infoText := infoText app; infoStyle := infoStyle app;
         lastWidth := currentWidth; lastHeight := currentHeight |}
  else Some app.

End CollageWindow.

(** ** Definitions used to state the properties *)

Module Props.
Import Qt.

(** A backend to run the program on concrete inputs: nearest-neighbour
    resampling, opaque painting, every path writable. *)
Definition nearestBackend : Backend :=
  {| smoothTransform img w h x y := pixel img (x * width img ÷ w) (y * height img ÷ h);
     sourceOver s d := s;
     writable p := true |}.

(** An image whose pixel at [(x, y)] is [1000 * y + x]. *)
Definition ramp (w h : positive) : QImage := Raster w h (fun x y => 1000 * y + x).

(** An image of one colour. *)
Definition flat (w h : positive) (c : QRgb) : QImage := Raster w h (fun _ _ => c).

(** A worker over the given store, with the destination [out.png]. *)
Definition workerOf (data : gmap (Z * Z) CollageWorker.ImageData) (N M : Z)
    : CollageWorker.t :=
  {| CollageWorker.imageData := data;
     CollageWorker.gridSize := N;
     CollageWorker.maxCollageSize := M;
     CollageWorker.outputPath := "out.png" |}.

Definition entry (path : string) (img : QImage) : CollageWorker.ImageData :=
  {| CollageWorker.path := path; CollageWorker.image := img |}.

(** Two images of a 3 x 3 grid, the smaller square being 2000 wide. *)
Definition twoLarge : gmap (Z * Z) CollageWorker.ImageData :=
  <[(0, 0) := entry "a.png" (flat 2000 3000 7)]>
    (<[(1, 2) := entry "b.jpg" (flat 2600 2500 9)]> ∅).

(** A 2 x 2 grid with the cells (0, 0) and (1, 1) populated. *)
Definition diagonal : gmap (Z * Z) CollageWorker.ImageData :=
  <[(0, 0) := entry "a.png" (ramp 3 2)]>
    (<[(1, 1) := entry "b.png" (flat 4 4 9)]> ∅).

(** A window whose grid has been built with side [N]. *)
Definition appOf (data : gmap (Z * Z) CollageWorker.ImageData) (N : Z) : CollageApp.t :=
  {| CollageApp.gridSize := N;
     CollageApp.maxCollageSize := 4000;
     CollageApp.imageData := data;
     CollageApp.cells := N |}.

(** A store with one photo at (0, 0), and the disk it was dropped from. *)
Definition onePhoto : gmap (Z * Z) CollageWorker.ImageData :=
  {[ (0, 0) := entry "a.png" (flat 4 6 1) ]}.

Definition photoDisk : Disk := {[ "a.png" := flat 4 6 1 ]}.

(** Three squares of sides 200, 300 and 150 in the first row of a grid. *)
Definition threeSizes : gmap (Z * Z) CollageWorker.ImageData :=
  <[(0, 0) := entry "a.png" (flat 200 200 1)]>
    (<[(0, 1) := entry "b.png" (flat 300 300 2)]>
       (<[(0, 2) := entry "c.png" (flat 150 150 3)]> ∅)).

(** Photos on the diagonal of a 3 x 3 grid, and the disk they come from. *)
Definition threeDiagonal : gmap (Z * Z) CollageWorker.ImageData :=
  <[(0, 0) := entry "a.png" (flat 4 6 1)]>
    (<[(1, 1) := entry "b.png" (flat 5 5 2)]>
       (<[(2, 2) := entry "c.png" (flat 6 4 3)]> ∅)).

Definition diagonalDisk : Disk :=
  <["a.png" := flat 4 6 1]> (<["b.png" := flat 5 5 2]> (<["c.png" := flat 6 4 3]> ∅)).

(** [retainWithinBounds(newN)] in the words of the specification: every
    entry with row >= newN or column >= newN is dropped, every other entry
    is kept as it is. *)
Definition retainWithinBounds (newN : Z) (store : gmap (Z * Z) CollageWorker.ImageData)
    : gmap (Z * Z) CollageWorker.ImageData :=
  filter (fun kv : Z * Z * CollageWorker.ImageData => kv.1.1 < newN /\ kv.1.2 < newN) store.

(** Every entry of the store names a file with a valid extension that is
    still on the disk and still decodes to the stored image. *)
Definition diskAgrees (disk : Disk) (store : gmap (Z * Z) CollageWorker.ImageData) : Prop :=
  forall k d, store !! k = Some d ->
    contains CollageApp.validExtensions (toLower (suffix (CollageWorker.path d))) = true /\
    load disk (CollageWorker.path d) = CollageWorker.image d /\
    isNull (CollageWorker.image d) = false.

(** No stored coordinate is negative. *)
Definition nonNegative (store : gmap (Z * Z) CollageWorker.ImageData) : Prop :=
  forall k d, store !! k = Some d -> 0 <= k.1 /\ 0 <= k.2.

(** The square stored for a cell by the second loop of [process]. *)
Definition squareOf (img : QImage) : QImage :=
  if isNull img then Null else CollageWorker.cropCenterToSquare img.

(** The widths of the present (non-null) cells once cropped to squares. *)
Definition presentSquareWidths (images : list QImage) : list Z :=
  map (fun img => width (CollageWorker.cropCenterToSquare img))
      (List.filter (fun img => negb (isNull img)) images).

(** [m] is the minimum of the non-empty list [l]. *)
Definition isMinimum (m : Z) (l : list Z) : Prop :=
  In m l /\ Forall (Z.le m) l.

(** The common cell size in the words of the specification: the minimum
    [m], or [M / N] when [N * m] exceeds the cap [M]. *)
Definition cappedCellSize (N M m : Z) : Z :=
  if N * m >? M then M / N else m.

End Props.

(** ** Definitions used to state the further properties *)

Module Further.
Import Qt.

(** The store [twoLarge] with other paths and with two more entries, both
    outside a 3 x 3 grid. *)
Definition twoLargeAndOutside : gmap (Z * Z) CollageWorker.ImageData :=
  <[(0, 0) := Props.entry "/tmp/copy-of-a.png" (Props.flat 2000 3000 7)]>
    (<[(1, 2) := Props.entry "/tmp/copy-of-b.jpg" (Props.flat 2600 2500 9)]>
       (<[(5, 5) := Props.entry "c.png" (Props.flat 10 10 1)]>
          (<[(0, 3) := Props.entry "d.png" (Props.flat 20 20 2)]> ∅))).

(** Every entry of the store names a file with a valid extension and
    holds a non-null image. *)
Definition wellFormed (store : gmap (Z * Z) CollageWorker.ImageData) : Prop :=
  forall k d, store !! k = Some d ->
    contains CollageApp.validExtensions (toLower (suffix (CollageWorker.path d))) = true /\
    isNull (CollageWorker.image d) = false.

(** Every stored coordinate is a cell of the [N] x [N] grid. *)
Definition withinGrid (N : Z) (store : gmap (Z * Z) CollageWorker.ImageData) : Prop :=
  forall k d, store !! k = Some d -> 0 <= k.1 < N /\ 0 <= k.2 < N.

(** The state of the window between two slots: a grid of at least one
    cell, the cell widgets built for it, and a well-formed store inside
    it. *)
Definition consistent (app : CollageApp.t) : Prop :=
  1 <= CollageApp.gridSize app /\
  CollageApp.cells app = CollageApp.gridSize app /\
  wellFormed (CollageApp.imageData app) /\
  withinGrid (CollageApp.gridSize app) (CollageApp.imageData app).

(** What a second drop of an entry's path stores for it under a grid of
    side [newSize]: nothing when the coordinate is beyond the grid, the
    extension is not valid or the file does not decode, and otherwise the
    path with the image the file decodes to now. *)
Definition reloadEntry (disk : Disk) (newSize : Z) (k : Z * Z)
    (d : CollageWorker.ImageData) : option CollageWorker.ImageData :=
  if (k.1 <? newSize) && (k.2 <? newSize)
     && contains CollageApp.validExtensions (toLower (suffix (CollageWorker.path d)))
     && negb (isNull (load disk (CollageWorker.path d)))
  then Some (Props.entry (CollageWorker.path d) (load disk (CollageWorker.path d)))
  else None.

Definition reloadWithinBounds (disk : Disk) (newSize : Z)
    (store : gmap (Z * Z) CollageWorker.ImageData) : gmap (Z * Z) CollageWorker.ImageData :=
  map_imap (reloadEntry disk newSize) store.

(** The disk of [diagonalDisk] after [b.png] was replaced by another photo
    and [c.png] was deleted. *)
Definition laterDisk : Disk :=
  <["a.png" := Props.flat 4 6 1]> (<["b.png" := Props.flat 8 8 5]> ∅).

(** The style sheet of a cell says whether it holds an image. *)
Definition styled (c : ImageCell.t) : Prop :=
  ImageCell.styleSheet c =
  if ImageCell.hasImage c then ImageCell.styleFilled else ImageCell.styleEmpty.

(** A window over the given store, with nothing else set. *)
Definition windowOf (data : gmap (Z * Z) CollageWorker.ImageData) (N : Z) : CollageWindow.t :=
  {| CollageWindow.gridSize := N; CollageWindow.maxCollageSize := 4000;
     CollageWindow.imageData := data; CollageWindow.cells := [];
     CollageWindow.infoText := EmptyString; CollageWindow.infoStyle := EmptyString;
     CollageWindow.lastWidth := -1; CollageWindow.lastHeight := -1 |}.

(** A 2 x 2 grid with all four cells populated. *)
Definition fullGrid : gmap (Z * Z) CollageWorker.ImageData :=
  <[(0, 0) := Props.entry "a.png" (Props.flat 4 6 1)]>
    (<[(0, 1) := Props.entry "b.png" (Props.flat 5 5 2)]>
       (<[(1, 0) := Props.entry "c.png" (Props.flat 6 4 3)]>
          (<[(1, 1) := Props.entry "d.png" (Props.flat 7 7 4)]> ∅))).

(** The cell [recreateGrid] leaves at [(r, c)] of a grid of cells
    [cellSize] wide: a fresh cell, showing the thumbnail and the file name
    of the entry at that coordinate when the store has one. *)
Definition shownCell `{Backend} (store : gmap (Z * Z) CollageWorker.ImageData)
    (cellSize r c : Z) : ImageCell.t :=
  let fresh := ImageCell.setFixedSize cellSize (ImageCell.new r c) in
  match store !! (r, c) with
  | Some d =>
      ImageCell.setImageData
        (CollageWindow.thumbnail (CollageWorker.image d) cellSize)
        (fileName (CollageWorker.path d)) fresh
  | None => fresh
  end.

(** The vectors [cells] hold a cell for every coordinate of the [N] x [N]
    grid, and the cell knows its coordinate. *)
Definition gridOf (N : Z) (cells : list (list ImageCell.t)) : Prop :=
  forall r c, 0 <= r < N -> 0 <= c < N ->
    exists cell, CollageWindow.cellAt cells r c = Some cell /\
                 ImageCell.row cell = r /\ ImageCell.col cell = c.

(** Every cell of the grid shows what the store holds at its coordinate,
    at the given cell size. *)
Definition viewShows `{Backend} (cellSize : Z) (app : CollageWindow.t) : Prop :=
  forall r c,
    0 <= r < CollageWindow.gridSize app -> 0 <= c < CollageWindow.gridSize app ->
    CollageWindow.cellAt (CollageWindow.cells app) r c =
    Some (shownCell (CollageWindow.imageData app) cellSize r c).

(** The info label says what [updateInfoLabel] would say now. *)
Definition labelCurrent (app : CollageWindow.t) : Prop :=
  CollageWindow.infoText app = CollageWindow.infoText (CollageWindow.updateInfoLabel app) /\
  CollageWindow.infoStyle app = CollageWindow.infoStyle (CollageWindow.updateInfoLabel app).

(** The diagonal store shown in a grid of cells 160 wide. *)
Definition shownDiagonal `{Backend} : CollageWindow.t :=
  {| CollageWindow.gridSize := 3; CollageWindow.maxCollageSize := 4000;
     CollageWindow.imageData := Props.threeDiagonal;
     CollageWindow.cells :=
       map (fun i => map (fun j => shownCell Props.threeDiagonal 160 i j) (seqZ 0 3))
           (seqZ 0 3);
     CollageWindow.infoText := "Заполнено 3 из 9 ячеек";
     CollageWindow.infoStyle := CollageWindow.styleBlue;
     CollageWindow.lastWidth := 800; CollageWindow.lastHeight := 700 |}.

End Further.

(** * Properties *)

Import Qt.

(** Settles the boolean comparisons of the goal, dropping the cases that
    linear arithmetic refutes. *)
Ltac decide_comparisons :=
  repeat match goal with
  | |- context [?a <=? ?b] => destruct (Z.leb_spec a b); try lia
  | |- context [?a <? ?b] => destruct (Z.ltb_spec a b); try lia
  end.

(** ** 32-bit arithmetic *)

Lemma wrap_in_range (z : Z) : Int.in_range z -> Int.wrap z = z.
Proof.
  unfold Int.in_range, Int.INT_MIN, Int.INT_MAX, Int.wrap. intros Hz.
  rewrite Z.mod_small by lia. lia.
Qed.

Lemma wrap_small (z : Z) : 0 <= z <= Int.INT_MAX -> Int.wrap z = z.
Proof.
  intros Hz. apply wrap_in_range. unfold Int.in_range, Int.INT_MIN. lia.
Qed.

Lemma quot_2_nonneg (z : Z) : 0 <= z -> z ÷ 2 = z / 2.
Proof. intros Hz. apply Z.quot_div_nonneg; lia. Qed.

(** ** [QImage] *)

Lemma isNull_width (img : QImage) : isNull img = false <-> 1 <= width img.
Proof. destruct img; simpl; split; intros; try easy; lia. Qed.

Lemma isNull_height (img : QImage) : isNull img = false <-> 1 <= height img.
Proof. destruct img; simpl; split; intros; try easy; lia. Qed.

Lemma create_pos (w h : Z) (px : Z -> Z -> QRgb) :
  1 <= w -> 1 <= h ->
  width (create w h px) = w /\ height (create w h px) = h /\
  pixel (create w h px) = px.
Proof.
  intros Hw Hh. destruct w as [|w|w]; try lia. destruct h as [|h|h]; try lia.
  simpl. auto.
Qed.

Lemma blank_size (side : Z) :
  0 <= side ->
  width (fill white (create side side (fun _ _ => 0))) = side /\
  height (fill white (create side side (fun _ _ => 0))) = side.
Proof. destruct side; simpl; auto; lia. Qed.

(** ** [cropCenterToSquare] *)

Section Crop.

Variable img : QImage.
Hypothesis Hwidth : 1 <= width img <= Int.INT_MAX.
Hypothesis Hheight : 1 <= height img <= Int.INT_MAX.

Let side : Z := Z.min (width img) (height img).

Lemma crop_left : Int.div (Int.sub (width img) side) 2 = (width img - side) / 2.
Proof.
  unfold Int.div, Int.sub, side.
  rewrite (wrap_small (width img - _)) by lia.
  rewrite quot_2_nonneg by lia.
  apply wrap_small. split; [apply Z.div_pos; lia|].
  apply Z.le_trans with (width img - Z.min (width img) (height img)); [|lia].
  apply Z.div_le_upper_bound; lia.
Qed.

Lemma crop_top : Int.div (Int.sub (height img) side) 2 = (height img - side) / 2.
Proof.
  unfold Int.div, Int.sub, side.
  rewrite (wrap_small (height img - _)) by lia.
  rewrite quot_2_nonneg by lia.
  apply wrap_small. split; [apply Z.div_pos; lia|].
  apply Z.le_trans with (height img - Z.min (width img) (height img)); [|lia].
  apply Z.div_le_upper_bound; lia.
Qed.

Lemma crop_size :
  width (CollageWorker.cropCenterToSquare img) = side /\
  height (CollageWorker.cropCenterToSquare img) = side.
Proof.
  unfold CollageWorker.cropCenterToSquare, copy.
  assert (Hn : isNull img = false) by (apply isNull_width; lia).
  rewrite Hn. fold side.
  destruct (create_pos side side
    (fun px py =>
       if valid img (Int.div (Int.sub (width img) side) 2 + px)
                    (Int.div (Int.sub (height img) side) 2 + py)
       then pixel img (Int.div (Int.sub (width img) side) 2 + px)
                      (Int.div (Int.sub (height img) side) 2 + py)
       else 0)) as (Hw & Hh & _); unfold side; try lia.
  auto.
Qed.

Lemma crop_pixel (x y : Z) :
  0 <= x < side -> 0 <= y < side ->
  pixel (CollageWorker.cropCenterToSquare img) x y =
  pixel img (x + (width img - side) / 2) (y + (height img - side) / 2).
Proof.
  intros Hx Hy.
  unfold CollageWorker.cropCenterToSquare, copy.
  assert (Hn : isNull img = false) by (apply isNull_width; lia).
  rewrite Hn. fold side. rewrite crop_left, crop_top.
  destruct (create_pos side side
    (fun px py =>
       if valid img ((width img - side) / 2 + px) ((height img - side) / 2 + py)
       then pixel img ((width img - side) / 2 + px) ((height img - side) / 2 + py)
       else 0)) as (_ & _ & Hp); unfold side in *; try lia.
  rewrite Hp.
  assert (Hl : 0 <= (width img - Z.min (width img) (height img)) / 2
               <= width img - Z.min (width img) (height img)).
  { split; [apply Z.div_pos; lia | apply Z.div_le_upper_bound; lia]. }
  assert (Ht : 0 <= (height img - Z.min (width img) (height img)) / 2
               <= height img - Z.min (width img) (height img)).
  { split; [apply Z.div_pos; lia | apply Z.div_le_upper_bound; lia]. }
  unfold valid.
  decide_comparisons.
  simpl. f_equal; lia.
Qed.

End Crop.

(** C3.  For an image of width W >= 1 and height H >= 1 (both C++ [int]
    values), [cropCenterToSquare] returns an S x S image with
    S = min(W, H), whose pixel at (x, y) is the pixel of the input at
    (x + (W - S) / 2, y + (H - S) / 2), the divisions rounding down. *)
Theorem cropCenterToSquare_center (img : QImage) (x y : Z) :
  1 <= width img <= Int.INT_MAX ->
  1 <= height img <= Int.INT_MAX ->
  0 <= x < Z.min (width img) (height img) ->
  0 <= y < Z.min (width img) (height img) ->
  width (CollageWorker.cropCenterToSquare img) = Z.min (width img) (height img) /\
  height (CollageWorker.cropCenterToSquare img) = Z.min (width img) (height img) /\
  pixel (CollageWorker.cropCenterToSquare img) x y =
    pixel img (x + (width img - Z.min (width img) (height img)) / 2)
              (y + (height img - Z.min (width img) (height img)) / 2).
Proof.
  intros Hw Hh Hx Hy.
  destruct (crop_size img Hw Hh) as [Hcw Hch].
  repeat split; auto. apply crop_pixel; auto.
Qed.

(** A 7 x 4 image: the crop is 4 x 4 and starts at column (7 - 4) / 2 = 1. *)
Lemma cropCenterToSquare_center_witness :
  width (CollageWorker.cropCenterToSquare (Props.ramp 7 4)) = 4 /\
  height (CollageWorker.cropCenterToSquare (Props.ramp 7 4)) = 4 /\
  pixel (CollageWorker.cropCenterToSquare (Props.ramp 7 4)) 2 3 = 3003.
Proof.
  apply (cropCenterToSquare_center (Props.ramp 7 4) 2 3);
    simpl; unfold Int.INT_MAX; lia.
Defined.

(** ** The crop pass *)

Lemma squareOf_size (img : QImage) :
  isNull img = false ->
  width (CollageWorker.cropCenterToSquare img) = Z.min (width img) (height img) /\
  height (CollageWorker.cropCenterToSquare img) = Z.min (width img) (height img) /\
  isNull (CollageWorker.cropCenterToSquare img) = false.
Proof.
  destruct img as [|w h px]; [discriminate|]. intros _.
  unfold CollageWorker.cropCenterToSquare, copy. simpl.
  destruct (Z.min_spec (Z.pos w) (Z.pos h)) as [[_ ->]|[_ ->]]; simpl; auto.
Qed.

Lemma cropStep_eq (acc : list QImage) (m : Z) (img : QImage) :
  CollageWorker.cropStep (acc, m) img =
  (acc ++ [Props.squareOf img],
   if isNull img then m else Z.min m (width (CollageWorker.cropCenterToSquare img))).
Proof.
  unfold CollageWorker.cropStep, Props.squareOf. now destruct (isNull img).
Qed.

Lemma presentSquareWidths_cons (img : QImage) (images : list QImage) :
  Props.presentSquareWidths (img :: images) =
  if isNull img then Props.presentSquareWidths images
  else width (CollageWorker.cropCenterToSquare img) :: Props.presentSquareWidths images.
Proof.
  unfold Props.presentSquareWidths. simpl. now destruct (isNull img).
Qed.

Lemma cropPass_from (images acc : list QImage) (m : Z) :
  foldl CollageWorker.cropStep (acc, m) images =
  (acc ++ map Props.squareOf images, foldl Z.min m (Props.presentSquareWidths images)).
Proof.
  revert acc m. induction images as [|img images IH]; intros acc m.
  - simpl. now rewrite app_nil_r.
  - cbn [foldl map]. rewrite cropStep_eq, IH, presentSquareWidths_cons, <- app_assoc.
    now destruct (isNull img).
Qed.

Lemma cropPass_eq (images : list QImage) :
  CollageWorker.cropPass images =
  (map Props.squareOf images,
   foldl Z.min Int.INT_MAX (Props.presentSquareWidths images)).
Proof. unfold CollageWorker.cropPass. now rewrite cropPass_from. Qed.

Lemma foldl_min_le (l : list Z) (a : Z) :
  foldl Z.min a l <= a /\ Forall (Z.le (foldl Z.min a l)) l.
Proof.
  revert a. induction l as [|b l IH]; intros a; simpl.
  - split; [lia | constructor].
  - destruct (IH (Z.min a b)) as [H1 H2]. split; [lia|].
    constructor; [lia | exact H2].
Qed.

Lemma foldl_min_in (l : list Z) (a : Z) :
  foldl Z.min a l = a \/ In (foldl Z.min a l) l.
Proof.
  revert a. induction l as [|b l IH]; intros a; simpl; [now left|].
  destruct (IH (Z.min a b)) as [H|H]; [|now right; right].
  rewrite H. destruct (Z.min_spec a b) as [[_ ->]|[_ ->]]; auto.
Qed.

Lemma foldl_min_minimum (l : list Z) (a m : Z) :
  Props.isMinimum m l -> m <= a -> foldl Z.min a l = m.
Proof.
  intros [Hin Hall] Hle.
  destruct (foldl_min_le l a) as [Ha Hl].
  rewrite Forall_forall in Hall, Hl.
  assert (foldl Z.min a l <= m) by (apply Hl, list_elem_of_In, Hin).
  destruct (foldl_min_in l a) as [E|E].
  - lia.
  - apply list_elem_of_In, Hall in E. lia.
Qed.

Lemma presentSquareWidths_pos (images : list QImage) (m : Z) :
  In m (Props.presentSquareWidths images) -> 1 <= m.
Proof.
  unfold Props.presentSquareWidths. rewrite in_map_iff.
  intros (img & <- & Hin). apply filter_In in Hin as [_ Hn].
  apply negb_true_iff in Hn.
  destruct (squareOf_size img Hn) as (-> & _ & _).
  apply isNull_width in Hn as Hw. apply isNull_height in Hn as Hh. lia.
Qed.

Lemma presentSquareWidths_absent (images : list QImage) :
  Forall (fun img => isNull img = true) images ->
  Props.presentSquareWidths images = [].
Proof.
  unfold Props.presentSquareWidths.
  induction 1 as [|img images Hn _ IH]; simpl; [reflexivity|].
  rewrite Hn. simpl. exact IH.
Qed.

(** ** The size cap *)

Lemma sizeCap_eq (N M m : Z) :
  1 <= N -> 1 <= m -> N * m < Int.INT_MAX -> 0 <= M <= Int.INT_MAX ->
  CollageWorker.sizeCap N M m =
  (Props.cappedCellSize N M m, N * Props.cappedCellSize N M m).
Proof.
  intros HN Hm Hfit HM.
  unfold CollageWorker.sizeCap, Props.cappedCellSize, Int.mul, Int.div.
  rewrite (wrap_small (N * m)) by nia.
  destruct (N * m >? M); [|reflexivity].
  rewrite Z.quot_div_nonneg by lia.
  assert (H0 : 0 <= M / N) by (apply Z.div_pos; lia).
  assert (H1 : N * (M / N) <= M) by (apply Z.mul_div_le; lia).
  assert (H2 : M / N <= M) by nia.
  rewrite (wrap_small (M / N)) by lia.
  rewrite (wrap_small (N * (M / N))) by nia.
  reflexivity.
Qed.

Lemma cappedCellSize_nonneg (N M m : Z) :
  1 <= N -> 1 <= m -> 0 <= M -> 0 <= Props.cappedCellSize N M m.
Proof.
  intros HN Hm HM. unfold Props.cappedCellSize.
  destruct (N * m >? M); [apply Z.div_pos; lia | lia].
Qed.

(** ** The paint loop *)

Section PaintLoop.

Context `{Backend}.
Variables gridSize minSize size : Z.

Lemma paintLoop_signals (rest : list QImage) (i : Z) (collage : QImage)
    (emitted : list CollageWorker.Signal) :
  snd (CollageWorker.paintLoop gridSize minSize size i rest collage emitted) =
  emitted ++ map (fun k => CollageWorker.progress (CollageWorker.paintProgress size k))
                 (seqZ i (Z.of_nat (length rest))).
Proof.
  revert i collage emitted. induction rest as [|img rest IH]; intros i collage emitted.
  - simpl. now rewrite app_nil_r.
  - cbn [CollageWorker.paintLoop]. rewrite IH.
    rewrite (seqZ_cons i) by (simpl; lia).
    replace (Z.pred (Z.of_nat (length (img :: rest)))) with (Z.of_nat (length rest))
      by (simpl; lia).
    rewrite <- app_assoc. reflexivity.
Qed.

Lemma paintLoop_size (rest : list QImage) (i : Z) (collage : QImage)
    (emitted : list CollageWorker.Signal) :
  width (fst (CollageWorker.paintLoop gridSize minSize size i rest collage emitted))
    = width collage /\
  height (fst (CollageWorker.paintLoop gridSize minSize size i rest collage emitted))
    = height collage.
Proof.
  revert i collage emitted. induction rest as [|img rest IH]; intros i collage emitted.
  - simpl. auto.
  - cbn [CollageWorker.paintLoop].
    match goal with
    | |- context [CollageWorker.paintLoop _ _ _ _ _ ?c ?e] => destruct (IH (i + 1) c e) as [-> ->]
    end.
    destruct (negb (isNull img)); [|auto].
    unfold drawImage. destruct collage; [auto|].
    destruct (scaled img minSize minSize); auto.
Qed.

End PaintLoop.

(** ** [process], branch by branch *)

Section Process.

Context `{Backend}.
Variable w : CollageWorker.t.
Variable disk0 : Disk.

Lemma process_absent :
  snd (CollageWorker.cropPass (CollageWorker.buildImages w)) = Int.INT_MAX ->
  CollageWorker.process w disk0 =
  {| CollageWorker.signals :=
       [CollageWorker.progress 20; CollageWorker.finished false CollageWorker.msgNoImages];
     CollageWorker.raster := None;
     CollageWorker.disk := disk0 |}.
Proof.
  intros Hmin. unfold CollageWorker.process.
  destruct (CollageWorker.cropPass (CollageWorker.buildImages w)) as [processed minSize].
  simpl in Hmin. subst minSize. rewrite Z.eqb_refl. reflexivity.
Qed.

Lemma process_present (c side : Z) :
  snd (CollageWorker.cropPass (CollageWorker.buildImages w)) <> Int.INT_MAX ->
  CollageWorker.sizeCap (CollageWorker.gridSize w) (CollageWorker.maxCollageSize w)
    (snd (CollageWorker.cropPass (CollageWorker.buildImages w))) = (c, side) ->
  forall painted saved,
  CollageWorker.paintLoop (CollageWorker.gridSize w) c
    (Int.wrap (Z.of_nat (length (map Props.squareOf (CollageWorker.buildImages w)))))
    0 (map Props.squareOf (CollageWorker.buildImages w))
    (fill white (create side side (fun _ _ => 0)))
    [CollageWorker.progress 20; CollageWorker.progress 40; CollageWorker.progress 60]
    = painted ->
  save (fst painted) (CollageWorker.outputPath w) disk0 = saved ->
  CollageWorker.process w disk0 =
  {| CollageWorker.signals :=
       ((snd painted ++ [CollageWorker.progress 95]) ++ [CollageWorker.progress 100]) ++
       [if fst saved
        then CollageWorker.finished true
               (CollageWorker.msgSaved side (CollageWorker.outputPath w))
        else CollageWorker.finished false CollageWorker.msgSaveError];
     CollageWorker.raster := Some (fst painted);
     CollageWorker.disk := snd saved |}.
Proof.
  intros Hmin Hcap painted saved Hpaint Hsave. unfold CollageWorker.process.
  rewrite cropPass_eq in *. simpl in Hmin, Hcap.
  destruct (Z.eqb_spec (foldl Z.min Int.INT_MAX
              (Props.presentSquareWidths (CollageWorker.buildImages w))) Int.INT_MAX)
    as [E|_]; [contradiction|].
  rewrite Hcap. simpl app. rewrite Hpaint. destruct painted as [collage emitted].
  simpl in Hsave. rewrite Hsave. destruct saved as [ok disk1]. reflexivity.
Qed.

End Process.

(** ** No image present *)

(** C4.  When no cell of the sequence holds an image, [process] emits the
    failure signal with the "no images" message right after its first
    progress value, constructs no raster and leaves the disk as it was. *)
Theorem process_no_images `{Backend} (w : CollageWorker.t) (disk0 : Disk) :
  Forall (fun img => isNull img = true) (CollageWorker.buildImages w) ->
  CollageWorker.signals (CollageWorker.process w disk0) =
    [CollageWorker.progress 20;
     CollageWorker.finished false CollageWorker.msgNoImages] /\
  CollageWorker.raster (CollageWorker.process w disk0) = None /\
  CollageWorker.disk (CollageWorker.process w disk0) = disk0.
Proof.
  intros Habsent. rewrite process_absent; [auto|].
  rewrite cropPass_eq. simpl. now rewrite presentSquareWidths_absent.
Qed.

(** An empty store under a 3 x 3 grid. *)
Lemma process_no_images_witness :
  CollageWorker.signals
    (@CollageWorker.process Props.nearestBackend (Props.workerOf ∅ 3 4000) ∅) =
    [CollageWorker.progress 20;
     CollageWorker.finished false CollageWorker.msgNoImages] /\
  CollageWorker.raster
    (@CollageWorker.process Props.nearestBackend (Props.workerOf ∅ 3 4000) ∅) = None /\
  CollageWorker.disk
    (@CollageWorker.process Props.nearestBackend (Props.workerOf ∅ 3 4000) ∅) = ∅.
Proof.
  apply (@process_no_images Props.nearestBackend (Props.workerOf ∅ 3 4000) ∅).
  vm_compute. repeat constructor.
Defined.

(** ** The common cell size *)

Section CellSize.

Context `{Backend}.
Variable w : CollageWorker.t.
Variable disk0 : Disk.
Variable m : Z.

Hypothesis Hmin :
  Props.isMinimum m (Props.presentSquareWidths (CollageWorker.buildImages w)).
Hypothesis Hfit : CollageWorker.gridSize w * m < Int.INT_MAX.

Lemma minimum_pos : 1 <= m.
Proof. destruct Hmin as [Hin _]. eapply presentSquareWidths_pos, Hin. Qed.

Lemma buildImages_nonempty : CollageWorker.buildImages w <> [].
Proof.
  destruct Hmin as [Hin _]. intros E. rewrite E in Hin. exact Hin.
Qed.

Lemma gridSize_pos : 1 <= CollageWorker.gridSize w.
Proof.
  destruct (Z_lt_le_dec (CollageWorker.gridSize w) 1) as [Hlt|Hle]; [|exact Hle].
  exfalso. apply buildImages_nonempty. unfold CollageWorker.buildImages.
  rewrite seqZ_nil by lia. reflexivity.
Qed.

Lemma cropPass_minimum :
  snd (CollageWorker.cropPass (CollageWorker.buildImages w)) = m.
Proof.
  rewrite cropPass_eq. simpl. apply foldl_min_minimum; [exact Hmin|].
  pose proof minimum_pos. pose proof gridSize_pos. unfold Int.INT_MAX in *. nia.
Qed.

Hypothesis Hcap : 0 <= CollageWorker.maxCollageSize w <= Int.INT_MAX.

Let cell : Z :=
  Props.cappedCellSize (CollageWorker.gridSize w) (CollageWorker.maxCollageSize w) m.

Lemma cell_nonneg : 0 <= cell.
Proof.
  apply cappedCellSize_nonneg; [apply gridSize_pos | apply minimum_pos | lia].
Qed.

Lemma process_sizeCap :
  CollageWorker.sizeCap (CollageWorker.gridSize w) (CollageWorker.maxCollageSize w)
    (snd (CollageWorker.cropPass (CollageWorker.buildImages w))) =
  (cell, CollageWorker.gridSize w * cell).
Proof.
  rewrite cropPass_minimum.
  apply sizeCap_eq; [apply gridSize_pos | apply minimum_pos | exact Hfit | exact Hcap].
Qed.

Lemma process_not_absent :
  snd (CollageWorker.cropPass (CollageWorker.buildImages w)) <> Int.INT_MAX.
Proof.
  rewrite cropPass_minimum. pose proof minimum_pos. pose proof gridSize_pos.
  unfold Int.INT_MAX in *. nia.
Qed.

Lemma process_raster_size :
  exists collage,
    CollageWorker.raster (CollageWorker.process w disk0) = Some collage /\
    width collage = CollageWorker.gridSize w * cell /\
    height collage = CollageWorker.gridSize w * cell.
Proof.
  rewrite (process_present w disk0 _ _ process_not_absent process_sizeCap _ _ eq_refl eq_refl).
  eexists. split; [reflexivity|]. cbn [CollageWorker.raster].
  match goal with
  | |- context [CollageWorker.paintLoop ?g ?c ?s ?i ?r ?b ?e] =>
      destruct (paintLoop_size g c s r i b e) as [-> ->]
  end.
  apply blank_size. pose proof cell_nonneg. pose proof gridSize_pos. nia.
Qed.

End CellSize.

(** C1.  When the sequence of cells has a present image, [m] being the
    minimum width among the present images cropped to squares, [process]
    computes [m] as its common cell size; the cap step turns it into
    [M / N] when [N * m] exceeds [M] and keeps it otherwise, and the raster
    is a square of side [N] times the resulting cell size.  [N], [m] and
    [M] are C++ [int] values: the product [N * m] is below [INT_MAX] and
    the cap is not negative. *)
Theorem process_commonCellSize `{Backend} (w : CollageWorker.t) (disk0 : Disk) (m : Z) :
  Props.isMinimum m (Props.presentSquareWidths (CollageWorker.buildImages w)) ->
  CollageWorker.gridSize w * m < Int.INT_MAX ->
  0 <= CollageWorker.maxCollageSize w <= Int.INT_MAX ->
  snd (CollageWorker.cropPass (CollageWorker.buildImages w)) = m /\
  CollageWorker.sizeCap (CollageWorker.gridSize w) (CollageWorker.maxCollageSize w) m =
    (Props.cappedCellSize (CollageWorker.gridSize w) (CollageWorker.maxCollageSize w) m,
     CollageWorker.gridSize w *
     Props.cappedCellSize (CollageWorker.gridSize w) (CollageWorker.maxCollageSize w) m) /\
  exists collage,
    CollageWorker.raster (CollageWorker.process w disk0) = Some collage /\
    width collage = CollageWorker.gridSize w *
      Props.cappedCellSize (CollageWorker.gridSize w) (CollageWorker.maxCollageSize w) m /\
    height collage = CollageWorker.gridSize w *
      Props.cappedCellSize (CollageWorker.gridSize w) (CollageWorker.maxCollageSize w) m.
Proof.
  intros Hmin Hfit Hcap. split; [|split].
  - apply cropPass_minimum; assumption.
  - rewrite <- (cropPass_minimum w m Hmin Hfit) at 1.
    apply process_sizeCap; assumption.
  - apply process_raster_size; assumption.
Qed.

(** The example of the specification: N = 3, smallest square 2000, cap
    4000; the cell size becomes 1333 and the raster 3999 x 3999. *)
Lemma process_commonCellSize_witness :
  snd (CollageWorker.cropPass
         (CollageWorker.buildImages (Props.workerOf Props.twoLarge 3 4000))) = 2000 /\
  CollageWorker.sizeCap 3 4000 2000 = (1333, 3999) /\
  exists collage,
    CollageWorker.raster
      (@CollageWorker.process Props.nearestBackend
         (Props.workerOf Props.twoLarge 3 4000) ∅) = Some collage /\
    width collage = 3999 /\ height collage = 3999.
Proof.
  apply (@process_commonCellSize Props.nearestBackend
           (Props.workerOf Props.twoLarge 3 4000) ∅ 2000).
  - split; vm_compute; [auto | repeat constructor; discriminate].
  - vm_compute. reflexivity.
  - vm_compute. split; discriminate.
Defined.

(** ** The signals of a run that reaches the raster *)

Lemma width_zero_null (img : QImage) : width img = 0 -> img = Null.
Proof. destruct img; simpl; [reflexivity | lia]. Qed.

Lemma process_present_signals `{Backend} (w : CollageWorker.t) (disk0 : Disk) :
  snd (CollageWorker.cropPass (CollageWorker.buildImages w)) <> Int.INT_MAX ->
  exists collage,
    CollageWorker.raster (CollageWorker.process w disk0) = Some collage /\
    CollageWorker.disk (CollageWorker.process w disk0) =
      snd (save collage (CollageWorker.outputPath w) disk0) /\
    CollageWorker.signals (CollageWorker.process w disk0) =
      map CollageWorker.progress
        ([20; 40; 60] ++
         map (CollageWorker.paintProgress
                (Int.wrap (Z.of_nat (length (CollageWorker.buildImages w)))))
             (seqZ 0 (Z.of_nat (length (CollageWorker.buildImages w)))) ++
         [95; 100]) ++
      [if fst (save collage (CollageWorker.outputPath w) disk0)
       then CollageWorker.finished true
              (CollageWorker.msgSaved
                 (snd (CollageWorker.sizeCap (CollageWorker.gridSize w)
                         (CollageWorker.maxCollageSize w)
                         (snd (CollageWorker.cropPass (CollageWorker.buildImages w)))))
                 (CollageWorker.outputPath w))
       else CollageWorker.finished false CollageWorker.msgSaveError].
Proof.
  intros Hpresent.
  destruct (CollageWorker.sizeCap (CollageWorker.gridSize w)
              (CollageWorker.maxCollageSize w)
              (snd (CollageWorker.cropPass (CollageWorker.buildImages w))))
    as [c side] eqn:Hcap.
  rewrite (process_present w disk0 c side Hpresent Hcap _ _ eq_refl eq_refl).
  eexists. split; [reflexivity|]. split; [reflexivity|].
  cbn [CollageWorker.signals CollageWorker.raster snd].
  rewrite paintLoop_signals, length_map.
  rewrite !map_app, map_map, <- !app_assoc. reflexivity.
Qed.

(** ** A cap below the grid dimension *)

(** C9.  With a present image, [N * m] above the cap [M] and [0 <= M < N],
    the clamped cell size is [M / N = 0] and the collage side is 0;
    [process] does not stop there: it constructs the (empty, 0 x 0) raster,
    runs the paint loop and the save, which fails, and the run ends with
    the save-error signal. *)
Theorem process_cap_below_grid `{Backend} (w : CollageWorker.t) (disk0 : Disk) (m : Z) :
  Props.isMinimum m (Props.presentSquareWidths (CollageWorker.buildImages w)) ->
  CollageWorker.gridSize w * m < Int.INT_MAX ->
  CollageWorker.gridSize w * m > CollageWorker.maxCollageSize w ->
  0 <= CollageWorker.maxCollageSize w < CollageWorker.gridSize w ->
  CollageWorker.sizeCap (CollageWorker.gridSize w) (CollageWorker.maxCollageSize w)
    (snd (CollageWorker.cropPass (CollageWorker.buildImages w))) = (0, 0) /\
  exists collage ps,
    CollageWorker.raster (CollageWorker.process w disk0) = Some collage /\
    width collage = 0 /\ height collage = 0 /\
    CollageWorker.signals (CollageWorker.process w disk0) =
      map CollageWorker.progress ([20; 40; 60] ++ ps ++ [95; 100]) ++
      [CollageWorker.finished false CollageWorker.msgSaveError] /\
    CollageWorker.disk (CollageWorker.process w disk0) = disk0.
Proof.
  intros Hmin Hfit Hover [HM0 HMN].
  assert (HN : 1 <= CollageWorker.gridSize w) by (eapply gridSize_pos; eassumption).
  assert (Hm : 1 <= m) by (eapply minimum_pos; eassumption).
  assert (HM : 0 <= CollageWorker.maxCollageSize w <= Int.INT_MAX)
    by (unfold Int.INT_MAX in *; nia).
  assert (Hcell : Props.cappedCellSize (CollageWorker.gridSize w)
                    (CollageWorker.maxCollageSize w) m = 0).
  { unfold Props.cappedCellSize.
    destruct (Z.gtb_spec (CollageWorker.gridSize w * m) (CollageWorker.maxCollageSize w));
      [apply Z.div_small; lia | lia]. }
  pose proof (process_sizeCap w m Hmin Hfit HM) as Hcap.
  rewrite Hcell, Z.mul_0_r in Hcap. split; [exact Hcap|].
  destruct (process_raster_size w disk0 m Hmin Hfit HM) as (collage & Hr & Hw & Hh).
  rewrite Hcell, Z.mul_0_r in Hw, Hh.
  destruct (process_present_signals w disk0 (process_not_absent w m Hmin Hfit))
    as (collage' & Hr' & Hd & Hs).
  rewrite Hr in Hr'. injection Hr' as <-.
  apply width_zero_null in Hw as Hnull. subst collage.
  exists Null. eexists. split; [exact Hr|]. split; [reflexivity|]. split; [reflexivity|].
  split; [exact Hs | exact Hd].
Qed.

(** A 3 x 3 grid with one 5 x 5 image and the cap 2. *)
Lemma process_cap_below_grid_witness :
  CollageWorker.sizeCap 3 2
    (snd (CollageWorker.cropPass
            (CollageWorker.buildImages
               (Props.workerOf {[ (1, 1) := Props.entry "a.png" (Props.flat 5 5 7) ]} 3 2))))
    = (0, 0) /\
  exists collage ps,
    CollageWorker.raster
      (@CollageWorker.process Props.nearestBackend
         (Props.workerOf {[ (1, 1) := Props.entry "a.png" (Props.flat 5 5 7) ]} 3 2) ∅)
      = Some collage /\
    width collage = 0 /\ height collage = 0 /\
    CollageWorker.signals
      (@CollageWorker.process Props.nearestBackend
         (Props.workerOf {[ (1, 1) := Props.entry "a.png" (Props.flat 5 5 7) ]} 3 2) ∅)
      = map CollageWorker.progress ([20; 40; 60] ++ ps ++ [95; 100]) ++
        [CollageWorker.finished false CollageWorker.msgSaveError] /\
    CollageWorker.disk
      (@CollageWorker.process Props.nearestBackend
         (Props.workerOf {[ (1, 1) := Props.entry "a.png" (Props.flat 5 5 7) ]} 3 2) ∅)
      = ∅.
Proof.
  apply (@process_cap_below_grid Props.nearestBackend
           (Props.workerOf {[ (1, 1) := Props.entry "a.png" (Props.flat 5 5 7) ]} 3 2) ∅ 5).
  - split; vm_compute; [auto | repeat constructor; discriminate].
  - vm_compute. reflexivity.
  - vm_compute. reflexivity.
  - vm_compute. split; [discriminate | reflexivity].
Defined.

(** ** Progress values *)

Lemma buildImages_length (w : CollageWorker.t) :
  length (CollageWorker.buildImages w) =
  (Z.to_nat (CollageWorker.gridSize w) * Z.to_nat (CollageWorker.gridSize w))%nat.
Proof.
  unfold CollageWorker.buildImages.
  rewrite flat_map_constant_length with (c := Z.to_nat (CollageWorker.gridSize w)).
  - now rewrite length_seqZ.
  - intros i _. now rewrite length_map, length_seqZ.
Qed.

Lemma lookup_map {A B : Type} (f : A -> B) (l : list A) (n : nat) :
  map f l !! n = option_map f (l !! n).
Proof.
  revert n. induction l as [|a l IH]; intros [|n]; simpl; auto.
Qed.

Lemma flat_map_lookup {A B : Type} (f : A -> list B) (l : list A) (n r q : nat) :
  (forall a, length (f a) = n) -> (q < n)%nat ->
  flat_map f l !! (r * n + q)%nat =
  match l !! r with Some a => f a !! q | None => None end.
Proof.
  intros Hlen Hq. revert r. induction l as [|a l IH]; intros r.
  - reflexivity.
  - simpl flat_map. destruct r as [|r].
    + simpl. apply lookup_app_l. rewrite Hlen. exact Hq.
    + rewrite lookup_app_r by (rewrite Hlen; simpl; lia).
      rewrite Hlen. replace (S r * n + q - n)%nat with (r * n + q)%nat by (simpl; lia).
      apply IH.
Qed.

(** The first loop of [process] is row-major: the cell of index
    [row * N + col] is the entry of the store at [(row, col)], or a null
    image when there is none. *)
Lemma buildImages_lookup (w : CollageWorker.t) (row col : Z) :
  0 <= row < CollageWorker.gridSize w -> 0 <= col < CollageWorker.gridSize w ->
  CollageWorker.buildImages w !! Z.to_nat (row * CollageWorker.gridSize w + col) =
  Some (match CollageWorker.imageData w !! (row, col) with
        | Some d => CollageWorker.image d
        | None => Null
        end).
Proof.
  intros Hrow Hcol. unfold CollageWorker.buildImages.
  replace (Z.to_nat (row * CollageWorker.gridSize w + col))
    with (Z.to_nat row * Z.to_nat (CollageWorker.gridSize w) + Z.to_nat col)%nat by nia.
  rewrite flat_map_lookup with (n := Z.to_nat (CollageWorker.gridSize w));
    [| intros a; now rewrite length_map, length_seqZ | lia].
  rewrite lookup_seqZ_lt by lia.
  rewrite lookup_map, lookup_seqZ_lt by lia. simpl.
  now rewrite !Z2Nat.id by lia.
Qed.

Section PaintProgress.

Variable count : Z.
Hypothesis Hcount : count * 35 <= Int.INT_MAX.

Lemma paintProgress_eq (i : Z) :
  0 <= i < count ->
  CollageWorker.paintProgress (Int.wrap count) i = 60 + i * 35 / count.
Proof.
  intros Hi. unfold CollageWorker.paintProgress, Int.add, Int.div, Int.mul.
  unfold Int.INT_MAX in *.
  rewrite (wrap_small count) by (unfold Int.INT_MAX; lia).
  rewrite (wrap_small i) by (unfold Int.INT_MAX; lia).
  rewrite (wrap_small (i * 35)) by (unfold Int.INT_MAX; lia).
  rewrite Z.quot_div_nonneg by lia.
  assert (H0 : 0 <= i * 35 / count) by (apply Z.div_pos; lia).
  assert (H1 : i * 35 / count < 35) by (apply Z.div_lt_upper_bound; lia).
  rewrite (wrap_small (i * 35 / count)) by (unfold Int.INT_MAX; lia).
  apply wrap_small. unfold Int.INT_MAX. lia.
Qed.

Lemma paintProgress_bounds (i : Z) :
  0 <= i < count ->
  60 <= CollageWorker.paintProgress (Int.wrap count) i <= 94.
Proof.
  intros Hi. rewrite paintProgress_eq by exact Hi.
  assert (H0 : 0 <= i * 35 / count) by (apply Z.div_pos; lia).
  assert (H1 : i * 35 / count < 35) by (apply Z.div_lt_upper_bound; lia).
  lia.
Qed.

Lemma paintProgress_mono (i j : Z) :
  0 <= i -> i <= j -> j < count ->
  CollageWorker.paintProgress (Int.wrap count) i <=
  CollageWorker.paintProgress (Int.wrap count) j.
Proof.
  intros Hi Hij Hj. rewrite !paintProgress_eq by lia.
  assert (i * 35 / count <= j * 35 / count) by (apply Z.div_le_mono; lia).
  lia.
Qed.

Lemma paintProgress_sorted (n : nat) (a : Z) :
  0 <= a -> a + Z.of_nat n <= count ->
  StronglySorted Z.le
    (map (CollageWorker.paintProgress (Int.wrap count)) (seqZ a (Z.of_nat n))).
Proof.
  revert a. induction n as [|n IH]; intros a Ha Hn.
  - constructor.
  - rewrite seqZ_cons by lia.
    replace (Z.pred (Z.of_nat (S n))) with (Z.of_nat n) by lia.
    cbn [map]. constructor.
    + apply IH; lia.
    + apply Forall_forall. intros p Hp. apply list_elem_of_In, in_map_iff in Hp.
      destruct Hp as (j & <- & Hj). apply list_elem_of_In, elem_of_seqZ in Hj.
      apply paintProgress_mono; lia.
Qed.

Lemma paintProgress_range (n : nat) :
  Z.of_nat n <= count ->
  Forall (fun p => 60 <= p <= 94)
    (map (CollageWorker.paintProgress (Int.wrap count)) (seqZ 0 (Z.of_nat n))).
Proof.
  intros Hn. apply Forall_forall. intros p Hp. apply list_elem_of_In, in_map_iff in Hp.
  destruct Hp as (j & <- & Hj). apply list_elem_of_In, elem_of_seqZ in Hj.
  apply paintProgress_bounds. lia.
Qed.

End PaintProgress.

Lemma sorted_between (lo hi : Z) (l1 mid l2 : list Z) :
  lo <= hi ->
  StronglySorted Z.le l1 -> StronglySorted Z.le mid -> StronglySorted Z.le l2 ->
  Forall (fun p => p <= lo) l1 ->
  Forall (fun p => lo <= p <= hi) mid ->
  Forall (fun p => hi <= p) l2 ->
  StronglySorted Z.le (l1 ++ mid ++ l2).
Proof.
  intros Hlh S1 Sm S2 F1 Fm F2. rewrite Forall_forall in F1, Fm, F2.
  apply StronglySorted_app_2; [|exact S1|].
  - intros x1 x2 H1 H2. apply F1 in H1. apply elem_of_app in H2 as [H2|H2].
    + apply Fm in H2. lia.
    + apply F2 in H2. lia.
  - apply StronglySorted_app_2; [|exact Sm|exact S2].
    intros x1 x2 H1 H2. apply Fm in H1. apply F2 in H2. lia.
Qed.

(** C7.  In one run of [process] (the grid side small enough for the
    loop's [i * 35] to fit an [int]) the signals are progress values
    followed by exactly one [finished] signal, which comes last; the
    progress values are non-decreasing and lie in [0, 100]; the value 100
    occurs only as the last progress value, right before [finished], and
    only in a run that has constructed the raster; a successful run reaches
    100. *)
Theorem process_progress_order `{Backend} (w : CollageWorker.t) (disk0 : Disk) :
  CollageWorker.gridSize w * CollageWorker.gridSize w * 35 <= Int.INT_MAX ->
  exists ps success message,
    CollageWorker.signals (CollageWorker.process w disk0) =
      map CollageWorker.progress ps ++ [CollageWorker.finished success message] /\
    Sorted Z.le ps /\
    Forall (fun p => 0 <= p <= 100) ps /\
    (In 100 ps ->
     exists ps', ps = ps' ++ [100] /\ Forall (fun p => p < 100) ps' /\
                 CollageWorker.raster (CollageWorker.process w disk0) <> None) /\
    (success = true -> In 100 ps).
Proof.
  intros Hgrid.
  destruct (Z.eq_dec (snd (CollageWorker.cropPass (CollageWorker.buildImages w)))
              Int.INT_MAX) as [Habsent|Hpresent].
  - rewrite (process_absent w disk0 Habsent). cbn [CollageWorker.signals CollageWorker.raster].
    exists [20], false, CollageWorker.msgNoImages.
    split; [reflexivity|]. split; [repeat constructor|].
    split; [repeat constructor; lia|]. split; [|discriminate].
    intros [E|[]]. discriminate.
  - destruct (process_present_signals w disk0 Hpresent) as (collage & Hr & _ & Hs).
    set (count := Z.of_nat (length (CollageWorker.buildImages w))) in *.
    assert (Hcount : count * 35 <= Int.INT_MAX).
    { unfold count. rewrite buildImages_length, Nat2Z.inj_mul.
      destruct (Z_lt_le_dec (CollageWorker.gridSize w) 0).
      - replace (Z.to_nat (CollageWorker.gridSize w)) with 0%nat by lia.
        unfold Int.INT_MAX. simpl. lia.
      - rewrite Z2Nat.id by lia. exact Hgrid. }
    set (mid := map (CollageWorker.paintProgress (Int.wrap count)) (seqZ 0 count)) in *.
    assert (Hmid : Forall (fun p => 60 <= p <= 94) mid)
      by (apply paintProgress_range; [exact Hcount | lia]).
    assert (Smid : StronglySorted Z.le mid)
      by (apply paintProgress_sorted; [exact Hcount | lia | lia]).
    assert (Hend : exists success message,
              CollageWorker.signals (CollageWorker.process w disk0) =
              map CollageWorker.progress ([20; 40; 60] ++ mid ++ [95; 100]) ++
              [CollageWorker.finished success message]).
    { rewrite Hs.
      destruct (fst (save collage (CollageWorker.outputPath w) disk0)); eauto. }
    destruct Hend as (success & message & Hend).
    exists ([20; 40; 60] ++ mid ++ [95; 100]), success, message.
    split; [exact Hend|].
    split.
    { apply StronglySorted_Sorted, (sorted_between 60 94); try exact Hmid; try exact Smid.
      - lia.
      - repeat constructor; lia.
      - repeat constructor; lia.
      - repeat constructor; lia.
      - repeat constructor; lia. }
    split.
    { apply Forall_app. split; [repeat constructor; lia|].
      apply Forall_app. split; [|repeat constructor; lia].
      eapply Forall_impl; [exact Hmid|]. simpl. intros; lia. }
    split.
    { intros _. exists ([20; 40; 60] ++ mid ++ [95]).
      split; [now rewrite <- !app_assoc|]. split; [|rewrite Hr; discriminate].
      apply Forall_app. split; [repeat constructor; lia|].
      apply Forall_app. split; [|repeat constructor; lia].
      eapply Forall_impl; [exact Hmid|]. simpl. intros; lia. }
    intros _. apply in_or_app. right. apply in_or_app. right. right. now left.
Qed.

(** The run of the specification's size-cap example. *)
Lemma process_progress_order_witness :
  exists ps success message,
    CollageWorker.signals
      (@CollageWorker.process Props.nearestBackend
         (Props.workerOf Props.twoLarge 3 4000) ∅) =
      map CollageWorker.progress ps ++ [CollageWorker.finished success message] /\
    Sorted Z.le ps /\
    Forall (fun p => 0 <= p <= 100) ps /\
    (In 100 ps ->
     exists ps', ps = ps' ++ [100] /\ Forall (fun p => p < 100) ps' /\
                 CollageWorker.raster
                   (@CollageWorker.process Props.nearestBackend
                      (Props.workerOf Props.twoLarge 3 4000) ∅) <> None) /\
    (success = true -> In 100 ps).
Proof.
  apply (@process_progress_order Props.nearestBackend
           (Props.workerOf Props.twoLarge 3 4000) ∅).
  vm_compute. discriminate.
Defined.

(** ** Painting *)

Lemma scaled_size `{Backend} (img : QImage) (c : Z) :
  isNull img = false -> 0 <= c ->
  width (scaled img c c) = c /\ height (scaled img c c) = c.
Proof.
  intros Hn Hc. unfold scaled. rewrite Hn.
  destruct (Z.leb_spec c 0) as [H0|H0]; simpl.
  - split; lia.
  - destruct (Z.eqb_spec c (width img)) as [Ew|_]; simpl.
    + destruct (Z.eqb_spec c (height img)) as [Eh|_]; [auto|].
      destruct (create_pos c c (smoothTransform img c c)) as (? & ? & _); auto; lia.
    + destruct (create_pos c c (smoothTransform img c c)) as (? & ? & _); auto; lia.
Qed.

Lemma drawImage_size `{Backend} (device img : QImage) (x y : Z) :
  width (drawImage device x y img) = width device /\
  height (drawImage device x y img) = height device.
Proof. destruct device, img; simpl; auto. Qed.

Lemma drawImage_pixel `{Backend} (device img : QImage) (x y px py : Z) :
  isNull device = false -> isNull img = false ->
  pixel (drawImage device x y img) px py =
  if valid img (px - x) (py - y)
  then sourceOver (pixel img (px - x) (py - y)) (pixel device px py)
  else pixel device px py.
Proof. destruct device, img; simpl; try discriminate. reflexivity. Qed.

Section Cells.

Variables N c : Z.
Hypothesis HN : 1 <= N.
Hypothesis Hc : 1 <= c.

Lemma pixel_column (px col : Z) :
  0 <= px -> (col * c <= px < col * c + c <-> px / c = col).
Proof.
  intros Hpx. pose proof (Z.div_mod px c ltac:(lia)) as Hdm.
  pose proof (Z.mod_pos_bound px c ltac:(lia)) as Hr.
  split; intros Hcol; nia.
Qed.

Lemma index_split (i : Z) :
  0 <= i < N * N ->
  i = i / N * N + i mod N /\ 0 <= i mod N < N /\ 0 <= i / N < N.
Proof.
  intros Hi. pose proof (Z.div_mod i N ltac:(lia)) as Hdm.
  pose proof (Z.mod_pos_bound i N ltac:(lia)) as Hr.
  assert (0 <= i / N) by (apply Z.div_pos; lia).
  assert (i / N < N) by (apply Z.div_lt_upper_bound; lia).
  lia.
Qed.

Lemma index_unique (r1 q1 r2 q2 : Z) :
  0 <= q1 < N -> 0 <= q2 < N ->
  r1 * N + q1 = r2 * N + q2 -> r1 = r2 /\ q1 = q2.
Proof.
  intros H1 H2 E.
  assert (Hr : r1 = r2).
  { destruct (Z.lt_trichotomy r1 r2) as [Hlt|[Heq|Hgt]]; [|exact Heq|].
    - assert ((r2 - r1) * N >= N) by nia. lia.
    - assert ((r1 - r2) * N >= N) by nia. lia. }
  subst r2. lia.
Qed.

Lemma pixel_cell_bounds (px : Z) :
  0 <= px < N * c -> 0 <= px / c < N.
Proof.
  intros Hpx. split; [apply Z.div_pos; lia|].
  apply Z.div_lt_upper_bound; lia.
Qed.

End Cells.

Section PaintCells.

Context `{Backend}.
Variables N c size : Z.
Hypothesis HN : 1 <= N.
Hypothesis Hc : 1 <= c.
Hypothesis Hside : N * c <= Int.INT_MAX.
Hypothesis Hcount : N * N <= Int.INT_MAX.

Lemma cell_offsets (i : Z) :
  0 <= i < N * N ->
  Int.mul (Int.rem (Int.wrap i) N) c = i mod N * c /\
  Int.mul (Int.div (Int.wrap i) N) c = i / N * c.
Proof.
  intros Hi. destruct (index_split N HN i Hi) as (_ & Hcol & Hrow).
  unfold Int.mul, Int.rem, Int.div.
  rewrite (wrap_small i) by lia.
  rewrite Z.rem_mod_nonneg by lia.
  rewrite Z.quot_div_nonneg by lia.
  rewrite (wrap_small (i / N)) by (unfold Int.INT_MAX in *; nia).
  split; apply wrap_small; unfold Int.INT_MAX in *; nia.
Qed.

(** The body of the loop at index [i], seen from one pixel of the collage. *)
Lemma paint_cell_pixel (collage img : QImage) (i px py : Z) :
  0 <= i < N * N ->
  width collage = N * c -> height collage = N * c ->
  0 <= px < N * c -> 0 <= py < N * c ->
  pixel (if negb (isNull img)
         then drawImage collage (Int.mul (Int.rem (Int.wrap i) N) c)
                (Int.mul (Int.div (Int.wrap i) N) c) (scaled img c c)
         else collage) px py =
  if (py / c * N + px / c =? i) && negb (isNull img)
  then sourceOver (pixel (scaled img c c) (px - px / c * c) (py - py / c * c))
                  (pixel collage px py)
  else pixel collage px py.
Proof.
  intros Hi Hw Hh Hpx Hpy.
  destruct (isNull img) eqn:Hnull; simpl negb; cbv iota.
  { now rewrite andb_false_r. }
  rewrite andb_true_r.
  destruct (cell_offsets i Hi) as [-> ->].
  destruct (index_split N HN i Hi) as (Hsplit & Hcol & Hrow).
  destruct (scaled_size img c Hnull ltac:(lia)) as [Hsw Hsh].
  rewrite drawImage_pixel;
    [| apply isNull_width; nia | apply isNull_width; rewrite Hsw; lia].
  pose proof (pixel_cell_bounds N c Hc px Hpx) as Hpc.
  pose proof (pixel_cell_bounds N c Hc py Hpy) as Hpr.
  destruct (Z.eqb_spec (py / c * N + px / c) i) as [E|E].
  - rewrite Hsplit in E. apply (index_unique N) in E as [Er Ec]; [|lia|lia].
    rewrite <- Er, <- Ec.
    assert (Hx : px / c * c <= px < px / c * c + c) by (apply pixel_column; lia).
    assert (Hy : py / c * c <= py < py / c * c + c) by (apply pixel_column; lia).
    unfold valid. rewrite Hsw, Hsh.
    decide_comparisons.
    reflexivity.
  - unfold valid. rewrite Hsw, Hsh.
    destruct (0 <=? px - i mod N * c) eqn:B1; simpl; [|reflexivity].
    destruct (px - i mod N * c <? c) eqn:B2; simpl; [|reflexivity].
    destruct (0 <=? py - i / N * c) eqn:B3; simpl; [|reflexivity].
    destruct (py - i / N * c <? c) eqn:B4; simpl; [|reflexivity].
    exfalso. apply E.
    apply Z.leb_le in B1, B3. apply Z.ltb_lt in B2, B4.
    assert (Ex : px / c = i mod N) by (apply pixel_column; lia).
    assert (Ey : py / c = i / N) by (apply pixel_column; lia).
    rewrite Ex, Ey. lia.
Qed.

Lemma paint_cell_size (collage img : QImage) (x y : Z) :
  width (if negb (isNull img) then drawImage collage x y (scaled img c c) else collage)
    = width collage /\
  height (if negb (isNull img) then drawImage collage x y (scaled img c c) else collage)
    = height collage.
Proof. destruct (negb (isNull img)); [apply drawImage_size | auto]. Qed.

(** The loop from index [i] on, seen from one pixel: the pixel is written
    by the iteration of its own cell, if that iteration is still to come
    and the cell holds an image, and by no other. *)
Lemma paintLoop_pixel (rest : list QImage) (i : Z) (collage : QImage)
    (emitted : list CollageWorker.Signal) (px py : Z) :
  0 <= i -> i + Z.of_nat (length rest) <= N * N ->
  width collage = N * c -> height collage = N * c ->
  0 <= px < N * c -> 0 <= py < N * c ->
  pixel (fst (CollageWorker.paintLoop N c size i rest collage emitted)) px py =
  if py / c * N + px / c <? i then pixel collage px py
  else match rest !! Z.to_nat (py / c * N + px / c - i) with
       | Some img =>
           if isNull img then pixel collage px py
           else sourceOver (pixel (scaled img c c) (px - px / c * c) (py - py / c * c))
                           (pixel collage px py)
       | None => pixel collage px py
       end.
Proof.
  revert i collage emitted.
  induction rest as [|img rest IH]; intros i collage emitted Hi Hlen Hw Hh Hpx Hpy.
  - simpl. now destruct (_ <? _).
  - cbn [CollageWorker.paintLoop].
    assert (Hin : 0 <= i < N * N) by (simpl length in Hlen; lia).
    match goal with
    | |- context [CollageWorker.paintLoop _ _ _ _ _ ?c' ?e'] =>
        pose proof (IH (i + 1) c' e') as IH'
    end.
    destruct (paint_cell_size collage img
                (Int.mul (Int.rem (Int.wrap i) N) c)
                (Int.mul (Int.div (Int.wrap i) N) c)) as [Hw' Hh'].
    rewrite IH'; [| lia | simpl length in Hlen; lia | lia | lia | lia | lia].
    rewrite !(paint_cell_pixel collage img i px py Hin Hw Hh Hpx Hpy).
    set (k := py / c * N + px / c).
    destruct (Z.ltb_spec k i) as [Hki|Hki].
    + destruct (Z.ltb_spec k (i + 1)); [|lia].
      destruct (Z.eqb_spec k i); [lia|]. reflexivity.
    + destruct (Z.eqb_spec k i) as [E|E].
      * destruct (Z.ltb_spec k (i + 1)); [|lia].
        replace (Z.to_nat (k - i)) with 0%nat by lia. simpl.
        now destruct (isNull img).
      * destruct (Z.ltb_spec k (i + 1)); [lia|].
        replace (Z.to_nat (k - i)) with (S (Z.to_nat (k - (i + 1)))) by lia.
        simpl. reflexivity.
Qed.

End PaintCells.

Lemma squareOf_isNull (img : QImage) : isNull (Props.squareOf img) = isNull img.
Proof.
  unfold Props.squareOf. destruct (isNull img) eqn:E; [reflexivity|].
  now destruct (squareOf_size img E) as (_ & _ & ->).
Qed.

Lemma blank_pixel (side px py : Z) :
  1 <= side -> pixel (fill white (create side side (fun _ _ => 0))) px py = white.
Proof. destruct side; simpl; auto; lia. Qed.

Lemma save_raster `{Backend} (img : QImage) (fileName : string) (disk0 : Disk) :
  isNull img = false ->
  save img fileName disk0 =
  if writable fileName then (true, <[fileName := img]> disk0) else (false, disk0).
Proof. intros Hn. unfold save. now rewrite Hn. Qed.

(** C2.  In a run over a sequence with a present image, [(c, side)] being
    the cell size and collage side of the cap step: the raster is a
    [side] x [side] square; for the cell of row-major index [i], at row
    [i / N] and column [i mod N], and every offset [(x, y)] inside a cell,
    the raster pixel at [(col * c + x, row * c + y)] is the background
    white when the cell is absent, and otherwise the pixel [(x, y)] of the
    cell's square resized to exactly [c] x [c], composed over white; and
    the terminal signal depends on the write of the file only, absent cells
    causing no failure. *)
Theorem process_paints_cells `{Backend} (w : CollageWorker.t) (disk0 : Disk)
    (m c side i x y : Z) (cell : QImage) :
  Props.isMinimum m (Props.presentSquareWidths (CollageWorker.buildImages w)) ->
  CollageWorker.gridSize w * m < Int.INT_MAX ->
  0 <= CollageWorker.maxCollageSize w <= Int.INT_MAX ->
  CollageWorker.gridSize w * CollageWorker.gridSize w <= Int.INT_MAX ->
  CollageWorker.sizeCap (CollageWorker.gridSize w) (CollageWorker.maxCollageSize w)
    (snd (CollageWorker.cropPass (CollageWorker.buildImages w))) = (c, side) ->
  0 <= i ->
  CollageWorker.buildImages w !! Z.to_nat i = Some cell ->
  0 <= x < c -> 0 <= y < c ->
  exists collage ps,
    CollageWorker.raster (CollageWorker.process w disk0) = Some collage /\
    width collage = side /\ height collage = side /\
    (if isNull cell
     then pixel collage (i mod CollageWorker.gridSize w * c + x)
                        (i / CollageWorker.gridSize w * c + y) = white
     else width (scaled (CollageWorker.cropCenterToSquare cell) c c) = c /\
          height (scaled (CollageWorker.cropCenterToSquare cell) c c) = c /\
          pixel collage (i mod CollageWorker.gridSize w * c + x)
                        (i / CollageWorker.gridSize w * c + y) =
          sourceOver (pixel (scaled (CollageWorker.cropCenterToSquare cell) c c) x y)
                     white) /\
    CollageWorker.signals (CollageWorker.process w disk0) =
      map CollageWorker.progress ps ++
      [if writable (CollageWorker.outputPath w)
       then CollageWorker.finished true
              (CollageWorker.msgSaved side (CollageWorker.outputPath w))
       else CollageWorker.finished false CollageWorker.msgSaveError].
Proof.
  intros Hmin Hfit HM Hcount Hcap Hi Hcell Hx Hy.
  set (N := CollageWorker.gridSize w) in *.
  assert (HN : 1 <= N) by (eapply gridSize_pos; eassumption).
  assert (Hm : 1 <= m) by (eapply minimum_pos; eassumption).
  pose proof (process_sizeCap w m Hmin Hfit HM) as Hcap'.
  fold N in Hcap'. rewrite Hcap in Hcap'. injection Hcap' as Ec Eside.
  assert (Hc : 1 <= c) by lia.
  assert (Hside : N * c <= Int.INT_MAX).
  { rewrite Ec. unfold Props.cappedCellSize.
    destruct (Z.gtb_spec (N * m) (CollageWorker.maxCollageSize w)); [|lia].
    pose proof (Z.mul_div_le (CollageWorker.maxCollageSize w) N ltac:(lia)). lia. }
  rewrite <- Ec in Eside.
  assert (Hlen : Z.of_nat (length (map Props.squareOf (CollageWorker.buildImages w)))
                 = N * N).
  { rewrite length_map, buildImages_length, Nat2Z.inj_mul, Z2Nat.id by lia.
    reflexivity. }
  assert (HiN : 0 <= i < N * N).
  { apply lookup_lt_Some in Hcell. rewrite <- Hlen, length_map. lia. }
  destruct (index_split N HN i HiN) as (Hsplit & Hcol & Hrow).
  rewrite (process_present w disk0 c side
             (process_not_absent w m Hmin Hfit) Hcap _ _ eq_refl eq_refl).
  cbn [CollageWorker.raster CollageWorker.signals]. fold N.
  set (blank := fill white (create side side (fun _ _ => 0))).
  set (size := Int.wrap _).
  set (start := [CollageWorker.progress 20; CollageWorker.progress 40;
                 CollageWorker.progress 60]).
  set (processed := map Props.squareOf (CollageWorker.buildImages w)) in *.
  assert (Hside1 : 1 <= side) by nia.
  destruct (blank_size side) as [Hbw Hbh]; [lia|]. fold blank in Hbw, Hbh.
  destruct (paintLoop_size N c size processed 0 blank start) as [Hpw Hph].
  eexists. eexists.
  split; [reflexivity|].
  split; [rewrite Hpw; exact Hbw|].
  split; [rewrite Hph; exact Hbh|].
  split.
  - set (px := i mod N * c + x). set (py := i / N * c + y).
    assert (Hpx : 0 <= px < N * c) by (unfold px; nia).
    assert (Hpy : 0 <= py < N * c) by (unfold py; nia).
    assert (Ecol : px / c = i mod N) by (apply pixel_column; unfold px; lia).
    assert (Erow : py / c = i / N) by (apply pixel_column; unfold py; lia).
    rewrite (paintLoop_pixel N c size HN Hc Hside Hcount processed 0 blank start px py);
      try lia.
    rewrite Ecol, Erow, <- Hsplit.
    destruct (Z.ltb_spec i 0); [lia|].
    replace (i - 0) with i by lia.
    unfold processed. rewrite lookup_map, Hcell. simpl option_map. cbv iota.
    rewrite squareOf_isNull. unfold blank. rewrite blank_pixel by lia.
    destruct (isNull cell) eqn:Hnull; [reflexivity|].
    unfold Props.squareOf. rewrite Hnull.
    destruct (squareOf_size cell Hnull) as (_ & _ & Hsq).
    destruct (scaled_size (CollageWorker.cropCenterToSquare cell) c Hsq ltac:(lia))
      as [Hsw Hsh].
    split; [exact Hsw|]. split; [exact Hsh|].
    f_equal. f_equal; unfold px, py; lia.
  - rewrite save_raster by (apply isNull_width; rewrite Hpw, Hbw; lia).
    rewrite paintLoop_signals.
    unfold start.
    instantiate (1 := [20; 40; 60] ++
      map (CollageWorker.paintProgress size) (seqZ 0 (Z.of_nat (length processed))) ++
      [95; 100]).
    rewrite !map_app, map_map, <- !app_assoc.
    destruct (writable (CollageWorker.outputPath w)); reflexivity.
Qed.

(** The 2 x 2 grid with its diagonal populated, squares of side 2 and 4:
    cells of side 2, a 4 x 4 raster, and the pixel (1, 0) of the cell of
    index 3 at (3, 2). *)
Lemma process_paints_cells_witness :
  exists collage ps,
    CollageWorker.raster
      (@CollageWorker.process Props.nearestBackend
         (Props.workerOf Props.diagonal 2 1000) ∅) = Some collage /\
    width collage = 4 /\ height collage = 4 /\
    (width (@scaled Props.nearestBackend
              (CollageWorker.cropCenterToSquare (Props.flat 4 4 9)) 2 2) = 2 /\
     height (@scaled Props.nearestBackend
               (CollageWorker.cropCenterToSquare (Props.flat 4 4 9)) 2 2) = 2 /\
     pixel collage 3 2 = 9) /\
    CollageWorker.signals
      (@CollageWorker.process Props.nearestBackend
         (Props.workerOf Props.diagonal 2 1000) ∅) =
      map CollageWorker.progress ps ++
      [CollageWorker.finished true (CollageWorker.msgSaved 4 "out.png")].
Proof.
  apply (@process_paints_cells Props.nearestBackend
           (Props.workerOf Props.diagonal 2 1000) ∅ 2 2 4 3 1 0 (Props.flat 4 4 9)).
  - split; vm_compute; [auto | repeat constructor; discriminate].
  - vm_compute. reflexivity.
  - vm_compute. split; discriminate.
  - vm_compute. discriminate.
  - vm_compute. reflexivity.
  - lia.
  - vm_compute. reflexivity.
  - lia.
  - lia.
Defined.

(** In the same run the cell of index 1 is absent: its pixels are white. *)
Example diagonal_absent_cells_white :
  exists collage,
    CollageWorker.raster
      (@CollageWorker.process Props.nearestBackend
         (Props.workerOf Props.diagonal 2 1000) ∅) = Some collage /\
    pixel collage 2 0 = white /\ pixel collage 3 1 = white /\
    pixel collage 0 0 = 0 /\ pixel collage 1 1 = 1001.
Proof. eexists. split; [reflexivity|]. vm_compute. auto. Qed.

(** ** Drops *)

(** C10.  A drop whose file has no valid extension (compared in lower
    case) or does not decode ends at one of the early returns of
    [onImageDropped]: a message box is shown and the window, its image
    store included, is exactly as before, so no entry is created,
    overwritten or removed and the target cell keeps what it held. *)
Theorem onImageDropped_rejected_keeps_store (app : CollageApp.t) (disk : Disk)
    (row col : Z) (filePath : string) :
  contains CollageApp.validExtensions (toLower (suffix filePath)) = false \/
  isNull (load disk filePath) = true ->
  (exists box,
     CollageApp.onImageDropped app disk row col filePath =
     (CollageApp.DropRejected box, app)) /\
  CollageApp.imageData (snd (CollageApp.onImageDropped app disk row col filePath)) =
    CollageApp.imageData app /\
  CollageApp.imageData (snd (CollageApp.onImageDropped app disk row col filePath))
    !! (row, col) = CollageApp.imageData app !! (row, col).
Proof.
  intros Hbad. unfold CollageApp.onImageDropped.
  destruct (contains CollageApp.validExtensions (toLower (suffix filePath))) eqn:Hext;
    simpl negb; cbv iota.
  - destruct Hbad as [Hbad|Hbad]; [discriminate|]. rewrite Hbad. eauto.
  - eauto.
Qed.

(** A text file dropped on the populated cell (0, 0). *)
Lemma onImageDropped_rejected_keeps_store_witness :
  (exists box,
     CollageApp.onImageDropped (Props.appOf Props.onePhoto 3) Props.photoDisk 0 0
       "/home/user/notes.txt" =
     (CollageApp.DropRejected box, Props.appOf Props.onePhoto 3)) /\
  CollageApp.imageData
    (snd (CollageApp.onImageDropped (Props.appOf Props.onePhoto 3) Props.photoDisk 0 0
            "/home/user/notes.txt")) = Props.onePhoto /\
  CollageApp.imageData
    (snd (CollageApp.onImageDropped (Props.appOf Props.onePhoto 3) Props.photoDisk 0 0
            "/home/user/notes.txt")) !! (0, 0) = Props.onePhoto !! (0, 0).
Proof.
  apply (onImageDropped_rejected_keeps_store (Props.appOf Props.onePhoto 3)
           Props.photoDisk 0 0 "/home/user/notes.txt").
  left. vm_compute. reflexivity.
Defined.

(** The extension is compared in lower case, and a file that is not on the
    disk does not decode. *)
Example onImageDropped_extension_case :
  contains CollageApp.validExtensions (toLower (suffix "/photos/IMG_01.JPeG")) = true /\
  contains CollageApp.validExtensions (toLower (suffix "/photos.png/readme")) = false /\
  fst (CollageApp.onImageDropped (Props.appOf ∅ 3) Props.photoDisk 1 1 "/missing.png") =
    CollageApp.DropRejected (critical "Ошибка" "Не удалось загрузить изображение").
Proof. vm_compute. auto. Qed.

(** What [onImageDropped] does with a file that passes both checks. *)
Lemma onImageDropped_accepted (app : CollageApp.t) (disk : Disk)
    (row col : Z) (filePath : string) :
  contains CollageApp.validExtensions (toLower (suffix filePath)) = true ->
  isNull (load disk filePath) = false ->
  CollageApp.onImageDropped app disk row col filePath =
  (if CollageApp.inCells app row col
   then CollageApp.DropStored else CollageApp.DropCellOutOfRange,
   {| CollageApp.gridSize := CollageApp.gridSize app;
      CollageApp.maxCollageSize := CollageApp.maxCollageSize app;
      CollageApp.imageData :=
        <[(row, col) := Props.entry filePath (load disk filePath)]>
          (CollageApp.imageData app);
      CollageApp.cells := CollageApp.cells app |}).
Proof.
  intros Hext Hload. unfold CollageApp.onImageDropped. rewrite Hext, Hload.
  simpl negb. cbv iota. unfold CollageApp.inCells. simpl.
  now destruct (_ && _).
Qed.

(** C8, as the code has it.  [onImageDropped] compares the coordinate with
    nothing: whatever the coordinate, inside the grid or not, a file with a
    valid extension that decodes is stored at that coordinate, without a
    rejection; the call then reads the cell widget of that coordinate,
    which is outside the widget grid exactly when the coordinate is. *)
Theorem onImageDropped_no_bounds_check (app : CollageApp.t) (disk : Disk)
    (row col : Z) (filePath : string) :
  contains CollageApp.validExtensions (toLower (suffix filePath)) = true ->
  isNull (load disk filePath) = false ->
  CollageApp.imageData (snd (CollageApp.onImageDropped app disk row col filePath)) =
    <[(row, col) := Props.entry filePath (load disk filePath)]>
      (CollageApp.imageData app) /\
  fst (CollageApp.onImageDropped app disk row col filePath) =
    if CollageApp.inCells app row col
    then CollageApp.DropStored else CollageApp.DropCellOutOfRange.
Proof.
  intros Hext Hload. rewrite onImageDropped_accepted by assumption. auto.
Qed.

(** The photo dropped at (5, 5) of a 3 x 3 grid. *)
Lemma onImageDropped_no_bounds_check_witness :
  CollageApp.imageData
    (snd (CollageApp.onImageDropped (Props.appOf ∅ 3) Props.photoDisk 5 5 "a.png")) =
    <[(5, 5) := Props.entry "a.png" (load Props.photoDisk "a.png")]> ∅ /\
  fst (CollageApp.onImageDropped (Props.appOf ∅ 3) Props.photoDisk 5 5 "a.png") =
    CollageApp.DropCellOutOfRange.
Proof.
  apply (onImageDropped_no_bounds_check (Props.appOf ∅ 3) Props.photoDisk 5 5 "a.png");
    vm_compute; reflexivity.
Defined.

(** C8, as stated, fails: at (5, 5) of a 3 x 3 grid nothing is rejected and
    the store is not left unchanged. *)
Lemma onImageDropped_out_of_bounds_counterexample :
  (forall box,
     fst (CollageApp.onImageDropped (Props.appOf ∅ 3) Props.photoDisk 5 5 "a.png") <>
     CollageApp.DropRejected box) /\
  CollageApp.imageData
    (snd (CollageApp.onImageDropped (Props.appOf ∅ 3) Props.photoDisk 5 5 "a.png")) <>
  CollageApp.imageData (Props.appOf ∅ 3).
Proof.
  split.
  - intros box. vm_compute. discriminate.
  - intros E. apply (f_equal (fun store : gmap (Z * Z) CollageWorker.ImageData =>
                              match store !! (5, 5) with Some _ => true | None => false end))
      in E.
    vm_compute in E. discriminate.
Qed.

(** ** Grid-size changes *)

Lemma recreateGrid_empty (N M c : Z) :
  1 <= N ->
  CollageApp.recreateGrid
    {| CollageApp.gridSize := N; CollageApp.maxCollageSize := M;
       CollageApp.imageData := ∅; CollageApp.cells := c |} =
  Some {| CollageApp.gridSize := N; CollageApp.maxCollageSize := M;
          CollageApp.imageData := ∅; CollageApp.cells := N |}.
Proof.
  intros HN. unfold CollageApp.recreateGrid, CollageApp.updateAllThumbnails. simpl.
  destruct (Z.leb_spec N 0); [lia|]. now rewrite map_fold_empty.
Qed.

Lemma entry_eta (d : CollageWorker.ImageData) :
  Props.entry (CollageWorker.path d) (CollageWorker.image d) = d.
Proof. now destruct d. Qed.

Section Restore.

Variable disk : Disk.
Variables newSize M : Z.
Hypothesis HnewSize : 1 <= newSize.

Let rebuilt (store : gmap (Z * Z) CollageWorker.ImageData) : CollageApp.t :=
  {| CollageApp.gridSize := newSize; CollageApp.maxCollageSize := M;
     CollageApp.imageData := store; CollageApp.cells := newSize |}.

Lemma restoreStep_kept (k : Z * Z) (d : CollageWorker.ImageData)
    (store : gmap (Z * Z) CollageWorker.ImageData) :
  contains CollageApp.validExtensions (toLower (suffix (CollageWorker.path d))) = true ->
  load disk (CollageWorker.path d) = CollageWorker.image d ->
  isNull (CollageWorker.image d) = false ->
  0 <= k.1 -> 0 <= k.2 ->
  CollageApp.restoreStep disk newSize k d (Some (rebuilt store)) =
  Some (rebuilt (if (k.1 <? newSize) && (k.2 <? newSize) then <[k := d]> store else store)).
Proof.
  intros Hext Hload Hnull Hrow Hcol. unfold CollageApp.restoreStep.
  destruct ((k.1 <? newSize) && (k.2 <? newSize)) eqn:Hin; [|reflexivity].
  rewrite onImageDropped_accepted by (rewrite ?Hload; assumption).
  apply andb_true_iff in Hin as [Hr Hc]. apply Z.ltb_lt in Hr, Hc.
  unfold CollageApp.inCells. simpl.
  destruct (Z.leb_spec 0 k.1); [|lia]. destruct (Z.ltb_spec k.1 newSize); [|lia].
  destruct (Z.leb_spec 0 k.2); [|lia]. destruct (Z.ltb_spec k.2 newSize); [|lia].
  simpl. rewrite Hload, entry_eta. destruct k. reflexivity.
Qed.

Lemma restore_fold (old : gmap (Z * Z) CollageWorker.ImageData) :
  Props.diskAgrees disk old -> Props.nonNegative old ->
  map_fold (CollageApp.restoreStep disk newSize) (Some (rebuilt ∅)) old =
  Some (rebuilt (Props.retainWithinBounds newSize old)).
Proof.
  apply (map_fold_weak_ind
    (fun r store => Props.diskAgrees disk store -> Props.nonNegative store ->
                    r = Some (rebuilt (Props.retainWithinBounds newSize store)))).
  - intros _ _. unfold Props.retainWithinBounds. now rewrite map_filter_empty.
  - intros k d store r Hfresh IH Hagree Hnonneg.
    rewrite IH.
    + destruct (Hagree k d (lookup_insert_eq store k d)) as (Hext & Hload & Hnull).
      destruct (Hnonneg k d (lookup_insert_eq store k d)) as [Hrow Hcol].
      rewrite restoreStep_kept by assumption.
      f_equal. f_equal. unfold Props.retainWithinBounds.
      destruct ((k.1 <? newSize) && (k.2 <? newSize)) eqn:Hin.
      * apply andb_true_iff in Hin as [Hr Hc]. apply Z.ltb_lt in Hr, Hc.
        rewrite map_filter_insert_True; [reflexivity | simpl; lia].
      * rewrite map_filter_insert_not'; [reflexivity | | intros y Hy; congruence].
        simpl. intros [Hr Hc]. apply Z.ltb_lt in Hr, Hc. rewrite Hr, Hc in Hin.
        discriminate.
    + intros k' d' Hk'. apply (Hagree k' d'). rewrite lookup_insert_ne; [exact Hk'|].
      intros ->. congruence.
    + intros k' d' Hk'. apply (Hnonneg k' d'). rewrite lookup_insert_ne; [exact Hk'|].
      intros ->. congruence.
Qed.

End Restore.

(** Where the restore loop of [onGridSizeChanged] does what
    [retainWithinBounds] asks for: when every stored file is still on the
    disk with the content it had when it was dropped. *)
Lemma onGridSizeChanged_stable_disk (app : CollageApp.t) (disk : Disk) (newSize : Z) :
  1 <= newSize -> newSize <> CollageApp.gridSize app ->
  Props.diskAgrees disk (CollageApp.imageData app) ->
  Props.nonNegative (CollageApp.imageData app) ->
  CollageApp.onGridSizeChanged app disk newSize =
  Some {| CollageApp.gridSize := newSize;
          CollageApp.maxCollageSize := CollageApp.maxCollageSize app;
          CollageApp.imageData :=
            Props.retainWithinBounds newSize (CollageApp.imageData app);
          CollageApp.cells := newSize |}.
Proof.
  intros Hnew Hne Hagree Hnonneg. unfold CollageApp.onGridSizeChanged.
  destruct (Z.eqb_spec newSize (CollageApp.gridSize app)); [contradiction|].
  simpl negb. cbv iota. rewrite recreateGrid_empty by exact Hnew.
  now apply restore_fold.
Qed.

(** C5 on the code.  The restore loop does not put the saved entries back:
    it drops each saved path again, which reads the file anew.  The photo
    at (0, 0) fits the 2 x 2 grid, and [retainWithinBounds 2] keeps it; its
    file being gone from the disk, the change of the grid from 3 to 2 loses
    it. *)
Theorem onGridSizeChanged_loses_unreadable :
  Props.retainWithinBounds 2 Props.onePhoto !! (0, 0) =
    Some (Props.entry "a.png" (Props.flat 4 6 1)) /\
  exists app',
    CollageApp.onGridSizeChanged (Props.appOf Props.onePhoto 3) ∅ 2 = Some app' /\
    CollageApp.gridSize app' = 2 /\
    CollageApp.imageData app' !! (0, 0) = None.
Proof.
  split; [vm_compute; reflexivity|].
  eexists. split; [vm_compute; reflexivity|]. split; vm_compute; reflexivity.
Qed.

(** With the file in place the same change keeps the photo. *)
Example onGridSizeChanged_keeps_readable :
  exists app',
    CollageApp.onGridSizeChanged (Props.appOf Props.onePhoto 3) Props.photoDisk 2
      = Some app' /\
    CollageApp.imageData app' !! (0, 0) = Some (Props.entry "a.png" (Props.flat 4 6 1)).
Proof. eexists. split; vm_compute; reflexivity. Qed.

(** ** Cancellation *)

(** [process] is the same run whether or not [quit] has been called. *)
Lemma runThread_quit `{Backend} (job : CollageApp.Job) (disk0 : Disk) :
  CollageApp.runThread (CollageApp.quit job) disk0 = CollageApp.runThread job disk0.
Proof. reflexivity. Qed.

(** C6 on the code.  A job is started for the one-photo store and its
    thread is told to quit before [process] has painted anything: the run
    is the complete one all the same, with the progress value of each of
    the nine loop iterations; the 12 x 12 collage is written at the
    destination and the success signal is emitted. *)
Theorem cancel_before_paint_still_writes :
  exists job,
    CollageApp.createCollage (Props.appOf Props.onePhoto 3) "out.png" =
      CollageApp.CreateStarted job /\
    CollageApp.quitRequested (CollageApp.quit job) = true /\
    CollageWorker.signals
      (@CollageApp.runThread Props.nearestBackend (CollageApp.quit job) ∅) =
      map CollageWorker.progress [20; 40; 60; 60; 63; 67; 71; 75; 79; 83; 87; 91; 95; 100]
      ++ [CollageWorker.finished true (CollageWorker.msgSaved 12 "out.png")] /\
    exists collage,
      CollageWorker.disk
        (@CollageApp.runThread Props.nearestBackend (CollageApp.quit job) ∅)
        !! "out.png" = Some collage /\
      width collage = 12 /\ height collage = 12.
Proof.
  eexists. split; [vm_compute; reflexivity|]. split; [reflexivity|].
  split; [vm_compute; reflexivity|].
  eexists. split; [vm_compute; reflexivity|]. split; reflexivity.
Qed.

(** ** The examples of the specification, run on the code *)

(** Squares of sides 200, 300 and 150 under N = 3 and a cap of 4000: the
    common cell size is 150 and the raster 450 x 450. *)
Example three_sizes_minimum :
  snd (CollageWorker.cropPass
         (CollageWorker.buildImages (Props.workerOf Props.threeSizes 3 4000))) = 150 /\
  option_map (fun collage => (width collage, height collage))
    (CollageWorker.raster
       (@CollageWorker.process Props.nearestBackend
          (Props.workerOf Props.threeSizes 3 4000) ∅)) = Some (450, 450).
Proof. split; vm_compute; reflexivity. Qed.

(** A store populated at (0,0), (1,1), (2,2), every file in place: the
    change to 2 removes (2,2) and keeps the other two; the change to 5
    afterwards removes nothing. *)
Example shrink_then_grow :
  exists app2 app5,
    CollageApp.onGridSizeChanged (Props.appOf Props.threeDiagonal 3) Props.diagonalDisk 2
      = Some app2 /\
    CollageApp.imageData app2 =
      <[(0, 0) := Props.entry "a.png" (Props.flat 4 6 1)]>
        (<[(1, 1) := Props.entry "b.png" (Props.flat 5 5 2)]> ∅) /\
    CollageApp.onGridSizeChanged app2 Props.diagonalDisk 5 = Some app5 /\
    CollageApp.imageData app5 = CollageApp.imageData app2.
Proof.
  do 2 eexists. split; [vm_compute; reflexivity|]. split; [vm_compute; reflexivity|].
  split; vm_compute; reflexivity.
Qed.

(** A second drop on a populated cell overwrites its entry; the number of
    populated cells does not change. *)
Example redrop_overwrites :
  size (CollageApp.imageData
          (snd (CollageApp.onImageDropped (Props.appOf Props.threeDiagonal 3)
                  Props.diagonalDisk 1 1 "c.png"))) = 3%nat /\
  CollageApp.imageData
    (snd (CollageApp.onImageDropped (Props.appOf Props.threeDiagonal 3)
            Props.diagonalDisk 1 1 "c.png")) !! (1, 1) =
    Some (Props.entry "c.png" (Props.flat 6 4 3)).
Proof. split; vm_compute; reflexivity. Qed.

(** * Further properties of the worker *)

(** ** The disk *)

Lemma process_cases `{Backend} (w : CollageWorker.t) (disk0 : Disk) :
  (CollageWorker.raster (CollageWorker.process w disk0) = None /\
   CollageWorker.disk (CollageWorker.process w disk0) = disk0 /\
   CollageWorker.signals (CollageWorker.process w disk0) =
     [CollageWorker.progress 20;
      CollageWorker.finished false CollageWorker.msgNoImages]) \/
  (exists collage ps,
     CollageWorker.raster (CollageWorker.process w disk0) = Some collage /\
     CollageWorker.disk (CollageWorker.process w disk0) =
       snd (save collage (CollageWorker.outputPath w) disk0) /\
     CollageWorker.signals (CollageWorker.process w disk0) =
       map CollageWorker.progress ps ++
       [if fst (save collage (CollageWorker.outputPath w) disk0)
        then CollageWorker.finished true
               (CollageWorker.msgSaved
                  (snd (CollageWorker.sizeCap (CollageWorker.gridSize w)
                          (CollageWorker.maxCollageSize w)
                          (snd (CollageWorker.cropPass (CollageWorker.buildImages w)))))
                  (CollageWorker.outputPath w))
        else CollageWorker.finished false CollageWorker.msgSaveError]).
Proof.
  destruct (Z.eq_dec (snd (CollageWorker.cropPass (CollageWorker.buildImages w)))
              Int.INT_MAX) as [Habsent|Hpresent].
  - left. rewrite (process_absent w disk0 Habsent). auto.
  - right. destruct (process_present_signals w disk0 Hpresent) as (collage & Hr & Hd & Hs).
    eauto.
Qed.

(** X1.  Whatever the input, a run of [process] leaves every file other
    than the one at [outputPath] as it was. *)
Theorem process_touches_only_destination `{Backend} (w : CollageWorker.t)
    (disk0 : Disk) (p : string) :
  p <> CollageWorker.outputPath w ->
  CollageWorker.disk (CollageWorker.process w disk0) !! p = disk0 !! p.
Proof.
  intros Hp. destruct (process_cases w disk0) as [(_ & -> & _)|(collage & ps & _ & -> & _)];
    [reflexivity|].
  unfold save. destruct (isNull collage); [reflexivity|].
  destruct (writable (CollageWorker.outputPath w)); [|reflexivity].
  simpl. apply lookup_insert_ne. congruence.
Qed.

(** The photo on the disk survives a run that writes [out.png]. *)
Lemma process_touches_only_destination_witness :
  CollageWorker.disk
    (@CollageWorker.process Props.nearestBackend
       (Props.workerOf Props.onePhoto 3 4000) Props.photoDisk) !! "a.png" =
  Props.photoDisk !! "a.png".
Proof.
  apply (@process_touches_only_destination Props.nearestBackend
           (Props.workerOf Props.onePhoto 3 4000) Props.photoDisk "a.png").
  vm_compute. discriminate.
Defined.

(** X2.  The terminal signal and the disk go together: the run reports
    success exactly when it has constructed a non-empty raster and the
    destination is writable, and then the file at [outputPath] is that
    raster; in every other run the disk is left as it was. *)
Theorem process_success_iff_written `{Backend} (w : CollageWorker.t) (disk0 : Disk) :
  exists success message,
    last (CollageWorker.signals (CollageWorker.process w disk0)) =
      Some (CollageWorker.finished success message) /\
    (success = true <->
     exists collage,
       CollageWorker.raster (CollageWorker.process w disk0) = Some collage /\
       isNull collage = false /\
       writable (CollageWorker.outputPath w) = true) /\
    (if success
     then CollageWorker.disk (CollageWorker.process w disk0)
            !! CollageWorker.outputPath w =
          CollageWorker.raster (CollageWorker.process w disk0)
     else CollageWorker.disk (CollageWorker.process w disk0) = disk0).
Proof.
  destruct (process_cases w disk0) as [(Hr & Hd & Hs)|(collage & ps & Hr & Hd & Hs)].
  - exists false, CollageWorker.msgNoImages. rewrite Hs, Hr, Hd.
    split; [reflexivity|]. split; [|reflexivity].
    split; [discriminate|]. intros (collage & Habs & _). discriminate.
  - rewrite Hs, Hr, Hd, last_snoc. unfold save.
    destruct (isNull collage) eqn:Hnull; simpl.
    + eexists _, _. split; [reflexivity|]. split; [|reflexivity].
      split; [discriminate|]. intros (c' & Hc' & Hn' & _).
      injection Hc' as <-. congruence.
    + destruct (writable (CollageWorker.outputPath w)) eqn:Hw; simpl.
      * eexists _, _. split; [reflexivity|]. split; [|apply lookup_insert_eq].
        split; [|reflexivity]. intros _. eauto.
      * eexists _, _. split; [reflexivity|]. split; [|reflexivity].
        split; [discriminate|]. intros (c' & _ & _ & Habs). discriminate.
Qed.

(** ** The cap *)

(** X3.  With a present image, [m] being the smallest square side: the
    raster never exceeds the cap [M] and the cell size never exceeds [m],
    so no square is enlarged; without clamping the side is exactly
    [N * m], and with clamping it falls short of the cap by less than
    [N] pixels. *)
Theorem process_raster_within_cap `{Backend} (w : CollageWorker.t) (disk0 : Disk) (m : Z) :
  Props.isMinimum m (Props.presentSquareWidths (CollageWorker.buildImages w)) ->
  CollageWorker.gridSize w * m < Int.INT_MAX ->
  0 <= CollageWorker.maxCollageSize w <= Int.INT_MAX ->
  exists collage c,
    CollageWorker.raster (CollageWorker.process w disk0) = Some collage /\
    CollageWorker.sizeCap (CollageWorker.gridSize w) (CollageWorker.maxCollageSize w)
      (snd (CollageWorker.cropPass (CollageWorker.buildImages w)))
      = (c, width collage) /\
    height collage = width collage /\
    0 <= c <= m /\
    (if CollageWorker.gridSize w * m <=? CollageWorker.maxCollageSize w
     then width collage = CollageWorker.gridSize w * m
     else CollageWorker.maxCollageSize w - CollageWorker.gridSize w < width collage
          /\ width collage <= CollageWorker.maxCollageSize w).
Proof.
  intros Hmin Hfit HM.
  assert (HN : 1 <= CollageWorker.gridSize w) by (eapply gridSize_pos; eassumption).
  assert (Hm : 1 <= m) by (eapply minimum_pos; eassumption).
  destruct (process_raster_size w disk0 m Hmin Hfit HM) as (collage & Hr & Hw & Hh).
  pose proof (process_sizeCap w m Hmin Hfit HM) as Hcap.
  exists collage, (Props.cappedCellSize (CollageWorker.gridSize w)
                     (CollageWorker.maxCollageSize w) m).
  rewrite Hw, Hh. split; [exact Hr|]. split; [exact Hcap|]. split; [reflexivity|].
  unfold Props.cappedCellSize.
  set (N := CollageWorker.gridSize w) in *. set (M := CollageWorker.maxCollageSize w) in *.
  destruct (Z.gtb_spec (N * m) M) as [Hover|Hunder].
  - assert (H0 : 0 <= M / N) by (apply Z.div_pos; lia).
    assert (H1 : N * (M / N) <= M) by (apply Z.mul_div_le; lia).
    assert (H2 : M < N * (M / N) + N).
    { pose proof (Z.div_mod M N ltac:(lia)). pose proof (Z.mod_pos_bound M N ltac:(lia)).
      lia. }
    split; [split; [lia|nia]|].
    destruct (Z.leb_spec (N * m) M); [lia|]. lia.
  - split; [lia|]. destruct (Z.leb_spec (N * m) M); [reflexivity|lia].
Qed.

(** The specification's size-cap example: 3999 is within 4000 and above
    4000 - 3. *)
Lemma process_raster_within_cap_witness :
  exists collage c,
    CollageWorker.raster
      (@CollageWorker.process Props.nearestBackend
         (Props.workerOf Props.twoLarge 3 4000) ∅) = Some collage /\
    CollageWorker.sizeCap 3 4000
      (snd (CollageWorker.cropPass
              (CollageWorker.buildImages (Props.workerOf Props.twoLarge 3 4000))))
      = (c, width collage) /\
    height collage = width collage /\
    0 <= c <= 2000 /\
    (4000 - 3 < width collage /\ width collage <= 4000).
Proof.
  apply (@process_raster_within_cap Props.nearestBackend
           (Props.workerOf Props.twoLarge 3 4000) ∅ 2000).
  - split; vm_compute; [auto | repeat constructor; discriminate].
  - vm_compute. reflexivity.
  - vm_compute. split; discriminate.
Defined.

(** ** The cells that count *)

Lemma buildImages_ext (w1 w2 : CollageWorker.t) :
  CollageWorker.gridSize w1 = CollageWorker.gridSize w2 ->
  (forall i j,
     0 <= i < CollageWorker.gridSize w1 -> 0 <= j < CollageWorker.gridSize w1 ->
     CollageWorker.image <$> CollageWorker.imageData w1 !! (i, j) =
     CollageWorker.image <$> CollageWorker.imageData w2 !! (i, j)) ->
  CollageWorker.buildImages w1 = CollageWorker.buildImages w2.
Proof.
  intros HN Hcells. unfold CollageWorker.buildImages. rewrite <- HN.
  rewrite !flat_map_concat_map. f_equal.
  apply map_ext_in. intros i Hi. apply map_ext_in. intros j Hj.
  apply list_elem_of_In, elem_of_seqZ in Hi. apply list_elem_of_In, elem_of_seqZ in Hj.
  specialize (Hcells i j ltac:(lia) ltac:(lia)).
  destruct (CollageWorker.imageData w1 !! (i, j)), (CollageWorker.imageData w2 !! (i, j));
    simpl in Hcells; congruence.
Qed.

(** X4.  A run depends on the store only through the images at the
    coordinates of the grid: two workers with the same grid size, cap and
    destination whose stores hold the same images at every [(i, j)] with
    [0 <= i, j < N] produce the same signals, raster and disk, whatever
    their stores hold outside the grid and whatever paths the entries
    carry. *)
Theorem process_ignores_outside_grid `{Backend} (w1 w2 : CollageWorker.t) (disk0 : Disk) :
  CollageWorker.gridSize w1 = CollageWorker.gridSize w2 ->
  CollageWorker.maxCollageSize w1 = CollageWorker.maxCollageSize w2 ->
  CollageWorker.outputPath w1 = CollageWorker.outputPath w2 ->
  (forall i j,
     0 <= i < CollageWorker.gridSize w1 -> 0 <= j < CollageWorker.gridSize w1 ->
     CollageWorker.image <$> CollageWorker.imageData w1 !! (i, j) =
     CollageWorker.image <$> CollageWorker.imageData w2 !! (i, j)) ->
  CollageWorker.process w1 disk0 = CollageWorker.process w2 disk0.
Proof.
  intros HN HM Hp Hcells. unfold CollageWorker.process.
  rewrite (buildImages_ext w1 w2 HN Hcells), HN, HM, Hp. reflexivity.
Qed.

(** The store [twoLarge] next to one that differs outside the 3 x 3 grid. *)
Lemma process_ignores_outside_grid_witness :
  @CollageWorker.process Props.nearestBackend
    (Props.workerOf Further.twoLargeAndOutside 3 4000) ∅ =
  @CollageWorker.process Props.nearestBackend
    (Props.workerOf Props.twoLarge 3 4000) ∅.
Proof.
  apply (@process_ignores_outside_grid Props.nearestBackend
           (Props.workerOf Further.twoLargeAndOutside 3 4000)
           (Props.workerOf Props.twoLarge 3 4000) ∅); try reflexivity.
  intros i j Hi Hj. simpl in Hi, Hj.
  assert (Ei : i = 0 \/ i = 1 \/ i = 2) by lia.
  assert (Ej : j = 0 \/ j = 1 \/ j = 2) by lia.
  destruct Ei as [->|[->| ->]], Ej as [->|[->| ->]]; vm_compute; reflexivity.
Defined.

(** ** When the run fails for want of images *)

Lemma presentSquareWidths_nil (images : list QImage) :
  Props.presentSquareWidths images = [] ->
  Forall (fun img => isNull img = true) images.
Proof.
  induction images as [|img images IH]; [constructor|].
  rewrite presentSquareWidths_cons. destruct (isNull img) eqn:Hn; [|discriminate].
  intros E. constructor; auto.
Qed.

(** X5.  The "no images" failure is the fate of the all-absent sequence
    only: as long as the present squares are narrower than [INT_MAX] (the
    loop's sentinel), the run constructs no raster exactly when every cell
    of the sequence is null. *)
Theorem process_no_raster_iff_absent `{Backend} (w : CollageWorker.t) (disk0 : Disk) :
  Forall (fun side => side < Int.INT_MAX)
    (Props.presentSquareWidths (CollageWorker.buildImages w)) ->
  (CollageWorker.raster (CollageWorker.process w disk0) = None <->
   Forall (fun img => isNull img = true) (CollageWorker.buildImages w)).
Proof.
  intros Hnarrow. split.
  - intros Hnone. apply presentSquareWidths_nil.
    destruct (Props.presentSquareWidths (CollageWorker.buildImages w))
      as [|side sides] eqn:Hw; [reflexivity|].
    exfalso.
    assert (Hpresent : snd (CollageWorker.cropPass (CollageWorker.buildImages w))
                       <> Int.INT_MAX).
    { rewrite cropPass_eq, Hw. simpl snd.
      destruct (foldl_min_le (side :: sides) Int.INT_MAX) as [_ Hle].
      apply Forall_inv in Hle. apply Forall_inv in Hnarrow. cbn [foldl] in Hle. lia. }
    destruct (process_present_signals w disk0 Hpresent) as (collage & Hr & _).
    congruence.
  - intros Habsent. rewrite process_absent; [reflexivity|].
    rewrite cropPass_eq. simpl. now rewrite presentSquareWidths_absent.
Qed.

(** A store whose only entries lie outside the 2 x 2 grid: every cell of
    the sequence is null and no raster is constructed. *)
Lemma process_no_raster_iff_absent_witness :
  CollageWorker.raster
    (@CollageWorker.process Props.nearestBackend
       (Props.workerOf {[ (2, 2) := Props.entry "a.png" (Props.flat 4 6 1) ]} 2 4000) ∅)
    = None <->
  Forall (fun img => isNull img = true)
    (CollageWorker.buildImages
       (Props.workerOf {[ (2, 2) := Props.entry "a.png" (Props.flat 4 6 1) ]} 2 4000)).
Proof.
  apply (@process_no_raster_iff_absent Props.nearestBackend
           (Props.workerOf {[ (2, 2) := Props.entry "a.png" (Props.flat 4 6 1) ]} 2 4000) ∅).
  replace (Props.presentSquareWidths _) with (@nil Z) by (vm_compute; reflexivity).
  constructor.
Defined.

(** ** Cropping twice *)

(** X6.  [cropCenterToSquare] does nothing to an image that is already
    the square it produces: cropping the crop again gives an image of the
    same size with the same pixels. *)
Theorem cropCenterToSquare_idempotent (img : QImage) (x y : Z) :
  1 <= width img <= Int.INT_MAX ->
  1 <= height img <= Int.INT_MAX ->
  0 <= x < Z.min (width img) (height img) ->
  0 <= y < Z.min (width img) (height img) ->
  width (CollageWorker.cropCenterToSquare (CollageWorker.cropCenterToSquare img)) =
    width (CollageWorker.cropCenterToSquare img) /\
  height (CollageWorker.cropCenterToSquare (CollageWorker.cropCenterToSquare img)) =
    height (CollageWorker.cropCenterToSquare img) /\
  pixel (CollageWorker.cropCenterToSquare (CollageWorker.cropCenterToSquare img)) x y =
    pixel (CollageWorker.cropCenterToSquare img) x y.
Proof.
  intros Hw Hh Hx Hy.
  destruct (crop_size img Hw Hh) as [Hcw Hch].
  set (sq := CollageWorker.cropCenterToSquare img) in *.
  assert (Hsw : 1 <= width sq <= Int.INT_MAX) by lia.
  assert (Hsh : 1 <= height sq <= Int.INT_MAX) by lia.
  destruct (crop_size sq Hsw Hsh) as [Hcw2 Hch2].
  rewrite Hcw2, Hch2, Hcw, Hch, Z.min_id. split; [reflexivity|]. split; [reflexivity|].
  rewrite (crop_pixel sq Hsw Hsh x y) by (rewrite Hcw, Hch, Z.min_id; lia).
  rewrite Hcw, Hch, Z.min_id, Z.sub_diag.
  change (0 / 2) with 0. now rewrite !Z.add_0_r.
Qed.

(** The 7 x 4 ramp: its crop is the 4 x 4 window from column 1, and
    cropping that again changes nothing. *)
Lemma cropCenterToSquare_idempotent_witness :
  width (CollageWorker.cropCenterToSquare
           (CollageWorker.cropCenterToSquare (Props.ramp 7 4))) = 4 /\
  height (CollageWorker.cropCenterToSquare
            (CollageWorker.cropCenterToSquare (Props.ramp 7 4))) = 4 /\
  pixel (CollageWorker.cropCenterToSquare
           (CollageWorker.cropCenterToSquare (Props.ramp 7 4))) 2 3 = 3003.
Proof.
  apply (cropCenterToSquare_idempotent (Props.ramp 7 4) 2 3);
    simpl; unfold Int.INT_MAX; lia.
Defined.

(** ** Cells that need no resampling *)

Lemma process_cell_pixel `{Backend} (w : CollageWorker.t) (disk0 : Disk)
    (m c side i x y : Z) (cell : QImage) :
  Props.isMinimum m (Props.presentSquareWidths (CollageWorker.buildImages w)) ->
  CollageWorker.gridSize w * m < Int.INT_MAX ->
  0 <= CollageWorker.maxCollageSize w <= Int.INT_MAX ->
  CollageWorker.gridSize w * CollageWorker.gridSize w <= Int.INT_MAX ->
  CollageWorker.sizeCap (CollageWorker.gridSize w) (CollageWorker.maxCollageSize w)
    (snd (CollageWorker.cropPass (CollageWorker.buildImages w))) = (c, side) ->
  0 <= i ->
  CollageWorker.buildImages w !! Z.to_nat i = Some cell ->
  0 <= x < c -> 0 <= y < c ->
  exists collage,
    CollageWorker.raster (CollageWorker.process w disk0) = Some collage /\
    pixel collage (i mod CollageWorker.gridSize w * c + x)
                  (i / CollageWorker.gridSize w * c + y) =
    if isNull cell then white
    else sourceOver (pixel (scaled (CollageWorker.cropCenterToSquare cell) c c) x y) white.
Proof.
  intros Hmin Hfit HM Hcount Hcap Hi Hcell Hx Hy.
  set (N := CollageWorker.gridSize w) in *.
  assert (HN : 1 <= N) by (eapply gridSize_pos; eassumption).
  assert (Hm : 1 <= m) by (eapply minimum_pos; eassumption).
  pose proof (process_sizeCap w m Hmin Hfit HM) as Hcap'.
  fold N in Hcap'. rewrite Hcap in Hcap'. injection Hcap' as Ec Eside.
  assert (Hc : 1 <= c) by lia.
  assert (Hside : N * c <= Int.INT_MAX).
  { rewrite Ec. unfold Props.cappedCellSize.
    destruct (Z.gtb_spec (N * m) (CollageWorker.maxCollageSize w)); [|lia].
    pose proof (Z.mul_div_le (CollageWorker.maxCollageSize w) N ltac:(lia)). lia. }
  rewrite <- Ec in Eside.
  assert (Hlen : Z.of_nat (length (map Props.squareOf (CollageWorker.buildImages w)))
                 = N * N).
  { rewrite length_map, buildImages_length, Nat2Z.inj_mul, Z2Nat.id by lia.
    reflexivity. }
  assert (HiN : 0 <= i < N * N).
  { apply lookup_lt_Some in Hcell. rewrite <- Hlen, length_map. lia. }
  destruct (index_split N HN i HiN) as (Hsplit & Hcol & Hrow).
  rewrite (process_present w disk0 c side
             (process_not_absent w m Hmin Hfit) Hcap _ _ eq_refl eq_refl).
  cbn [CollageWorker.raster]. fold N.
  set (blank := fill white (create side side (fun _ _ => 0))).
  set (size := Int.wrap _).
  set (start := [CollageWorker.progress 20; CollageWorker.progress 40;
                 CollageWorker.progress 60]).
  set (processed := map Props.squareOf (CollageWorker.buildImages w)) in *.
  assert (Hside1 : 1 <= side) by nia.
  destruct (blank_size side) as [Hbw Hbh]; [lia|]. fold blank in Hbw, Hbh.
  eexists. split; [reflexivity|].
  set (px := i mod N * c + x). set (py := i / N * c + y).
  assert (Hpx : 0 <= px < N * c) by (unfold px; nia).
  assert (Hpy : 0 <= py < N * c) by (unfold py; nia).
  assert (Ecol : px / c = i mod N) by (apply pixel_column; unfold px; lia).
  assert (Erow : py / c = i / N) by (apply pixel_column; unfold py; lia).
  rewrite (paintLoop_pixel N c size HN Hc Hside Hcount processed 0 blank start px py);
    try lia.
  rewrite Ecol, Erow, <- Hsplit.
  destruct (Z.ltb_spec i 0); [lia|].
  replace (i - 0) with i by lia.
  unfold processed. rewrite lookup_map, Hcell. simpl option_map. cbv iota.
  rewrite squareOf_isNull. unfold blank. rewrite blank_pixel by lia.
  destruct (isNull cell) eqn:Hnull; [reflexivity|].
  unfold Props.squareOf. rewrite Hnull.
  f_equal. f_equal; unfold px, py; lia.
Qed.

Lemma scaled_same_size `{Backend} (img : QImage) (c : Z) :
  isNull img = false -> width img = c -> height img = c -> scaled img c c = img.
Proof.
  intros Hn Hw Hh. unfold scaled. rewrite Hn.
  assert (1 <= c) by (apply isNull_width in Hn; lia).
  destruct (Z.leb_spec c 0); [lia|]. simpl.
  now rewrite Hw, Hh, Z.eqb_refl.
Qed.

(** X7.  A present cell whose square already has the common cell size is
    not resampled: its region of the raster holds the pixels of the
    centred square of the source image, composed over white, one for
    one.  This is the case of the smallest image whenever the cap does not
    apply. *)
Theorem process_copies_cell_of_common_size `{Backend} (w : CollageWorker.t)
    (disk0 : Disk) (m c side i x y : Z) (cell : QImage) :
  Props.isMinimum m (Props.presentSquareWidths (CollageWorker.buildImages w)) ->
  CollageWorker.gridSize w * m < Int.INT_MAX ->
  0 <= CollageWorker.maxCollageSize w <= Int.INT_MAX ->
  CollageWorker.gridSize w * CollageWorker.gridSize w <= Int.INT_MAX ->
  CollageWorker.sizeCap (CollageWorker.gridSize w) (CollageWorker.maxCollageSize w)
    (snd (CollageWorker.cropPass (CollageWorker.buildImages w))) = (c, side) ->
  0 <= i ->
  CollageWorker.buildImages w !! Z.to_nat i = Some cell ->
  1 <= width cell <= Int.INT_MAX ->
  1 <= height cell <= Int.INT_MAX ->
  Z.min (width cell) (height cell) = c ->
  0 <= x < c -> 0 <= y < c ->
  exists collage,
    CollageWorker.raster (CollageWorker.process w disk0) = Some collage /\
    pixel collage (i mod CollageWorker.gridSize w * c + x)
                  (i / CollageWorker.gridSize w * c + y) =
    sourceOver (pixel cell (x + (width cell - c) / 2) (y + (height cell - c) / 2)) white.
Proof.
  intros Hmin Hfit HM Hcount Hcap Hi Hcell Hw Hh Hsq Hx Hy.
  destruct (process_cell_pixel w disk0 m c side i x y cell
              Hmin Hfit HM Hcount Hcap Hi Hcell Hx Hy) as (collage & Hr & Hp).
  exists collage. split; [exact Hr|]. rewrite Hp.
  assert (Hnull : isNull cell = false) by (apply isNull_width; lia).
  rewrite Hnull.
  destruct (crop_size cell Hw Hh) as [Hcw Hch]. rewrite Hsq in Hcw, Hch.
  destruct (squareOf_size cell Hnull) as (_ & _ & Hsn).
  rewrite (scaled_same_size _ c Hsn Hcw Hch).
  rewrite (crop_pixel cell Hw Hh x y) by (rewrite Hsq; lia).
  now rewrite Hsq.
Qed.

(** The 2 x 2 grid of [diagonal]: the 3 x 2 ramp at (0, 0) has the common
    size 2, and the raster pixel (1, 1) is the ramp's pixel (1, 1). *)
Lemma process_copies_cell_of_common_size_witness :
  exists collage,
    CollageWorker.raster
      (@CollageWorker.process Props.nearestBackend
         (Props.workerOf Props.diagonal 2 1000) ∅) = Some collage /\
    pixel collage 1 1 = 1001.
Proof.
  apply (@process_copies_cell_of_common_size Props.nearestBackend
           (Props.workerOf Props.diagonal 2 1000) ∅ 2 2 4 0 1 1 (Props.ramp 3 2)).
  - split; vm_compute; [auto | repeat constructor; discriminate].
  - vm_compute. reflexivity.
  - vm_compute. split; discriminate.
  - vm_compute. discriminate.
  - vm_compute. reflexivity.
  - lia.
  - vm_compute. reflexivity.
  - vm_compute. split; discriminate.
  - vm_compute. split; discriminate.
  - reflexivity.
  - lia.
  - lia.
Defined.

(** * Further properties of the window *)

(** ** Drops *)

(** X8.  A drop that passes both checks changes the store at its own
    coordinate only: that coordinate now holds the dropped path with the
    decoded image, every other coordinate holds what it held, and the
    number of populated cells grows by one when the cell was empty and
    stays the same when the drop replaces an entry. *)
Theorem onImageDropped_stores_one_entry (app : CollageApp.t) (disk : Disk)
    (row col : Z) (filePath : string) (k : Z * Z) :
  contains CollageApp.validExtensions (toLower (suffix filePath)) = true ->
  isNull (load disk filePath) = false ->
  k <> (row, col) ->
  CollageApp.imageData (snd (CollageApp.onImageDropped app disk row col filePath))
    !! (row, col) = Some (Props.entry filePath (load disk filePath)) /\
  CollageApp.imageData (snd (CollageApp.onImageDropped app disk row col filePath)) !! k =
    CollageApp.imageData app !! k /\
  size (CollageApp.imageData (snd (CollageApp.onImageDropped app disk row col filePath))) =
    match CollageApp.imageData app !! (row, col) with
    | Some _ => size (CollageApp.imageData app)
    | None => S (size (CollageApp.imageData app))
    end.
Proof.
  intros Hext Hload Hk. rewrite onImageDropped_accepted by assumption.
  cbn [snd CollageApp.imageData].
  split; [apply lookup_insert_eq|]. split; [apply lookup_insert_ne; congruence|].
  rewrite map_size_insert. now destruct (CollageApp.imageData app !! (row, col)).
Qed.

(** [c.png] dropped on the populated cell (1, 1) of the diagonal store:
    the cell (0, 0) and the count of 3 are as before. *)
Lemma onImageDropped_stores_one_entry_witness :
  CollageApp.imageData
    (snd (CollageApp.onImageDropped (Props.appOf Props.threeDiagonal 3)
            Props.diagonalDisk 1 1 "c.png")) !! (1, 1) =
    Some (Props.entry "c.png" (load Props.diagonalDisk "c.png")) /\
  CollageApp.imageData
    (snd (CollageApp.onImageDropped (Props.appOf Props.threeDiagonal 3)
            Props.diagonalDisk 1 1 "c.png")) !! (0, 0) =
    Props.threeDiagonal !! (0, 0) /\
  size (CollageApp.imageData
          (snd (CollageApp.onImageDropped (Props.appOf Props.threeDiagonal 3)
                  Props.diagonalDisk 1 1 "c.png"))) = 3%nat.
Proof.
  apply (onImageDropped_stores_one_entry (Props.appOf Props.threeDiagonal 3)
           Props.diagonalDisk 1 1 "c.png" (0, 0)).
  - vm_compute. reflexivity.
  - vm_compute. reflexivity.
  - discriminate.
Defined.

Lemma inCells_grid (app : CollageApp.t) (row col : Z) :
  CollageApp.cells app = CollageApp.gridSize app ->
  0 <= row < CollageApp.gridSize app -> 0 <= col < CollageApp.gridSize app ->
  CollageApp.inCells app row col = true.
Proof.
  intros Hcells Hrow Hcol. unfold CollageApp.inCells. rewrite Hcells.
  destruct (Z.leb_spec 0 row); [|lia]. destruct (Z.ltb_spec row (CollageApp.gridSize app)); [|lia].
  destruct (Z.leb_spec 0 col); [|lia]. destruct (Z.ltb_spec col (CollageApp.gridSize app)); [|lia].
  reflexivity.
Qed.

(** X9.  A drop on a cell of the grid keeps the window consistent,
    whatever the file: the call runs to one of its returns without reading
    a widget outside the grid, and afterwards the store is still inside
    the grid with a valid extension and a non-null image in every
    entry. *)
Theorem onImageDropped_keeps_consistent (app : CollageApp.t) (disk : Disk)
    (row col : Z) (filePath : string) :
  Further.consistent app ->
  0 <= row < CollageApp.gridSize app -> 0 <= col < CollageApp.gridSize app ->
  fst (CollageApp.onImageDropped app disk row col filePath)
    <> CollageApp.DropCellOutOfRange /\
  Further.consistent (snd (CollageApp.onImageDropped app disk row col filePath)).
Proof.
  intros (HN & Hcells & Hwf & Hgrid) Hrow Hcol.
  unfold CollageApp.onImageDropped.
  destruct (contains CollageApp.validExtensions (toLower (suffix filePath))) eqn:Hext;
    simpl negb; cbv iota.
  2: { split; [discriminate|]. unfold Further.consistent. auto. }
  destruct (isNull (load disk filePath)) eqn:Hload.
  { split; [discriminate|]. unfold Further.consistent. auto. }
  match goal with
  | |- context [CollageApp.inCells ?a row col] =>
      rewrite (inCells_grid a row col) by (simpl; assumption)
  end.
  split; [discriminate|].
  split; [exact HN|]. split; [exact Hcells|].
  cbn [snd CollageApp.imageData CollageApp.gridSize].
  split.
  - intros k d Hk. apply lookup_insert_Some in Hk as [[<- <-]|[_ Hk]].
    + simpl. auto.
    + eapply Hwf, Hk.
  - intros k d Hk. apply lookup_insert_Some in Hk as [[<- <-]|[_ Hk]].
    + simpl. auto.
    + eapply Hgrid, Hk.
Qed.

Lemma threeDiagonal_consistent : Further.consistent (Props.appOf Props.threeDiagonal 3).
Proof.
  split; [simpl; lia|]. split; [reflexivity|].
  split; intros k d Hk; simpl in Hk; unfold Props.threeDiagonal in Hk;
    repeat (apply lookup_insert_Some in Hk as [[<- <-]|[_ Hk]];
            [vm_compute; repeat split; try reflexivity; discriminate|]);
    rewrite lookup_empty in Hk; discriminate.
Qed.

(** A text file dropped on the cell (0, 1) of the diagonal store. *)
Lemma onImageDropped_keeps_consistent_witness :
  fst (CollageApp.onImageDropped (Props.appOf Props.threeDiagonal 3)
         Props.diagonalDisk 0 1 "notes.txt") <> CollageApp.DropCellOutOfRange /\
  Further.consistent
    (snd (CollageApp.onImageDropped (Props.appOf Props.threeDiagonal 3)
            Props.diagonalDisk 0 1 "notes.txt")).
Proof.
  apply (onImageDropped_keeps_consistent (Props.appOf Props.threeDiagonal 3)
           Props.diagonalDisk 0 1 "notes.txt").
  - exact threeDiagonal_consistent.
  - simpl. lia.
  - simpl. lia.
Defined.

(** ** Grid-size changes on any disk *)

Section RestoreAny.

Variable disk : Disk.
Variables newSize M : Z.
Hypothesis HnewSize : 1 <= newSize.

Let rebuilt (store : gmap (Z * Z) CollageWorker.ImageData) : CollageApp.t :=
  {| CollageApp.gridSize := newSize; CollageApp.maxCollageSize := M;
     CollageApp.imageData := store; CollageApp.cells := newSize |}.

Lemma restoreStep_reload (k : Z * Z) (d : CollageWorker.ImageData)
    (store : gmap (Z * Z) CollageWorker.ImageData) :
  0 <= k.1 -> 0 <= k.2 ->
  CollageApp.restoreStep disk newSize k d (Some (rebuilt store)) =
  Some (rebuilt (match Further.reloadEntry disk newSize k d with
                 | Some d' => <[k := d']> store
                 | None => store
                 end)).
Proof.
  intros Hrow Hcol. unfold CollageApp.restoreStep, Further.reloadEntry.
  destruct ((k.1 <? newSize) && (k.2 <? newSize)) eqn:Hin; [|reflexivity].
  cbn [andb]. unfold CollageApp.onImageDropped.
  destruct (contains CollageApp.validExtensions
              (toLower (suffix (CollageWorker.path d)))); [|reflexivity].
  simpl negb. cbv iota.
  destruct (isNull (load disk (CollageWorker.path d))); [reflexivity|].
  apply andb_true_iff in Hin as [Hr Hc]. apply Z.ltb_lt in Hr, Hc.
  match goal with
  | |- context [CollageApp.inCells ?a k.1 k.2] =>
      rewrite (inCells_grid a k.1 k.2) by (simpl; lia)
  end.
  simpl. destruct k. reflexivity.
Qed.

Lemma restore_fold_reload (old : gmap (Z * Z) CollageWorker.ImageData) :
  Props.nonNegative old ->
  map_fold (CollageApp.restoreStep disk newSize) (Some (rebuilt ∅)) old =
  Some (rebuilt (Further.reloadWithinBounds disk newSize old)).
Proof.
  apply (map_fold_weak_ind
    (fun r store => Props.nonNegative store ->
                    r = Some (rebuilt (Further.reloadWithinBounds disk newSize store)))).
  - intros _. unfold Further.reloadWithinBounds. now rewrite map_imap_empty.
  - intros k d store r Hfresh IH Hnonneg.
    rewrite IH.
    + destruct (Hnonneg k d (lookup_insert_eq store k d)) as [Hrow Hcol].
      rewrite restoreStep_reload by assumption.
      f_equal. f_equal. unfold Further.reloadWithinBounds.
      rewrite map_imap_insert.
      destruct (Further.reloadEntry disk newSize k d); [reflexivity|].
      rewrite delete_id; [reflexivity|].
      now rewrite map_lookup_imap, Hfresh.
    + intros k' d' Hk'. apply (Hnonneg k' d'). rewrite lookup_insert_ne; [exact Hk'|].
      intros ->. congruence.
Qed.

End RestoreAny.

(** X10.  What a grid-size change does to the store, whatever the disk
    holds: for a new size of at least 1 that differs from the current one
    (and a store without negative coordinates) the change completes with the
    new size, the widget grid rebuilt for it, and each former entry dropped
    anew from its path: kept, with the image its file decodes to now, when
    its coordinate is inside the new grid and the file still decodes, and
    gone otherwise. *)
Theorem onGridSizeChanged_reloads (app : CollageApp.t) (disk : Disk) (newSize : Z) :
  1 <= newSize -> newSize <> CollageApp.gridSize app ->
  Props.nonNegative (CollageApp.imageData app) ->
  CollageApp.onGridSizeChanged app disk newSize =
  Some {| CollageApp.gridSize := newSize;
          CollageApp.maxCollageSize := CollageApp.maxCollageSize app;
          CollageApp.imageData :=
            Further.reloadWithinBounds disk newSize (CollageApp.imageData app);
          CollageApp.cells := newSize |}.
Proof.
  intros Hnew Hne Hnonneg. unfold CollageApp.onGridSizeChanged.
  destruct (Z.eqb_spec newSize (CollageApp.gridSize app)); [contradiction|].
  simpl negb. cbv iota. rewrite recreateGrid_empty by exact Hnew.
  now apply restore_fold_reload.
Qed.

Lemma threeDiagonal_nonNegative : Props.nonNegative Props.threeDiagonal.
Proof.
  intros k d Hk. now destruct (proj2 (proj2 (proj2 threeDiagonal_consistent)) k d Hk).
Qed.

(** The diagonal store shrunk to 2 x 2 on a disk where [b.png] has been
    replaced and [c.png] deleted: (0, 0) is kept, (1, 1) now holds the
    new photo, (2, 2) is gone. *)
Lemma onGridSizeChanged_reloads_witness :
  CollageApp.onGridSizeChanged (Props.appOf Props.threeDiagonal 3) Further.laterDisk 2 =
  Some {| CollageApp.gridSize := 2;
          CollageApp.maxCollageSize := 4000;
          CollageApp.imageData :=
            <[(0, 0) := Props.entry "a.png" (Props.flat 4 6 1)]>
              (<[(1, 1) := Props.entry "b.png" (Props.flat 8 8 5)]> ∅);
          CollageApp.cells := 2 |}.
Proof.
  replace (<[(0, 0) := Props.entry "a.png" (Props.flat 4 6 1)]>
             (<[(1, 1) := Props.entry "b.png" (Props.flat 8 8 5)]> ∅))
    with (Further.reloadWithinBounds Further.laterDisk 2 Props.threeDiagonal)
    by (vm_compute; reflexivity).
  apply (onGridSizeChanged_reloads (Props.appOf Props.threeDiagonal 3) Further.laterDisk 2).
  - lia.
  - simpl. lia.
  - exact threeDiagonal_nonNegative.
Defined.

Lemma reloadEntry_Some (disk : Disk) (newSize : Z) (k : Z * Z)
    (d d' : CollageWorker.ImageData) :
  Further.reloadEntry disk newSize k d = Some d' ->
  k.1 < newSize /\ k.2 < newSize /\
  CollageWorker.path d' = CollageWorker.path d /\
  CollageWorker.image d' = load disk (CollageWorker.path d) /\
  contains CollageApp.validExtensions (toLower (suffix (CollageWorker.path d'))) = true /\
  isNull (CollageWorker.image d') = false.
Proof.
  unfold Further.reloadEntry.
  destruct (_ && _) eqn:Hc; [|discriminate]. intros [= <-].
  apply andb_true_iff in Hc as [Hc Hload]. apply andb_true_iff in Hc as [Hc Hext].
  apply andb_true_iff in Hc as [Hr Hcol]. apply Z.ltb_lt in Hr, Hcol.
  apply negb_true_iff in Hload. simpl. repeat split; assumption.
Qed.

(** X11.  A grid-size change to a size of at least 1 keeps the window
    consistent on every disk: it completes, the grid and its widgets have
    the new size, every stored coordinate is inside the new grid, every
    entry has a valid extension and a non-null image, and no entry is
    invented: each one sits at a coordinate that was populated before,
    under the same path. *)
Theorem onGridSizeChanged_keeps_consistent (app : CollageApp.t) (disk : Disk)
    (newSize : Z) :
  Further.consistent app -> 1 <= newSize ->
  exists app',
    CollageApp.onGridSizeChanged app disk newSize = Some app' /\
    CollageApp.gridSize app' = newSize /\
    Further.consistent app' /\
    forall k d', CollageApp.imageData app' !! k = Some d' ->
      exists d, CollageApp.imageData app !! k = Some d /\
                CollageWorker.path d' = CollageWorker.path d.
Proof.
  intros Hcons Hnew.
  destruct (Z.eq_dec newSize (CollageApp.gridSize app)) as [Heq|Hne].
  - exists app. unfold CollageApp.onGridSizeChanged. rewrite Heq, Z.eqb_refl. simpl.
    split; [reflexivity|]. split; [reflexivity|]. split; [exact Hcons|]. eauto.
  - destruct Hcons as (_ & _ & _ & Hgrid).
    assert (Hnonneg : Props.nonNegative (CollageApp.imageData app)).
    { intros k d Hk. destruct (Hgrid k d Hk). lia. }
    unfold CollageApp.onGridSizeChanged.
    destruct (Z.eqb_spec newSize (CollageApp.gridSize app)); [contradiction|].
    simpl negb. cbv iota. rewrite recreateGrid_empty by exact Hnew.
    rewrite restore_fold_reload by assumption.
    eexists. split; [reflexivity|]. split; [reflexivity|].
    unfold Further.consistent, Further.wellFormed, Further.withinGrid,
      Further.reloadWithinBounds.
    cbn [CollageApp.gridSize CollageApp.cells CollageApp.imageData].
    split; [|intros k d' Hk].
    + split; [exact Hnew|]. split; [reflexivity|].
      split; intros k d' Hk; rewrite map_lookup_imap in Hk;
        destruct (CollageApp.imageData app !! k) as [d|] eqn:Hold; try discriminate;
        simpl in Hk; apply reloadEntry_Some in Hk as (Hr & Hc & _ & _ & Hext & Hnull).
      * auto.
      * destruct (Hnonneg k d Hold). lia.
    + rewrite map_lookup_imap in Hk.
      destruct (CollageApp.imageData app !! k) as [d|] eqn:Hold; try discriminate.
      simpl in Hk. apply reloadEntry_Some in Hk as (_ & _ & Hpath & _).
      eauto.
Qed.

(** The diagonal store shrunk to 2 x 2 on the changed disk. *)
Lemma onGridSizeChanged_keeps_consistent_witness :
  exists app',
    CollageApp.onGridSizeChanged (Props.appOf Props.threeDiagonal 3) Further.laterDisk 2
      = Some app' /\
    CollageApp.gridSize app' = 2 /\
    Further.consistent app' /\
    forall k d', CollageApp.imageData app' !! k = Some d' ->
      exists d, Props.threeDiagonal !! k = Some d /\
                CollageWorker.path d' = CollageWorker.path d.
Proof.
  apply (onGridSizeChanged_keeps_consistent (Props.appOf Props.threeDiagonal 3)
           Further.laterDisk 2).
  - exact threeDiagonal_consistent.
  - lia.
Defined.

(** ** Starting a job *)

Lemma presentSquareWidths_in (images : list QImage) (img : QImage) :
  In img images -> isNull img = false ->
  In (width (CollageWorker.cropCenterToSquare img)) (Props.presentSquareWidths images).
Proof.
  intros Hin Hn. unfold Props.presentSquareWidths.
  apply (in_map (fun i => width (CollageWorker.cropCenterToSquare i))).
  apply filter_In. split; [exact Hin|]. now rewrite Hn.
Qed.

(** X12.  In a consistent window with at least one image (every stored
    square narrower than [INT_MAX]) and a chosen destination,
    [createCollage] starts a job on a copy of the store, the grid size and
    the cap, and the run of that job gets past the "no images" check: it
    constructs the raster. *)
Theorem createCollage_run_constructs_raster `{Backend} (app : CollageApp.t)
    (outputPath : string) (disk0 : Disk) :
  Further.consistent app ->
  CollageApp.imageData app <> ∅ ->
  outputPath <> EmptyString ->
  (forall k d, CollageApp.imageData app !! k = Some d ->
     Z.min (width (CollageWorker.image d)) (height (CollageWorker.image d)) < Int.INT_MAX) ->
  exists job collage,
    CollageApp.createCollage app outputPath = CollageApp.CreateStarted job /\
    CollageWorker.imageData (CollageApp.worker job) = CollageApp.imageData app /\
    CollageWorker.gridSize (CollageApp.worker job) = CollageApp.gridSize app /\
    CollageWorker.maxCollageSize (CollageApp.worker job) = CollageApp.maxCollageSize app /\
    CollageWorker.outputPath (CollageApp.worker job) = outputPath /\
    CollageWorker.raster (CollageApp.runThread job disk0) = Some collage.
Proof.
  intros (HN & _ & Hwf & Hgrid) Hsome Hpath Hnarrow.
  unfold CollageApp.createCollage.
  apply map_size_non_empty_iff in Hsome as Hsize.
  destruct (Nat.eqb_spec (size (CollageApp.imageData app)) 0); [contradiction|].
  destruct (String.eqb_spec outputPath ""); [contradiction|].
  set (w := {| CollageWorker.imageData := CollageApp.imageData app;
               CollageWorker.gridSize := CollageApp.gridSize app;
               CollageWorker.maxCollageSize := CollageApp.maxCollageSize app;
               CollageWorker.outputPath := outputPath |}).
  assert (Hpresent : snd (CollageWorker.cropPass (CollageWorker.buildImages w))
                     <> Int.INT_MAX).
  { destruct (map_choose _ Hsome) as ([row col] & d & Hd).
    destruct (Hgrid _ _ Hd) as [Hrow Hcol]. destruct (Hwf _ _ Hd) as [_ Hnull].
    simpl in Hrow, Hcol.
    pose proof (buildImages_lookup w row col Hrow Hcol) as Hcell.
    cbn [CollageWorker.imageData w] in Hcell. rewrite Hd in Hcell.
    apply list_elem_of_lookup_2, list_elem_of_In in Hcell.
    pose proof (presentSquareWidths_in _ _ Hcell Hnull) as Hin.
    rewrite cropPass_eq. simpl snd.
    destruct (foldl_min_le (Props.presentSquareWidths (CollageWorker.buildImages w))
                Int.INT_MAX) as [_ Hle].
    rewrite Forall_forall in Hle. apply list_elem_of_In, Hle in Hin.
    destruct (squareOf_size _ Hnull) as (Hw & _ & _). rewrite Hw in Hin.
    specialize (Hnarrow _ _ Hd). lia. }
  destruct (process_present_signals w disk0 Hpresent) as (collage & Hr & _).
  eexists _, collage. repeat split. exact Hr.
Qed.

(** The diagonal store and the destination [out.png]. *)
Lemma createCollage_run_constructs_raster_witness :
  exists job collage,
    CollageApp.createCollage (Props.appOf Props.threeDiagonal 3) "out.png"
      = CollageApp.CreateStarted job /\
    CollageWorker.imageData (CollageApp.worker job) = Props.threeDiagonal /\
    CollageWorker.gridSize (CollageApp.worker job) = 3 /\
    CollageWorker.maxCollageSize (CollageApp.worker job) = 4000 /\
    CollageWorker.outputPath (CollageApp.worker job) = "out.png" /\
    CollageWorker.raster (@CollageApp.runThread Props.nearestBackend job ∅) = Some collage.
Proof.
  apply (@createCollage_run_constructs_raster Props.nearestBackend
           (Props.appOf Props.threeDiagonal 3) "out.png" ∅).
  - exact threeDiagonal_consistent.
  - intros E. apply (f_equal (fun store : gmap (Z * Z) CollageWorker.ImageData =>
                                size store)) in E. vm_compute in E. discriminate.
  - discriminate.
  - intros k d Hk. simpl in Hk. unfold Props.threeDiagonal in Hk.
    repeat (apply lookup_insert_Some in Hk as [[<- <-]|[_ Hk]];
            [vm_compute; reflexivity|]).
    rewrite lookup_empty in Hk. discriminate.
Defined.

(** X13.  "Clear all" on a grid of at least one cell empties the store
    and rebuilds the widget grid for the unchanged grid size, leaving a
    consistent window in which [createCollage] starts nothing and shows
    its warning instead. *)
Theorem clearAll_then_createCollage_warns (app : CollageApp.t) (outputPath : string) :
  1 <= CollageApp.gridSize app ->
  exists app' box,
    CollageApp.clearAll app = Some app' /\
    CollageApp.imageData app' = ∅ /\
    CollageApp.gridSize app' = CollageApp.gridSize app /\
    CollageApp.maxCollageSize app' = CollageApp.maxCollageSize app /\
    Further.consistent app' /\
    CollageApp.createCollage app' outputPath = CollageApp.CreateWarned box.
Proof.
  intros HN. unfold CollageApp.clearAll. rewrite recreateGrid_empty by exact HN.
  eexists _, _. split; [reflexivity|]. split; [reflexivity|]. split; [reflexivity|].
  split; [reflexivity|]. split.
  - split; [exact HN|]. split; [reflexivity|].
    split; intros k d Hk; simpl in Hk; rewrite lookup_empty in Hk; discriminate.
  - unfold CollageApp.createCollage. simpl. rewrite map_size_empty. reflexivity.
Qed.

(** The diagonal store cleared. *)
Lemma clearAll_then_createCollage_warns_witness :
  exists app' box,
    CollageApp.clearAll (Props.appOf Props.threeDiagonal 3) = Some app' /\
    CollageApp.imageData app' = ∅ /\
    CollageApp.gridSize app' = 3 /\
    CollageApp.maxCollageSize app' = 4000 /\
    Further.consistent app' /\
    CollageApp.createCollage app' "out.png" = CollageApp.CreateWarned box.
Proof.
  apply (clearAll_then_createCollage_warns (Props.appOf Props.threeDiagonal 3) "out.png").
  simpl. lia.
Defined.

(** * Properties of the widgets *)

(** ** The cell size of the grid *)

Lemma min_div (a b N : Z) : 1 <= N -> Z.min (a / N) (b / N) = Z.min a b / N.
Proof.
  intros HN. destruct (Z.le_ge_cases a b) as [Hab|Hab].
  - rewrite (Z.min_l a b) by exact Hab. apply Z.min_l, Z.div_le_mono; lia.
  - rewrite (Z.min_r a b) by exact Hab. apply Z.min_r, Z.div_le_mono; lia.
Qed.

(** X14.  For a grid of [N >= 1] cells a side and a container of
    [int]-range size, the cell size [recreateGrid] computes is never below
    50; when the container is more than 21 pixels in both directions the
    cell size is the largest one for which [N] cells fit into the smaller
    side less the margin of 20, unless that is below 50, in which case
    the cells are 50 wide and overflow; for a smaller container it is
    computed from 400 instead. *)
Theorem cellSizeFor_fits (containerWidth containerHeight N : Z) :
  1 <= N ->
  0 <= containerWidth <= Int.INT_MAX ->
  0 <= containerHeight <= Int.INT_MAX ->
  50 <= CollageWindow.cellSizeFor containerWidth containerHeight N /\
  (if (21 <? containerWidth) && (21 <? containerHeight)
   then CollageWindow.cellSizeFor containerWidth containerHeight N =
          Z.max ((Z.min containerWidth containerHeight - 20) / N) 50 /\
        (50 * N <= Z.min containerWidth containerHeight - 20 ->
         N * CollageWindow.cellSizeFor containerWidth containerHeight N
           <= Z.min containerWidth containerHeight - 20 /\
         Z.min containerWidth containerHeight - 20
           < N * (CollageWindow.cellSizeFor containerWidth containerHeight N + 1))
   else CollageWindow.cellSizeFor containerWidth containerHeight N = Z.max (400 / N) 50).
Proof.
  intros HN Hw Hh. split; [unfold CollageWindow.cellSizeFor; destruct (_ || _); lia|].
  unfold CollageWindow.cellSizeFor, Int.sub, Int.div.
  rewrite (wrap_in_range (containerWidth - 20))
    by (unfold Int.in_range, Int.INT_MIN, Int.INT_MAX in *; lia).
  rewrite (wrap_in_range (containerHeight - 20))
    by (unfold Int.in_range, Int.INT_MIN, Int.INT_MAX in *; lia).
  destruct (Z.ltb_spec 21 containerWidth) as [Hcw|Hcw];
    destruct (Z.ltb_spec 21 containerHeight) as [Hch|Hch]; cbn [andb];
    destruct (Z.leb_spec (containerWidth - 20) 1);
    destruct (Z.leb_spec (containerHeight - 20) 1); try lia; cbn [orb].
  - rewrite !Z.quot_div_nonneg by lia.
    assert (Hq0 : 0 <= (containerWidth - 20) / N) by (apply Z.div_pos; lia).
    assert (Hq1 : 0 <= (containerHeight - 20) / N) by (apply Z.div_pos; lia).
    assert (Hq2 : (containerWidth - 20) / N <= containerWidth - 20)
      by (apply Z.div_le_upper_bound; nia).
    assert (Hq3 : (containerHeight - 20) / N <= containerHeight - 20)
      by (apply Z.div_le_upper_bound; nia).
    rewrite !wrap_small by lia.
    rewrite min_div by exact HN.
    replace (Z.min (containerWidth - 20) (containerHeight - 20))
      with (Z.min containerWidth containerHeight - 20) by lia.
    split; [reflexivity|]. intros Hroom.
    set (a := Z.min containerWidth containerHeight - 20) in *.
    assert (Hq : 50 <= a / N) by (apply Z.div_le_lower_bound; lia).
    rewrite Z.max_l by lia.
    pose proof (Z.mul_div_le a N ltac:(lia)).
    pose proof (Z.div_mod a N ltac:(lia)). pose proof (Z.mod_pos_bound a N ltac:(lia)).
    lia.
  - rewrite !Z.quot_div_nonneg by lia.
    assert (Hq0 : 0 <= 400 / N <= 400)
      by (split; [apply Z.div_pos; lia | apply Z.div_le_upper_bound; nia]).
    rewrite !wrap_small by (unfold Int.INT_MAX; lia). now rewrite Z.min_id.
  - rewrite !Z.quot_div_nonneg by lia.
    assert (Hq0 : 0 <= 400 / N <= 400)
      by (split; [apply Z.div_pos; lia | apply Z.div_le_upper_bound; nia]).
    rewrite !wrap_small by (unfold Int.INT_MAX; lia). now rewrite Z.min_id.
  - rewrite !Z.quot_div_nonneg by lia.
    assert (Hq0 : 0 <= 400 / N <= 400)
      by (split; [apply Z.div_pos; lia | apply Z.div_le_upper_bound; nia]).
    rewrite !wrap_small by (unfold Int.INT_MAX; lia). now rewrite Z.min_id.
Qed.

(** A 3 x 3 grid in a container of 780 x 500: cells of (500 - 20) / 3 = 160. *)
Lemma cellSizeFor_fits_witness :
  50 <= CollageWindow.cellSizeFor 780 500 3 /\
  (CollageWindow.cellSizeFor 780 500 3 = 160 /\
   (50 * 3 <= 480 ->
    3 * CollageWindow.cellSizeFor 780 500 3 <= 480 /\
    480 < 3 * (CollageWindow.cellSizeFor 780 500 3 + 1))).
Proof.
  apply (cellSizeFor_fits 780 500 3); unfold Int.INT_MAX; lia.
Defined.

(** ** A cell under the pointer *)

Lemma styled_operations (c : ImageCell.t) (px : QImage) (filename : string)
    (row col s : Z) :
  Further.styled (ImageCell.new row col) /\
  Further.styled (ImageCell.setFixedSize s (ImageCell.new row col)) /\
  Further.styled (ImageCell.setImageData px filename c) /\
  Further.styled (ImageCell.clearImage c) /\
  Further.styled (ImageCell.dragLeaveEvent c) /\
  Further.styled (ImageCell.dropEventEnd c).
Proof.
  unfold Further.styled, ImageCell.dragLeaveEvent, ImageCell.dropEventEnd.
  repeat split; try reflexivity; destruct (ImageCell.hasImage c) eqn:E; simpl;
    rewrite ?E; reflexivity.
Qed.

(** X15.  A drag that enters a cell and leaves it, or ends in a drop that
    stores nothing, leaves no trace: on a cell whose style sheet says
    whether it holds an image (as the constructor, [setImageData],
    [clearImage], [dragLeaveEvent] and [dropEvent] leave it),
    [dragLeaveEvent] and the end of [dropEvent] undo [dragEnterEvent]
    exactly, and while the pointer is over the cell nothing but the style
    sheet differs. *)
Theorem drag_enter_leave_restores (mime : ImageCell.MimeData) (c : ImageCell.t) :
  Further.styled c ->
  ImageCell.dragLeaveEvent (ImageCell.dragEnterEvent mime c) = c /\
  ImageCell.dropEventEnd (ImageCell.dragEnterEvent mime c) = c /\
  ImageCell.dragEnterEvent mime c =
    ImageCell.setStyleSheet
      (if ImageCell.hasUrls mime then ImageCell.styleDragOver else ImageCell.styleSheet c) c.
Proof.
  unfold Further.styled. intros Hstyle.
  unfold ImageCell.dragLeaveEvent, ImageCell.dropEventEnd, ImageCell.dragEnterEvent.
  destruct c as [row col has style text pixmap tip width]. simpl in *. subst style.
  destruct (ImageCell.hasUrls mime), has; simpl; auto.
Qed.

(** A populated cell dragged over with a file. *)
Lemma drag_enter_leave_restores_witness :
  ImageCell.dragLeaveEvent
    (ImageCell.dragEnterEvent (Some [ImageCell.LocalFile "/tmp/a.png"])
       (ImageCell.setImageData (Props.flat 50 50 1) "b.png" (ImageCell.new 0 1))) =
    ImageCell.setImageData (Props.flat 50 50 1) "b.png" (ImageCell.new 0 1) /\
  ImageCell.dropEventEnd
    (ImageCell.dragEnterEvent (Some [ImageCell.LocalFile "/tmp/a.png"])
       (ImageCell.setImageData (Props.flat 50 50 1) "b.png" (ImageCell.new 0 1))) =
    ImageCell.setImageData (Props.flat 50 50 1) "b.png" (ImageCell.new 0 1) /\
  ImageCell.dragEnterEvent (Some [ImageCell.LocalFile "/tmp/a.png"])
    (ImageCell.setImageData (Props.flat 50 50 1) "b.png" (ImageCell.new 0 1)) =
    ImageCell.setStyleSheet ImageCell.styleDragOver
      (ImageCell.setImageData (Props.flat 50 50 1) "b.png" (ImageCell.new 0 1)).
Proof.
  apply (drag_enter_leave_restores (Some [ImageCell.LocalFile "/tmp/a.png"])
           (ImageCell.setImageData (Props.flat 50 50 1) "b.png" (ImageCell.new 0 1))).
  reflexivity.
Defined.

(** ** The info label *)

Section GridSet.

Variable N : Z.
Hypothesis HN : 1 <= N.

(** The coordinates of the grid, each once. *)
Let coordinates : list (Z * Z) := (fun n => (n / N, n mod N)) <$> seqZ 0 (N * N).

Lemma coordinates_length : length coordinates = Z.to_nat (N * N).
Proof. unfold coordinates. now rewrite length_fmap, length_seqZ. Qed.

Lemma coordinates_NoDup : NoDup coordinates.
Proof.
  unfold coordinates. apply NoDup_fmap_2_strong; [|apply NoDup_seqZ].
  intros n1 n2 H1 H2 [= Hq Hr]. apply elem_of_seqZ in H1, H2.
  destruct (index_split N HN n1 ltac:(lia)) as (E1 & _).
  destruct (index_split N HN n2 ltac:(lia)) as (E2 & _).
  rewrite E1, E2, Hq, Hr. reflexivity.
Qed.

Lemma coordinates_spec (k : Z * Z) :
  k ∈ coordinates <-> 0 <= k.1 < N /\ 0 <= k.2 < N.
Proof.
  unfold coordinates. rewrite list_elem_of_fmap. split.
  - intros (n & -> & Hn). apply elem_of_seqZ in Hn.
    destruct (index_split N HN n ltac:(lia)) as (_ & Hc & Hr). simpl. lia.
  - intros [Hr Hc]. exists (k.1 * N + k.2). split.
    + assert (Hn : 0 <= k.1 * N + k.2 < N * N) by nia.
      destruct (index_split N HN _ Hn) as (E & Hc' & _).
      apply (index_unique N) in E as [E1 E2]; [|lia|lia].
      destruct k; simpl in *. congruence.
    + apply elem_of_seqZ. nia.
Qed.

Lemma store_size_grid (store : gmap (Z * Z) CollageWorker.ImageData) :
  Further.withinGrid N store ->
  (size store <= Z.to_nat (N * N))%nat /\
  (size store = Z.to_nat (N * N) <->
   forall r c, 0 <= r < N -> 0 <= c < N -> is_Some (store !! (r, c))).
Proof.
  intros Hgrid.
  set (grid := list_to_set coordinates : gset (Z * Z)).
  assert (Hsize : size grid = Z.to_nat (N * N)).
  { unfold grid. rewrite size_list_to_set by apply coordinates_NoDup.
    apply coordinates_length. }
  assert (Hsub : dom store ⊆ grid).
  { intros k Hk. apply elem_of_dom in Hk as [d Hd].
    apply elem_of_list_to_set, coordinates_spec. exact (Hgrid k d Hd). }
  rewrite <- (size_dom store), <- Hsize. split; [apply subseteq_size, Hsub|].
  split.
  - intros Heq r c Hr Hc. apply elem_of_dom.
    rewrite (set_subseteq_size_eq _ _ Hsub) by lia.
    apply elem_of_list_to_set, coordinates_spec. simpl. lia.
  - intros Hfull. apply Nat.le_antisymm; [apply subseteq_size, Hsub|].
    apply subseteq_size. intros [r c] Hk.
    apply elem_of_list_to_set, coordinates_spec in Hk. simpl in Hk.
    apply elem_of_dom, Hfull; lia.
Qed.

End GridSet.

(** X16.  For a grid of [N >= 1] cells a side ([N * N] an [int]) and a
    store inside the grid, [updateInfoLabel] reports the number of entries
    of the store out of [N * N], and turns the label green exactly when
    every cell of the grid is populated; otherwise the label is blue. *)
Theorem updateInfoLabel_green_iff_full (app : CollageWindow.t) :
  1 <= CollageWindow.gridSize app ->
  CollageWindow.gridSize app * CollageWindow.gridSize app <= Int.INT_MAX ->
  Further.withinGrid (CollageWindow.gridSize app) (CollageWindow.imageData app) ->
  CollageWindow.infoText (CollageWindow.updateInfoLabel app) =
    "Заполнено " +:+ pretty (Z.of_nat (size (CollageWindow.imageData app))) +:+ " из "
      +:+ pretty (CollageWindow.gridSize app * CollageWindow.gridSize app) +:+ " ячеек" /\
  CollageWindow.infoStyle (CollageWindow.updateInfoLabel app) =
    (if bool_decide (size (CollageWindow.imageData app) =
                     Z.to_nat (CollageWindow.gridSize app * CollageWindow.gridSize app))
     then CollageWindow.styleGreen else CollageWindow.styleBlue) /\
  (CollageWindow.infoStyle (CollageWindow.updateInfoLabel app) = CollageWindow.styleGreen <->
   forall r c, 0 <= r < CollageWindow.gridSize app -> 0 <= c < CollageWindow.gridSize app ->
     is_Some (CollageWindow.imageData app !! (r, c))).
Proof.
  intros HN Hfit Hgrid.
  destruct (store_size_grid _ HN _ Hgrid) as [Hle Hfull].
  unfold CollageWindow.updateInfoLabel, Int.mul.
  cbn [CollageWindow.infoText CollageWindow.infoStyle].
  set (N := CollageWindow.gridSize app) in *.
  set (n := size (CollageWindow.imageData app)) in *.
  rewrite (wrap_small (Z.of_nat n)) by (unfold Int.INT_MAX in *; lia).
  rewrite (wrap_small (N * N)) by (unfold Int.INT_MAX in *; nia).
  split; [reflexivity|].
  destruct (Z.eqb_spec (Z.of_nat n) (N * N)) as [E|E].
  - rewrite bool_decide_eq_true_2 by lia. split; [reflexivity|].
    split; [intros _; apply Hfull; lia | reflexivity].
  - rewrite bool_decide_eq_false_2 by lia. split; [reflexivity|].
    split; [discriminate|]. intros Hall. apply Hfull in Hall. lia.
Qed.

Lemma fullGrid_withinGrid : Further.withinGrid 2 Further.fullGrid.
Proof.
  intros k d Hk. unfold Further.fullGrid in Hk.
  repeat (apply lookup_insert_Some in Hk as [[<- <-]|[_ Hk]]; [simpl; lia|]).
  rewrite lookup_empty in Hk. discriminate.
Qed.

(** The fully populated 2 x 2 grid. *)
Lemma updateInfoLabel_green_iff_full_witness :
  CollageWindow.infoText (CollageWindow.updateInfoLabel (Further.windowOf Further.fullGrid 2))
    = "Заполнено 4 из 4 ячеек" /\
  CollageWindow.infoStyle (CollageWindow.updateInfoLabel (Further.windowOf Further.fullGrid 2))
    = CollageWindow.styleGreen /\
  (CollageWindow.infoStyle
     (CollageWindow.updateInfoLabel (Further.windowOf Further.fullGrid 2))
     = CollageWindow.styleGreen <->
   forall r c, 0 <= r < 2 -> 0 <= c < 2 -> is_Some (Further.fullGrid !! (r, c))).
Proof.
  apply (updateInfoLabel_green_iff_full (Further.windowOf Further.fullGrid 2)).
  - simpl. lia.
  - vm_compute. discriminate.
  - exact fullGrid_withinGrid.
Defined.

(** ** The grid of cells *)

Lemma cellAt_newCells (N cellSize r c : Z) :
  0 <= r < N -> 0 <= c < N ->
  CollageWindow.cellAt (CollageWindow.newCells N cellSize) r c =
  Some (ImageCell.setFixedSize cellSize (ImageCell.new r c)).
Proof.
  intros Hr Hc. unfold CollageWindow.cellAt, CollageWindow.newCells.
  destruct (Z.leb_spec 0 r); [|lia]. destruct (Z.leb_spec 0 c); [|lia]. cbn [andb].
  rewrite lookup_map, lookup_seqZ_lt by lia. cbn [option_map].
  rewrite lookup_map, lookup_seqZ_lt by lia. cbn [option_map].
  now rewrite !Z.add_0_l, !Z2Nat.id by lia.
Qed.

Lemma cellAt_setCellAt (cells : list (list ImageCell.t)) (row col r c : Z)
    (x : ImageCell.t) :
  0 <= row -> 0 <= col -> 0 <= r -> 0 <= c ->
  is_Some (CollageWindow.cellAt cells row col) ->
  CollageWindow.cellAt (CollageWindow.setCellAt cells row col x) r c =
  if bool_decide (r = row /\ c = col) then Some x else CollageWindow.cellAt cells r c.
Proof.
  intros Hrow Hcol Hr Hc [old Hold]. revert Hold.
  unfold CollageWindow.cellAt, CollageWindow.setCellAt.
  destruct (Z.leb_spec 0 row); [|lia]. destruct (Z.leb_spec 0 col); [|lia].
  destruct (Z.leb_spec 0 r); [|lia]. destruct (Z.leb_spec 0 c); [|lia]. cbn [andb].
  destruct (cells !! Z.to_nat row) as [cellRow|] eqn:Erow; [|discriminate].
  intros Hold. apply lookup_lt_Some in Hold as Hlen.
  rewrite list_lookup_alter.
  destruct (decide (Z.to_nat row = Z.to_nat r)) as [E|E].
  - assert (r = row) by lia. subst r. rewrite Erow. cbn [fmap option_fmap option_map].
    rewrite list_lookup_insert.
    destruct (decide (Z.to_nat col = Z.to_nat c /\ (Z.to_nat col < length cellRow)%nat))
      as [[E' _]|E'].
    + assert (c = col) by lia. subst c. now rewrite bool_decide_eq_true_2.
    + rewrite bool_decide_eq_false_2; [reflexivity|]. intros [_ ->]. tauto.
  - rewrite bool_decide_eq_false_2; [reflexivity|]. intros [-> _]. tauto.
Qed.

Section Thumbnails.

Context `{Backend}.
Variables N cellSize : Z.

Lemma shownCell_insert_ne (store : gmap (Z * Z) CollageWorker.ImageData)
    (k : Z * Z) (d : CollageWorker.ImageData) (r c : Z) :
  k <> (r, c) ->
  Further.shownCell (<[k := d]> store) cellSize r c = Further.shownCell store cellSize r c.
Proof. intros Hk. unfold Further.shownCell. now rewrite lookup_insert_ne. Qed.

Lemma thumbnails_fold (store : gmap (Z * Z) CollageWorker.ImageData) :
  Props.nonNegative store ->
  exists cells,
    map_fold (CollageWindow.thumbnailStep N cellSize)
      (Some (CollageWindow.newCells N cellSize)) store = Some cells /\
    forall r c, 0 <= r < N -> 0 <= c < N ->
      CollageWindow.cellAt cells r c = Some (Further.shownCell store cellSize r c).
Proof.
  apply (map_fold_weak_ind
    (fun acc m => Props.nonNegative m ->
       exists cells, acc = Some cells /\
         forall r c, 0 <= r < N -> 0 <= c < N ->
           CollageWindow.cellAt cells r c = Some (Further.shownCell m cellSize r c))).
  - intros _. eexists. split; [reflexivity|]. intros r c Hr Hc.
    rewrite cellAt_newCells by assumption. unfold Further.shownCell.
    now rewrite lookup_empty.
  - intros k d m acc Hfresh IH Hnonneg.
    destruct IH as (cells & -> & Hcells).
    { intros k' d' Hk'. apply (Hnonneg k' d'). rewrite lookup_insert_ne; [exact Hk'|].
      intros ->. congruence. }
    destruct (Hnonneg k d (lookup_insert_eq m k d)) as [Hrow Hcol].
    unfold CollageWindow.thumbnailStep.
    destruct ((k.1 <? N) && (k.2 <? N)) eqn:Hin.
    + apply andb_true_iff in Hin as [Hr Hc]. apply Z.ltb_lt in Hr, Hc.
      rewrite (Hcells k.1 k.2) by lia.
      eexists. split; [reflexivity|]. intros r c Hr' Hc'.
      rewrite cellAt_setCellAt; try lia; [|rewrite (Hcells k.1 k.2) by lia; eauto].
      destruct (bool_decide_reflect (r = k.1 /\ c = k.2)) as [[-> ->]|Hne].
      * unfold Further.shownCell. replace (k.1, k.2) with k by now destruct k.
        now rewrite lookup_insert_eq, Hfresh.
      * rewrite Hcells by assumption. rewrite shownCell_insert_ne; [reflexivity|].
        intros ->. simpl in Hne. tauto.
    + exists cells. split; [reflexivity|]. intros r c Hr' Hc'.
      rewrite Hcells by assumption. rewrite shownCell_insert_ne; [reflexivity|].
      intros ->. simpl in Hin.
      destruct (Z.ltb_spec r N); [|lia]. destruct (Z.ltb_spec c N); [|lia]. discriminate.
Qed.

End Thumbnails.

(** X17.  [recreateGrid] shows the store: on a grid of at least one cell a
    side and a store without negative coordinates it completes, leaves
    grid size, cap and store as they are, updates the info label, and
    builds a widget grid in which the cell at every coordinate [(r, c)] of
    the grid is a fresh cell of the computed cell size that carries the
    thumbnail (the centred square scaled to the cell size) and the file
    name of the store's entry at [(r, c)], or is empty, with its
    [row+1 x col+1] caption, when the store has no entry there. *)
Theorem recreateGrid_shows_store `{Backend} (containerWidth containerHeight : Z)
    (app : CollageWindow.t) :
  1 <= CollageWindow.gridSize app ->
  Props.nonNegative (CollageWindow.imageData app) ->
  exists app',
    CollageWindow.recreateGrid containerWidth containerHeight app = Some app' /\
    CollageWindow.gridSize app' = CollageWindow.gridSize app /\
    CollageWindow.maxCollageSize app' = CollageWindow.maxCollageSize app /\
    CollageWindow.imageData app' = CollageWindow.imageData app /\
    CollageWindow.infoText app' =
      CollageWindow.infoText (CollageWindow.updateInfoLabel app) /\
    CollageWindow.infoStyle app' =
      CollageWindow.infoStyle (CollageWindow.updateInfoLabel app) /\
    forall r c,
      0 <= r < CollageWindow.gridSize app -> 0 <= c < CollageWindow.gridSize app ->
      CollageWindow.cellAt (CollageWindow.cells app') r c =
      Some (Further.shownCell (CollageWindow.imageData app)
              (CollageWindow.cellSizeFor containerWidth containerHeight
                 (CollageWindow.gridSize app)) r c).
Proof.
  intros HN Hnonneg. unfold CollageWindow.recreateGrid.
  destruct (Z.leb_spec (CollageWindow.gridSize app) 0); [lia|].
  unfold CollageWindow.updateAllThumbnails.
  cbn [CollageWindow.withCells CollageWindow.gridSize CollageWindow.cells
       CollageWindow.imageData].
  destruct (thumbnails_fold (CollageWindow.gridSize app)
              (CollageWindow.cellSizeFor containerWidth containerHeight
                 (CollageWindow.gridSize app))
              (CollageWindow.imageData app) Hnonneg) as (cells & -> & Hcells).
  eexists. split; [reflexivity|]. repeat split. exact Hcells.
Qed.

(** The diagonal store in a container of 780 x 500: cells of 160. *)
Lemma recreateGrid_shows_store_witness :
  exists app',
    @CollageWindow.recreateGrid Props.nearestBackend 780 500
      (Further.windowOf Props.threeDiagonal 3) = Some app' /\
    CollageWindow.gridSize app' = 3 /\
    CollageWindow.maxCollageSize app' = 4000 /\
    CollageWindow.imageData app' = Props.threeDiagonal /\
    CollageWindow.infoText app' = "Заполнено 3 из 9 ячеек" /\
    CollageWindow.infoStyle app' = CollageWindow.styleBlue /\
    forall r c, 0 <= r < 3 -> 0 <= c < 3 ->
      CollageWindow.cellAt (CollageWindow.cells app') r c =
      Some (@Further.shownCell Props.nearestBackend Props.threeDiagonal 160 r c).
Proof.
  apply (@recreateGrid_shows_store Props.nearestBackend 780 500
           (Further.windowOf Props.threeDiagonal 3)).
  - simpl. lia.
  - exact threeDiagonal_nonNegative.
Defined.

(** ** Drop events *)

Lemma gridOf_setCellAt (N : Z) (cells : list (list ImageCell.t)) (row col : Z)
    (x : ImageCell.t) :
  Further.gridOf N cells -> 0 <= row < N -> 0 <= col < N ->
  ImageCell.row x = row -> ImageCell.col x = col ->
  Further.gridOf N (CollageWindow.setCellAt cells row col x).
Proof.
  intros Hgrid Hrow Hcol Hxr Hxc r c Hr Hc.
  destruct (Hgrid row col Hrow Hcol) as (old & Hold & _).
  rewrite cellAt_setCellAt; try lia; [|rewrite Hold; eauto].
  destruct (bool_decide_reflect (r = row /\ c = col)) as [[-> ->]|_]; [eauto|].
  apply Hgrid; assumption.
Qed.

Lemma newCells_gridOf (N cellSize : Z) :
  Further.gridOf N (CollageWindow.newCells N cellSize).
Proof.
  intros r c Hr Hc. rewrite cellAt_newCells by assumption. eauto.
Qed.

Lemma window_onImageDropped_rejected `{Backend} (app : CollageWindow.t) (disk : Disk)
    (row col : Z) (filePath : string) :
  contains CollageApp.validExtensions (toLower (suffix filePath)) = false \/
  isNull (load disk filePath) = true ->
  exists box,
    CollageWindow.onImageDropped app disk row col filePath =
    (CollageApp.DropRejected box, app).
Proof.
  intros Hbad. unfold CollageWindow.onImageDropped.
  destruct (contains CollageApp.validExtensions (toLower (suffix filePath))) eqn:Hext;
    simpl negb; cbv iota; [|eauto].
  destruct Hbad as [Hbad|Hbad]; [discriminate|]. rewrite Hbad. eauto.
Qed.

Lemma window_onImageDropped_accepted `{Backend} (app : CollageWindow.t) (disk : Disk)
    (row col : Z) (filePath : string) (cell : ImageCell.t) :
  contains CollageApp.validExtensions (toLower (suffix filePath)) = true ->
  isNull (load disk filePath) = false ->
  CollageWindow.cellAt (CollageWindow.cells app) row col = Some cell ->
  CollageWindow.onImageDropped app disk row col filePath =
  (CollageApp.DropStored,
   CollageWindow.updateInfoLabel
     (CollageWindow.withCells
        (CollageWindow.setCellAt (CollageWindow.cells app) row col
           (ImageCell.setImageData
              (CollageWindow.thumbnail (load disk filePath) (ImageCell.width cell))
              (fileName filePath) cell))
        (CollageWindow.withImageData
           (<[(row, col) := Props.entry filePath (load disk filePath)]>
              (CollageWindow.imageData app)) app))).
Proof.
  intros Hext Hload Hcell. unfold CollageWindow.onImageDropped.
  rewrite Hext, Hload. simpl negb. cbv iota.
  cbn [CollageWindow.withImageData CollageWindow.cells]. rewrite Hcell. reflexivity.
Qed.

Lemma cellAt_after_set (cells : list (list ImageCell.t)) (row col : Z)
    (old x : ImageCell.t) :
  0 <= row -> 0 <= col ->
  CollageWindow.cellAt cells row col = Some old ->
  CollageWindow.cellAt (CollageWindow.setCellAt cells row col x) row col = Some x /\
  forall r c, 0 <= r -> 0 <= c -> (r, c) <> (row, col) ->
    CollageWindow.cellAt (CollageWindow.setCellAt cells row col x) r c =
    CollageWindow.cellAt cells r c.
Proof.
  intros Hrow Hcol Hold. split.
  - rewrite cellAt_setCellAt; try lia; [|rewrite Hold; eauto].
    now rewrite bool_decide_eq_true_2.
  - intros r c Hr Hc Hne.
    rewrite cellAt_setCellAt; try lia; [|rewrite Hold; eauto].
    rewrite bool_decide_eq_false_2; [reflexivity|]. intros [-> ->]. congruence.
Qed.

(** X18.  A drop event on a cell of the grid.  When the vectors [cells]
    hold, for every coordinate of the grid, a cell that knows its
    coordinate (as [recreateGrid] builds them), a drop on the cell at
    [(row, col)] is delivered to [onImageDropped] with that very
    coordinate, so the slot never reads a widget outside the grid; the
    store and the widgets change at [(row, col)] at most; the cell ends
    with the style sheet that says whether it holds an image; and when the
    file was stored the cell holds an image and the store has an entry at
    [(row, col)]. *)
Theorem dropEvent_lands_on_own_cell `{Backend} (app : CollageWindow.t) (disk : Disk)
    (row col : Z) (mime : ImageCell.MimeData) :
  Further.gridOf (CollageWindow.gridSize app) (CollageWindow.cells app) ->
  0 <= row < CollageWindow.gridSize app -> 0 <= col < CollageWindow.gridSize app ->
  exists outcome app' cell',
    CollageWindow.dropEvent app disk row col mime = Some (outcome, app') /\
    outcome <> Some CollageApp.DropCellOutOfRange /\
    CollageWindow.gridSize app' = CollageWindow.gridSize app /\
    Further.gridOf (CollageWindow.gridSize app) (CollageWindow.cells app') /\
    (forall k, k <> (row, col) ->
       CollageWindow.imageData app' !! k = CollageWindow.imageData app !! k) /\
    (forall r c, 0 <= r -> 0 <= c -> (r, c) <> (row, col) ->
       CollageWindow.cellAt (CollageWindow.cells app') r c =
       CollageWindow.cellAt (CollageWindow.cells app) r c) /\
    CollageWindow.cellAt (CollageWindow.cells app') row col = Some cell' /\
    Further.styled cell' /\
    (outcome = Some CollageApp.DropStored ->
     ImageCell.hasImage cell' = true /\
     is_Some (CollageWindow.imageData app' !! (row, col))).
Proof.
  intros Hgrid Hrow Hcol.
  destruct (Hgrid row col Hrow Hcol) as (cell & Hcell & Hcr & Hcc).
  unfold CollageWindow.dropEvent. rewrite Hcell.
  assert (Hquiet : forall outcome,
            outcome <> Some CollageApp.DropCellOutOfRange ->
            outcome <> Some CollageApp.DropStored ->
            exists app' cell',
              match CollageWindow.cellAt (CollageWindow.cells app) row col with
              | Some cell1 =>
                  Some (outcome,
                        CollageWindow.withCells
                          (CollageWindow.setCellAt (CollageWindow.cells app) row col
                             (ImageCell.dropEventEnd cell1)) app)
              | None => None
              end = Some (outcome, app') /\
              outcome <> Some CollageApp.DropCellOutOfRange /\
              CollageWindow.gridSize app' = CollageWindow.gridSize app /\
              Further.gridOf (CollageWindow.gridSize app) (CollageWindow.cells app') /\
              (forall k, k <> (row, col) ->
                 CollageWindow.imageData app' !! k = CollageWindow.imageData app !! k) /\
              (forall r c, 0 <= r -> 0 <= c -> (r, c) <> (row, col) ->
                 CollageWindow.cellAt (CollageWindow.cells app') r c =
                 CollageWindow.cellAt (CollageWindow.cells app) r c) /\
              CollageWindow.cellAt (CollageWindow.cells app') row col = Some cell' /\
              Further.styled cell' /\
              (outcome = Some CollageApp.DropStored ->
               ImageCell.hasImage cell' = true /\
               is_Some (CollageWindow.imageData app' !! (row, col)))).
  { intros outcome Hout Hns. rewrite Hcell.
    destruct (cellAt_after_set (CollageWindow.cells app) row col cell
                (ImageCell.dropEventEnd cell) ltac:(lia) ltac:(lia) Hcell) as [Hat Hother].
    eexists _, _. split; [reflexivity|]. split; [exact Hout|]. split; [reflexivity|].
    cbn [CollageWindow.withCells CollageWindow.cells CollageWindow.imageData].
    split.
    { apply gridOf_setCellAt; try assumption;
        unfold ImageCell.dropEventEnd; destruct (ImageCell.hasImage cell); assumption. }
    split; [reflexivity|]. split; [exact Hother|]. split; [exact Hat|].
    split; [apply styled_operations; exact (Props.flat 1 1 0) || exact EmptyString || exact 0|].
    intros E. contradiction. }
  destruct mime as [[|u rest]|]; cbn [ImageCell.dropSignal].
  - destruct (Hquiet None ltac:(discriminate) ltac:(discriminate))
      as (app' & cell' & Hres).
    exists None, app', cell'. exact Hres.
  - rewrite Hcr, Hcc.
    destruct (contains CollageApp.validExtensions
                (toLower (suffix (ImageCell.toLocalFile u)))) eqn:Hext.
    2: { destruct (window_onImageDropped_rejected app disk row col
                     (ImageCell.toLocalFile u) (or_introl Hext)) as [box ->].
         destruct (Hquiet (Some (CollageApp.DropRejected box))
                     ltac:(discriminate) ltac:(discriminate))
           as (app' & cell' & Hres).
         exists (Some (CollageApp.DropRejected box)), app', cell'. exact Hres. }
    destruct (isNull (load disk (ImageCell.toLocalFile u))) eqn:Hload.
    { destruct (window_onImageDropped_rejected app disk row col
                  (ImageCell.toLocalFile u) (or_intror Hload)) as [box ->].
      destruct (Hquiet (Some (CollageApp.DropRejected box))
                  ltac:(discriminate) ltac:(discriminate))
        as (app' & cell' & Hres).
      exists (Some (CollageApp.DropRejected box)), app', cell'. exact Hres. }
    rewrite (window_onImageDropped_accepted app disk row col _ cell Hext Hload Hcell).
    set (stored := ImageCell.setImageData
                     (CollageWindow.thumbnail (load disk (ImageCell.toLocalFile u))
                        (ImageCell.width cell))
                     (fileName (ImageCell.toLocalFile u)) cell).
    cbn [CollageWindow.updateInfoLabel CollageWindow.withCells
         CollageWindow.withImageData CollageWindow.cells CollageWindow.imageData
         CollageWindow.gridSize].
    destruct (cellAt_after_set (CollageWindow.cells app) row col cell stored
                ltac:(lia) ltac:(lia) Hcell) as [Hat Hother].
    rewrite Hat.
    destruct (cellAt_after_set
                (CollageWindow.setCellAt (CollageWindow.cells app) row col stored)
                row col stored (ImageCell.dropEventEnd stored)
                ltac:(lia) ltac:(lia) Hat) as [Hat2 Hother2].
    eexists _, _, _. split; [reflexivity|]. split; [discriminate|]. split; [reflexivity|].
    cbn [CollageWindow.cells CollageWindow.imageData].
    split.
    { apply gridOf_setCellAt; [|exact Hrow|exact Hcol|exact Hcr|exact Hcc].
      apply gridOf_setCellAt; assumption. }
    split; [intros k Hk; apply lookup_insert_ne; congruence|].
    split; [intros r c Hr Hc Hne; rewrite Hother2, Hother by assumption; reflexivity|].
    split; [exact Hat2|].
    split; [reflexivity|].
    intros _. split; [reflexivity|].
    unfold CollageWindow.updateInfoLabel, CollageWindow.withCells,
      CollageWindow.withImageData.
    cbn [CollageWindow.imageData]. rewrite lookup_insert_eq. eauto.
  - destruct (Hquiet None ltac:(discriminate) ltac:(discriminate))
      as (app' & cell' & Hres).
    exists None, app', cell'. exact Hres.
Qed.

Lemma shownDiagonal_view `{Backend} : Further.viewShows 160 Further.shownDiagonal.
Proof.
  intros r c Hr Hc. simpl in Hr, Hc.
  unfold CollageWindow.cellAt. cbn [Further.shownDiagonal CollageWindow.cells].
  destruct (Z.leb_spec 0 r); [|lia]. destruct (Z.leb_spec 0 c); [|lia]. cbn [andb].
  rewrite lookup_map, lookup_seqZ_lt by lia. cbn [option_map].
  rewrite lookup_map, lookup_seqZ_lt by lia. cbn [option_map].
  now rewrite !Z.add_0_l, !Z2Nat.id by lia.
Qed.

Lemma shownCell_coordinate `{Backend} (store : gmap (Z * Z) CollageWorker.ImageData)
    (cellSize r c : Z) :
  ImageCell.row (Further.shownCell store cellSize r c) = r /\
  ImageCell.col (Further.shownCell store cellSize r c) = c /\
  ImageCell.width (Further.shownCell store cellSize r c) = Z.max cellSize 0.
Proof. unfold Further.shownCell. destruct (store !! (r, c)); simpl; auto. Qed.

Lemma viewShows_gridOf `{Backend} (cellSize : Z) (app : CollageWindow.t) :
  Further.viewShows cellSize app ->
  Further.gridOf (CollageWindow.gridSize app) (CollageWindow.cells app).
Proof.
  intros Hview r c Hr Hc. eexists. split; [apply Hview; assumption|].
  destruct (shownCell_coordinate (CollageWindow.imageData app) cellSize r c) as (? & ? & _).
  auto.
Qed.

(** The photo [b.png] dropped on the empty cell (0, 1) of the shown
    diagonal store. *)
Lemma dropEvent_lands_on_own_cell_witness :
  exists outcome app' cell',
    @CollageWindow.dropEvent Props.nearestBackend
      (@Further.shownDiagonal Props.nearestBackend) Props.diagonalDisk 0 1
      (Some [ImageCell.LocalFile "b.png"]) = Some (outcome, app') /\
    outcome <> Some CollageApp.DropCellOutOfRange /\
    CollageWindow.gridSize app' = 3 /\
    Further.gridOf 3 (CollageWindow.cells app') /\
    (forall k, k <> (0, 1) ->
       CollageWindow.imageData app' !! k = Props.threeDiagonal !! k) /\
    (forall r c, 0 <= r -> 0 <= c -> (r, c) <> (0, 1) ->
       CollageWindow.cellAt (CollageWindow.cells app') r c =
       CollageWindow.cellAt
         (CollageWindow.cells (@Further.shownDiagonal Props.nearestBackend)) r c) /\
    CollageWindow.cellAt (CollageWindow.cells app') 0 1 = Some cell' /\
    Further.styled cell' /\
    (outcome = Some CollageApp.DropStored ->
     ImageCell.hasImage cell' = true /\
     is_Some (CollageWindow.imageData app' !! (0, 1))).
Proof.
  apply (@dropEvent_lands_on_own_cell Props.nearestBackend
           (@Further.shownDiagonal Props.nearestBackend) Props.diagonalDisk 0 1
           (Some [ImageCell.LocalFile "b.png"])).
  - exact (viewShows_gridOf 160 _ shownDiagonal_view).
  - simpl. lia.
  - simpl. lia.
Defined.

(** ** The view and the store *)

Lemma window_drop_keeps_view `{Backend} (cellSize : Z) (app : CollageWindow.t)
    (disk : Disk) (row col : Z) (filePath : string) :
  0 <= cellSize ->
  Further.viewShows cellSize app ->
  0 <= row < CollageWindow.gridSize app -> 0 <= col < CollageWindow.gridSize app ->
  contains CollageApp.validExtensions (toLower (suffix filePath)) = true ->
  isNull (load disk filePath) = false ->
  exists app',
    CollageWindow.onImageDropped app disk row col filePath = (CollageApp.DropStored, app') /\
    CollageWindow.gridSize app' = CollageWindow.gridSize app /\
    CollageWindow.maxCollageSize app' = CollageWindow.maxCollageSize app /\
    CollageWindow.lastWidth app' = CollageWindow.lastWidth app /\
    CollageWindow.lastHeight app' = CollageWindow.lastHeight app /\
    CollageWindow.imageData app' =
      <[(row, col) := Props.entry filePath (load disk filePath)]>
        (CollageWindow.imageData app) /\
    Further.viewShows cellSize app' /\
    Further.labelCurrent app'.
Proof.
  intros Hsize Hview Hrow Hcol Hext Hload.
  pose proof (Hview row col Hrow Hcol) as Hcell.
  rewrite (window_onImageDropped_accepted app disk row col filePath _ Hext Hload Hcell).
  eexists. split; [reflexivity|]. split; [reflexivity|]. split; [reflexivity|].
  split; [reflexivity|]. split; [reflexivity|]. split; [reflexivity|].
  split; [|split; reflexivity].
  intros r c Hr Hc.
  unfold CollageWindow.updateInfoLabel, CollageWindow.withCells,
    CollageWindow.withImageData in *.
  cbn [CollageWindow.cells CollageWindow.imageData CollageWindow.gridSize] in *.
  rewrite cellAt_setCellAt; try lia; [|rewrite Hcell; eauto].
  destruct (bool_decide_reflect (r = row /\ c = col)) as [[-> ->]|Hne].
  - destruct (shownCell_coordinate (CollageWindow.imageData app) cellSize row col)
      as (_ & _ & ->).
    rewrite Z.max_l by lia.
    unfold Further.shownCell. rewrite lookup_insert_eq.
    destruct (CollageWindow.imageData app !! (row, col)); reflexivity.
  - rewrite Hview by assumption. rewrite shownCell_insert_ne; [reflexivity|].
    intros [= -> ->]. tauto.
Qed.

(** X19.  [onImageDropped] keeps the widgets in step with the store.  In a
    window whose every cell shows what the store holds at its coordinate
    (cells [cellSize >= 0] wide), a drop on a cell of the grid never reads
    a widget outside the grid; a file that fails a check changes nothing;
    a file that passes is stored at the coordinate, and afterwards every
    cell still shows what the store holds (the target cell now carrying
    the thumbnail and the file name of the dropped file) and the info
    label is up to date. *)
Theorem window_onImageDropped_keeps_view `{Backend} (cellSize : Z)
    (app : CollageWindow.t) (disk : Disk) (row col : Z) (filePath : string) :
  0 <= cellSize ->
  Further.viewShows cellSize app ->
  Further.labelCurrent app ->
  0 <= row < CollageWindow.gridSize app -> 0 <= col < CollageWindow.gridSize app ->
  fst (CollageWindow.onImageDropped app disk row col filePath)
    <> CollageApp.DropCellOutOfRange /\
  CollageWindow.gridSize (snd (CollageWindow.onImageDropped app disk row col filePath)) =
    CollageWindow.gridSize app /\
  CollageWindow.imageData (snd (CollageWindow.onImageDropped app disk row col filePath)) =
    (if contains CollageApp.validExtensions (toLower (suffix filePath))
        && negb (isNull (load disk filePath))
     then <[(row, col) := Props.entry filePath (load disk filePath)]>
            (CollageWindow.imageData app)
     else CollageWindow.imageData app) /\
  Further.viewShows cellSize (snd (CollageWindow.onImageDropped app disk row col filePath)) /\
  Further.labelCurrent (snd (CollageWindow.onImageDropped app disk row col filePath)).
Proof.
  intros Hsize Hview Hlabel Hrow Hcol.
  destruct (contains CollageApp.validExtensions (toLower (suffix filePath))) eqn:Hext.
  2: { destruct (window_onImageDropped_rejected app disk row col filePath
                   (or_introl Hext)) as [box ->].
       simpl. repeat split; try assumption; try discriminate; apply Hlabel. }
  destruct (isNull (load disk filePath)) eqn:Hload.
  { destruct (window_onImageDropped_rejected app disk row col filePath
                (or_intror Hload)) as [box ->].
    simpl. repeat split; try assumption; try discriminate; apply Hlabel. }
  destruct (window_drop_keeps_view cellSize app disk row col filePath
              Hsize Hview Hrow Hcol Hext Hload)
    as (app' & -> & HN & _ & _ & _ & Hdata & Hview' & Hlabel').
  simpl. repeat split; try assumption; try discriminate; apply Hlabel'.
Qed.

(** The photo [c.png] dropped on the empty cell (0, 1) of the shown
    diagonal store. *)
Lemma window_onImageDropped_keeps_view_witness :
  fst (@CollageWindow.onImageDropped Props.nearestBackend
         (@Further.shownDiagonal Props.nearestBackend) Props.diagonalDisk 0 1 "c.png")
    <> CollageApp.DropCellOutOfRange /\
  CollageWindow.gridSize
    (snd (@CollageWindow.onImageDropped Props.nearestBackend
            (@Further.shownDiagonal Props.nearestBackend) Props.diagonalDisk 0 1 "c.png"))
    = 3 /\
  CollageWindow.imageData
    (snd (@CollageWindow.onImageDropped Props.nearestBackend
            (@Further.shownDiagonal Props.nearestBackend) Props.diagonalDisk 0 1 "c.png"))
    = <[(0, 1) := Props.entry "c.png" (load Props.diagonalDisk "c.png")]>
        Props.threeDiagonal /\
  @Further.viewShows Props.nearestBackend 160
    (snd (@CollageWindow.onImageDropped Props.nearestBackend
            (@Further.shownDiagonal Props.nearestBackend) Props.diagonalDisk 0 1 "c.png")) /\
  Further.labelCurrent
    (snd (@CollageWindow.onImageDropped Props.nearestBackend
            (@Further.shownDiagonal Props.nearestBackend) Props.diagonalDisk 0 1 "c.png")).
Proof.
  apply (@window_onImageDropped_keeps_view Props.nearestBackend 160
           (@Further.shownDiagonal Props.nearestBackend) Props.diagonalDisk 0 1 "c.png").
  - lia.
  - exact shownDiagonal_view.
  - split; vm_compute; reflexivity.
  - simpl. lia.
  - simpl. lia.
Defined.

Lemma cellSizeFor_nonneg (containerWidth containerHeight N : Z) :
  0 <= CollageWindow.cellSizeFor containerWidth containerHeight N.
Proof. unfold CollageWindow.cellSizeFor. destruct (_ || _); lia. Qed.

Lemma recreateGrid_view `{Backend} (containerWidth containerHeight : Z)
    (app : CollageWindow.t) :
  1 <= CollageWindow.gridSize app ->
  Props.nonNegative (CollageWindow.imageData app) ->
  exists app',
    CollageWindow.recreateGrid containerWidth containerHeight app = Some app' /\
    CollageWindow.gridSize app' = CollageWindow.gridSize app /\
    CollageWindow.maxCollageSize app' = CollageWindow.maxCollageSize app /\
    CollageWindow.imageData app' = CollageWindow.imageData app /\
    CollageWindow.lastWidth app' = CollageWindow.lastWidth app /\
    CollageWindow.lastHeight app' = CollageWindow.lastHeight app /\
    Further.viewShows
      (CollageWindow.cellSizeFor containerWidth containerHeight (CollageWindow.gridSize app))
      app' /\
    Further.labelCurrent app'.
Proof.
  intros HN Hnonneg. unfold CollageWindow.recreateGrid.
  destruct (Z.leb_spec (CollageWindow.gridSize app) 0); [lia|].
  unfold CollageWindow.updateAllThumbnails.
  cbn [CollageWindow.withCells CollageWindow.gridSize CollageWindow.cells
       CollageWindow.imageData].
  destruct (thumbnails_fold (CollageWindow.gridSize app)
              (CollageWindow.cellSizeFor containerWidth containerHeight
                 (CollageWindow.gridSize app))
              (CollageWindow.imageData app) Hnonneg) as (cells & -> & Hcells).
  eexists. split; [reflexivity|]. repeat split. exact Hcells.
Qed.

Section WindowRestore.

Context `{Backend}.
Variable disk : Disk.
Variables newSize cellSize M : Z.
Hypothesis HcellSize : 0 <= cellSize.

(** What holds of the window when the restore loop has visited the
    entries of [visited]. *)
Let restored (visited : gmap (Z * Z) CollageWorker.ImageData) (app : CollageWindow.t)
    : Prop :=
  CollageWindow.gridSize app = newSize /\
  CollageWindow.maxCollageSize app = M /\
  CollageWindow.imageData app = Further.reloadWithinBounds disk newSize visited /\
  Further.viewShows cellSize app /\
  Further.labelCurrent app.

Lemma window_restore_fold (app0 : CollageWindow.t)
    (old : gmap (Z * Z) CollageWorker.ImageData) :
  restored ∅ app0 ->
  Props.nonNegative old ->
  exists app',
    map_fold (CollageWindow.restoreStep disk newSize) (Some app0) old = Some app' /\
    restored old app'.
Proof.
  intros Hstart.
  apply (map_fold_weak_ind
    (fun acc m => Props.nonNegative m -> exists app', acc = Some app' /\ restored m app')).
  - intros _. eauto.
  - intros k d m acc Hfresh IH Hnonneg.
    destruct IH as (app & -> & HN & HM & Hdata & Hview & Hlabel).
    { intros k' d' Hk'. apply (Hnonneg k' d'). rewrite lookup_insert_ne; [exact Hk'|].
      intros ->. congruence. }
    destruct (Hnonneg k d (lookup_insert_eq m k d)) as [Hrow Hcol].
    assert (Hskip : Further.reloadEntry disk newSize k d = None ->
                    restored (<[k := d]> m) app).
    { intros Hnone. repeat split; try assumption; try apply Hlabel.
      rewrite Hdata. unfold Further.reloadWithinBounds.
      rewrite map_imap_insert, Hnone, delete_id; [reflexivity|].
      now rewrite map_lookup_imap, Hfresh. }
    unfold CollageWindow.restoreStep.
    destruct ((k.1 <? newSize) && (k.2 <? newSize)) eqn:Hin.
    2: { exists app. split; [reflexivity|]. apply Hskip.
         unfold Further.reloadEntry. now rewrite Hin. }
    apply andb_true_iff in Hin as [Hr Hc]. apply Z.ltb_lt in Hr, Hc.
    destruct (contains CollageApp.validExtensions
                (toLower (suffix (CollageWorker.path d)))) eqn:Hext.
    2: { destruct (window_onImageDropped_rejected app disk k.1 k.2
                     (CollageWorker.path d) (or_introl Hext)) as [box ->].
         exists app. split; [reflexivity|]. apply Hskip.
         unfold Further.reloadEntry. rewrite Hext.
         now rewrite andb_false_r. }
    destruct (isNull (load disk (CollageWorker.path d))) eqn:Hload.
    { destruct (window_onImageDropped_rejected app disk k.1 k.2
                  (CollageWorker.path d) (or_intror Hload)) as [box ->].
      exists app. split; [reflexivity|]. apply Hskip.
      unfold Further.reloadEntry. rewrite Hload. now rewrite andb_false_r. }
    destruct (window_drop_keeps_view cellSize app disk k.1 k.2 (CollageWorker.path d)
                HcellSize Hview ltac:(lia) ltac:(lia) Hext Hload)
      as (app' & -> & HN' & HM' & _ & _ & Hdata' & Hview' & Hlabel').
    exists app'. split; [reflexivity|].
    split; [congruence|]. split; [congruence|]. split; [|split; assumption].
    assert (Hentry : Further.reloadEntry disk newSize k d =
                     Some (Props.entry (CollageWorker.path d)
                             (load disk (CollageWorker.path d)))).
    { unfold Further.reloadEntry.
      destruct (Z.ltb_spec k.1 newSize); [|lia]. destruct (Z.ltb_spec k.2 newSize); [|lia].
      now rewrite Hext, Hload. }
    rewrite Hdata', Hdata. unfold Further.reloadWithinBounds.
    rewrite map_imap_insert, Hentry. destruct k. reflexivity.
Qed.

End WindowRestore.

(** X20.  A grid-size change with the widgets in view.  For a new size of
    at least 1 that differs from the current one, and a store without
    negative coordinates, [onGridSizeChanged] completes on every disk;
    the new store holds each former entry dropped anew from its path (as
    far as it fits the new grid and still decodes); the widget grid is
    rebuilt at the cell size computed for the container, every cell of it
    shows what the new store holds at its coordinate, and the info label
    counts the new store. *)
Theorem window_onGridSizeChanged_shows_store `{Backend}
    (containerWidth containerHeight : Z) (app : CollageWindow.t) (disk : Disk)
    (newSize : Z) :
  1 <= newSize -> newSize <> CollageWindow.gridSize app ->
  Props.nonNegative (CollageWindow.imageData app) ->
  exists app',
    CollageWindow.onGridSizeChanged containerWidth containerHeight app disk newSize
      = Some app' /\
    CollageWindow.gridSize app' = newSize /\
    CollageWindow.maxCollageSize app' = CollageWindow.maxCollageSize app /\
    CollageWindow.imageData app' =
      Further.reloadWithinBounds disk newSize (CollageWindow.imageData app) /\
    Further.viewShows
      (CollageWindow.cellSizeFor containerWidth containerHeight newSize) app' /\
    Further.labelCurrent app'.
Proof.
  intros Hnew Hne Hnonneg. unfold CollageWindow.onGridSizeChanged.
  destruct (Z.eqb_spec newSize (CollageWindow.gridSize app)); [contradiction|].
  simpl negb. cbv iota.
  match goal with
  | |- context [CollageWindow.recreateGrid _ _ ?a] =>
      destruct (recreateGrid_view containerWidth containerHeight a)
        as (app2 & -> & HN & HM & Hdata & _ & _ & Hview & Hlabel)
  end.
  - exact Hnew.
  - intros k d Hk. simpl in Hk. rewrite lookup_empty in Hk. discriminate.
  - simpl in HN, HM, Hdata, Hview.
    destruct (window_restore_fold disk newSize
                (CollageWindow.cellSizeFor containerWidth containerHeight newSize)
                (CollageWindow.maxCollageSize app)
                (cellSizeFor_nonneg _ _ _) app2 (CollageWindow.imageData app))
      as (app' & -> & HN' & HM' & Hdata' & Hview' & Hlabel').
    + split; [exact HN|]. split; [exact HM|].
      split; [rewrite Hdata; unfold Further.reloadWithinBounds;
              now rewrite map_imap_empty|].
      split; assumption.
    + exact Hnonneg.
    + eexists. split; [reflexivity|]. repeat split; try assumption; apply Hlabel'.
Qed.

(** The shown diagonal store shrunk to 2 x 2 on the changed disk, in a
    container of 780 x 500. *)
Lemma window_onGridSizeChanged_shows_store_witness :
  exists app',
    @CollageWindow.onGridSizeChanged Props.nearestBackend 780 500
      (@Further.shownDiagonal Props.nearestBackend) Further.laterDisk 2 = Some app' /\
    CollageWindow.gridSize app' = 2 /\
    CollageWindow.maxCollageSize app' = 4000 /\
    CollageWindow.imageData app' =
      Further.reloadWithinBounds Further.laterDisk 2 Props.threeDiagonal /\
    @Further.viewShows Props.nearestBackend 240 app' /\
    Further.labelCurrent app'.
Proof.
  apply (@window_onGridSizeChanged_shows_store Props.nearestBackend 780 500
           (@Further.shownDiagonal Props.nearestBackend) Further.laterDisk 2).
  - lia.
  - simpl. lia.
  - exact threeDiagonal_nonNegative.
Defined.

(** X21.  The resize timer.  With a grid of at least one cell a side and
    a store without negative coordinates, [checkWindowSize] does nothing
    at all while the window has the size it had at the last check; when
    the size has changed it records the new size and rebuilds the widget
    grid for the container, keeping grid size, cap and store, so that no
    image is lost and every cell shows what the store holds at its
    coordinate at the new cell size. *)
Theorem checkWindowSize_rebuilds `{Backend} (currentWidth currentHeight : Z)
    (containerWidth containerHeight : Z) (app : CollageWindow.t) :
  1 <= CollageWindow.gridSize app ->
  Props.nonNegative (CollageWindow.imageData app) ->
  exists app',
    CollageWindow.checkWindowSize currentWidth currentHeight
      containerWidth containerHeight app = Some app' /\
    CollageWindow.gridSize app' = CollageWindow.gridSize app /\
    CollageWindow.maxCollageSize app' = CollageWindow.maxCollageSize app /\
    CollageWindow.imageData app' = CollageWindow.imageData app /\
    CollageWindow.lastWidth app' = currentWidth /\
    CollageWindow.lastHeight app' = currentHeight /\
    (if (CollageWindow.lastWidth app =? currentWidth)
        && (CollageWindow.lastHeight app =? currentHeight)
     then app' = app
     else Further.viewShows
            (CollageWindow.cellSizeFor containerWidth containerHeight
               (CollageWindow.gridSize app)) app' /\
          Further.labelCurrent app').
Proof.
  intros HN Hnonneg. unfold CollageWindow.checkWindowSize.
  destruct (Z.eqb_spec (CollageWindow.lastWidth app) currentWidth) as [Ew|Ew];
    destruct (Z.eqb_spec (CollageWindow.lastHeight app) currentHeight) as [Eh|Eh];
    cbn [negb orb andb];
    try (exists app; repeat split; assumption);
    match goal with
    | |- context [CollageWindow.recreateGrid _ _ ?a] =>
        destruct (recreateGrid_view containerWidth containerHeight a HN Hnonneg)
          as (app' & -> & HN' & HM & Hdata & Hlw & Hlh & Hview & Hlabel)
    end;
    exists app'; repeat split; try assumption; apply Hlabel.
Qed.

(** The shown diagonal store, last checked at 800 x 700, in a window now
    1000 x 700 whose container is 780 x 500. *)
Lemma checkWindowSize_rebuilds_witness :
  exists app',
    @CollageWindow.checkWindowSize Props.nearestBackend 1000 700 780 500
      (@Further.shownDiagonal Props.nearestBackend) = Some app' /\
    CollageWindow.gridSize app' = 3 /\
    CollageWindow.maxCollageSize app' = 4000 /\
    CollageWindow.imageData app' = Props.threeDiagonal /\
    CollageWindow.lastWidth app' = 1000 /\
    CollageWindow.lastHeight app' = 700 /\
    (@Further.viewShows Props.nearestBackend 160 app' /\ Further.labelCurrent app').
Proof.
  apply (@checkWindowSize_rebuilds Props.nearestBackend 1000 700 780 500
           (@Further.shownDiagonal Props.nearestBackend)).
  - simpl. lia.
  - exact threeDiagonal_nonNegative.
Defined.

(** ** What a drop can carry *)

(** X22.  Of the URLs of a drop only the first is looked at, and a first
    URL that is not a local file goes to [onImageDropped] as the empty
    path: on a cell of a well-built grid the drop is rejected with the
    "not an image" warning, and store, grid size and info label are left
    as they were. *)
Theorem dropEvent_remote_url_rejected `{Backend} (app : CollageWindow.t) (disk : Disk)
    (row col : Z) (url : string) (rest : list ImageCell.QUrl) :
  Further.gridOf (CollageWindow.gridSize app) (CollageWindow.cells app) ->
  0 <= row < CollageWindow.gridSize app -> 0 <= col < CollageWindow.gridSize app ->
  CollageWindow.dropEvent app disk row col (Some (ImageCell.Remote url :: rest)) =
    CollageWindow.dropEvent app disk row col (Some [ImageCell.Remote url]) /\
  exists app',
    CollageWindow.dropEvent app disk row col (Some (ImageCell.Remote url :: rest)) =
      Some (Some (CollageApp.DropRejected
                    (warning "Предупреждение" "Выбранный файл не является изображением")),
            app') /\
    CollageWindow.imageData app' = CollageWindow.imageData app /\
    CollageWindow.gridSize app' = CollageWindow.gridSize app /\
    CollageWindow.infoText app' = CollageWindow.infoText app /\
    CollageWindow.infoStyle app' = CollageWindow.infoStyle app.
Proof.
  intros Hgrid Hrow Hcol. split; [reflexivity|].
  destruct (Hgrid row col Hrow Hcol) as (cell & Hcell & Hcr & Hcc).
  unfold CollageWindow.dropEvent. rewrite Hcell.
  cbn [ImageCell.dropSignal ImageCell.toLocalFile].
  unfold CollageWindow.onImageDropped.
  replace (contains CollageApp.validExtensions (toLower (suffix EmptyString)))
    with false by (vm_compute; reflexivity).
  simpl negb. cbv iota. rewrite Hcell. eexists. split; [reflexivity|].
  repeat split.
Qed.

(** A link dragged from a browser onto the cell (0, 1). *)
Lemma dropEvent_remote_url_rejected_witness :
  @CollageWindow.dropEvent Props.nearestBackend
    (@Further.shownDiagonal Props.nearestBackend) Props.diagonalDisk 0 1
    (Some [ImageCell.Remote "https://example.org/a.png"; ImageCell.LocalFile "b.png"]) =
  @CollageWindow.dropEvent Props.nearestBackend
    (@Further.shownDiagonal Props.nearestBackend) Props.diagonalDisk 0 1
    (Some [ImageCell.Remote "https://example.org/a.png"]) /\
  exists app',
    @CollageWindow.dropEvent Props.nearestBackend
      (@Further.shownDiagonal Props.nearestBackend) Props.diagonalDisk 0 1
      (Some [ImageCell.Remote "https://example.org/a.png"; ImageCell.LocalFile "b.png"]) =
      Some (Some (CollageApp.DropRejected
                    (warning "Предупреждение" "Выбранный файл не является изображением")),
            app') /\
    CollageWindow.imageData app' = Props.threeDiagonal /\
    CollageWindow.gridSize app' = 3 /\
    CollageWindow.infoText app' = "Заполнено 3 из 9 ячеек" /\
    CollageWindow.infoStyle app' = CollageWindow.styleBlue.
Proof.
  apply (@dropEvent_remote_url_rejected Props.nearestBackend
           (@Further.shownDiagonal Props.nearestBackend) Props.diagonalDisk 0 1
           "https://example.org/a.png" [ImageCell.LocalFile "b.png"]).
  - exact (viewShows_gridOf 160 _ shownDiagonal_view).
  - simpl. lia.
  - simpl. lia.
Defined.

(** ** The worker and the disk *)

(** X23.  [process] works on the images of its snapshot and reads no
    file: the signals it emits and the raster it builds are the same on
    every disk. *)
Theorem process_reads_no_file `{Backend} (w : CollageWorker.t) (disk1 disk2 : Disk) :
  CollageWorker.signals (CollageWorker.process w disk1) =
    CollageWorker.signals (CollageWorker.process w disk2) /\
  CollageWorker.raster (CollageWorker.process w disk1) =
    CollageWorker.raster (CollageWorker.process w disk2).
Proof.
  destruct (Z.eq_dec (snd (CollageWorker.cropPass (CollageWorker.buildImages w)))
              Int.INT_MAX) as [Habsent|Hpresent].
  - rewrite !(process_absent w _ Habsent). auto.
  - destruct (CollageWorker.sizeCap (CollageWorker.gridSize w)
                (CollageWorker.maxCollageSize w)
                (snd (CollageWorker.cropPass (CollageWorker.buildImages w))))
      as [c side] eqn:Hcap.
    rewrite (process_present w disk1 c side Hpresent Hcap _ _ eq_refl eq_refl).
    rewrite (process_present w disk2 c side Hpresent Hcap _ _ eq_refl eq_refl).
    cbn [CollageWorker.signals CollageWorker.raster]. split; [|reflexivity].
    f_equal. unfold save.
    destruct (isNull _); [reflexivity|].
    destruct (writable (CollageWorker.outputPath w)); reflexivity.
Qed.
